(** * A limit order book: shallow embedding of [orderbook.cpp]

    The development follows the C++ source top down: the IEEE-754 [double]
    used for prices, the 64-bit unsigned arithmetic of quantities and
    counters, the slab [MemoryPool], the [Level] FIFO, the price-ordered
    [std::map] ladders and the [OrderBook] operations.  Theorems about the
    operations come after all definitions. *)

From Stdlib Require Import ZArith Bool List Lia.
From Stdlib Require Import Floats.SpecFloat.
From stdpp Require Import base option list sorting gmap.

Open Scope Z_scope.

(** ** Prices: IEEE-754 binary64

    [double] is the binary64 instance of the standard library's
    [spec_float] (53 bits of precision, infinities at exponent 1024). *)

Abbreviation double := spec_float.

Definition dbl_prec : Z := 53.
Definition dbl_emax : Z := 1024.

(** [a - b] and [std::abs] on doubles (round to nearest even). *)
Definition dbl_sub (a b : double) : double := SFsub dbl_prec dbl_emax a b.
Definition dbl_abs (a : double) : double := SFabs a.

(** [std::less<double>] and [std::greater<double>]. *)
Definition dbl_less (a b : double) : bool := SFltb a b.
Definition dbl_greater (a b : double) : bool := SFltb b a.

(** The literals [0.0], [1e-9] and [std::numeric_limits<double>::max()]. *)
Definition dbl_zero : double := S754_zero false.
Definition epsilon : double := S754_finite false 4835703278458517 (-82).
Definition dbl_max : double := SFmax_float dbl_prec dbl_emax.

(** An integer as a double (used to write test prices). *)
Definition dbl_of_Z (z : Z) : double :=
  binary_normalize dbl_prec dbl_emax z 0 false.

Definition is_nan (a : double) : bool :=
  match a with S754_nan => true | _ => false end.

(** ** Unsigned 64-bit arithmetic *)

Definition u64 (z : Z) : Z := z mod 2 ^ 64.

(** ** Core data structures *)

Record Order := mkOrder {
  order_id : Z;
  is_buy : bool;
  price : double;
  quantity : Z;
  timestamp_ns : Z
}.

Record PriceLevel := mkPriceLevel {
  pl_price : double;
  pl_total_quantity : Z
}.

(** ** Memory pool

    A slot address is the pair (number of the block, index in the block);
    blocks are numbered in the order they are allocated, so [head_block] is
    block [blocks_allocated - 1].  The [free_list] vector is kept with its
    back at the head of the list. *)

Abbreviation ptr := (nat * nat)%type.

Record MemoryPool := mkPool {
  free_list : list ptr;
  current_index : nat;
  blocks_allocated : nat;
  total_allocations : Z;
  total_deallocations : Z
}.

Definition allocate_block (pl : MemoryPool) : MemoryPool :=
  {| free_list := free_list pl;
     current_index := 0%nat;
     blocks_allocated := S (blocks_allocated pl);
     total_allocations := total_allocations pl;
     total_deallocations := total_deallocations pl |}.

(** The constructor: [current_index(BlockSize)], then the first block. *)
Definition MemoryPool_new (BlockSize : nat) : MemoryPool :=
  allocate_block
    {| free_list := []; current_index := BlockSize; blocks_allocated := 0%nat;
       total_allocations := 0; total_deallocations := 0 |}.

Definition allocate (BlockSize : nat) (pl : MemoryPool) : ptr * MemoryPool :=
  let n := u64 (total_allocations pl + 1) in
  match free_list pl with
  | p :: rest =>
      (p, {| free_list := rest;
             current_index := current_index pl;
             blocks_allocated := blocks_allocated pl;
             total_allocations := n;
             total_deallocations := total_deallocations pl |})
  | [] =>
      let pl1 := if (BlockSize <=? current_index pl)%nat
                 then allocate_block pl else pl in
      ((pred (blocks_allocated pl1), current_index pl1),
       {| free_list := [];
          current_index := S (current_index pl1);
          blocks_allocated := blocks_allocated pl1;
          total_allocations := n;
          total_deallocations := total_deallocations pl1 |})
  end.

Definition deallocate (p : ptr) (pl : MemoryPool) : MemoryPool :=
  {| free_list := p :: free_list pl;
     current_index := current_index pl;
     blocks_allocated := blocks_allocated pl;
     total_allocations := total_allocations pl;
     total_deallocations := u64 (total_deallocations pl + 1) |}.

(** ** Internal order representation

    [level_iterator] designates the list cell that holds the node's own
    address; since a node is pushed on one FIFO exactly once, the cell is
    identified by that address and the field carries no further data. *)

Record OrderNode := mkNode {
  order : Order;
  original_price : double
}.

Definition OrderNode_new (o : Order) : OrderNode :=
  {| order := o; original_price := price o |}.

Definition set_quantity (n : OrderNode) (q : Z) : OrderNode :=
  {| order := {| order_id := order_id (order n);
                 is_buy := is_buy (order n);
                 price := price (order n);
                 quantity := q;
                 timestamp_ns := timestamp_ns (order n) |};
     original_price := original_price n |}.

Record Level := mkLevel {
  level_price : double;
  total_quantity : Z;
  orders : list ptr;
  order_count : Z
}.

Definition Level_new (p : double) : Level :=
  {| level_price := p; total_quantity := 0; orders := []; order_count := 0 |}.

(** [orders.erase(node->level_iterator)]: unlink the cell of [node]. *)
Fixpoint list_erase (node : ptr) (l : list ptr) : list ptr :=
  match l with
  | [] => []
  | x :: l' => if decide (x = node) then l' else x :: list_erase node l'
  end.

(** The three [Level] methods take the node's address and its contents
    ([n] is what [node] points to when the method is called). *)
Definition Level_add_order (l : Level) (node : ptr) (n : OrderNode) : Level :=
  {| level_price := level_price l;
     total_quantity := u64 (total_quantity l + quantity (order n));
     orders := orders l ++ [node];
     order_count := u64 (order_count l + 1) |}.

Definition Level_remove_order (l : Level) (node : ptr) (n : OrderNode) : Level :=
  {| level_price := level_price l;
     total_quantity := u64 (total_quantity l - quantity (order n));
     orders := list_erase node (orders l);
     order_count := u64 (order_count l - 1) |}.

(** Returns the level and the node after the in-place write. *)
Definition Level_update_quantity (l : Level) (n : OrderNode) (new_quantity : Z)
  : Level * OrderNode :=
  ({| level_price := level_price l;
      total_quantity :=
        u64 (u64 (total_quantity l - quantity (order n)) + new_quantity);
      orders := orders l;
      order_count := order_count l |},
   set_quantity n new_quantity).

Definition Level_is_empty (l : Level) : bool :=
  match orders l with [] => true | _ => false end.

(** ** [std::map<double, Level*, Compare>]

    A ladder side is the sequence of its entries in iteration order.  Each
    [Level] has the map entry as its only owner, so the entry holds the
    level itself; the [level_pool] that hands out its storage has no part in
    what the book computes and is not represented.  Lookup walks to the
    lower bound of the key (the first entry whose key is not ordered before
    it) and compares once more, as the tree search does. *)

Section OrderedMap.
Context {V : Type}.
Variable comp : double -> double -> bool.

Fixpoint map_find (k : double) (m : list (double * V)) : option V :=
    match m with
    | [] => None
    | (k', v) :: m' =>
        if comp k' k then map_find k m'
        else if comp k k' then None
        else Some v
    end.

(** [emplace]: no effect when an equivalent key is present. *)
Fixpoint map_emplace (k : double) (v : V) (m : list (double * V))
    : list (double * V) :=
    match m with
    | [] => [(k, v)]
    | (k', v') :: m' =>
        if comp k' k then (k', v') :: map_emplace k v m'
        else if comp k k' then (k, v) :: m
        else m
    end.

(** [erase(it)] for the iterator returned by [find(k)]. *)
Fixpoint map_erase (k : double) (m : list (double * V)) : list (double * V) :=
    match m with
    | [] => []
    | (k', v') :: m' =>
        if comp k' k then (k', v') :: map_erase k m'
        else if comp k k' then m
        else m'
    end.

(** A write through [it->second] for the iterator returned by [find(k)]. *)
Fixpoint map_store (k : double) (v : V) (m : list (double * V))
    : list (double * V) :=
    match m with
    | [] => []
    | (k', v') :: m' =>
        if comp k' k then (k', v') :: map_store k v m'
        else if comp k k' then m
        else (k', v) :: m'
    end.
End OrderedMap.

(** ** The order book *)

Definition order_pool_block_size : nat := 1024.

Record OrderBook := mkBook {
  order_pool : MemoryPool;
  heap : gmap ptr OrderNode;
  bid_levels : list (double * Level);
  ask_levels : list (double * Level);
  order_lookup : gmap Z ptr;
  total_orders : Z;
  total_cancels : Z;
  total_amends : Z;
  total_snapshots : Z;
  cached_best_bid : double;
  cached_best_ask : double;
  cache_valid : bool
}.

Definition OrderBook_new : OrderBook :=
  {| order_pool := MemoryPool_new order_pool_block_size;
     heap := ∅;
     bid_levels := [];
     ask_levels := [];
     order_lookup := ∅;
     total_orders := 0;
     total_cancels := 0;
     total_amends := 0;
     total_snapshots := 0;
     cached_best_bid := dbl_zero;
     cached_best_ask := dbl_zero;
     cache_valid := false |}.

Section Sides.
Variable comp : double -> double -> bool.

Definition add_to_side (side : list (double * Level)) (node : ptr)
      (n : OrderNode) : list (double * Level) :=
    let k := price (order n) in
    match map_find comp k side with
    | None =>
        let side' := map_emplace comp k (Level_new k) side in
        map_store comp k (Level_add_order (Level_new k) node n) side'
    | Some level =>
        map_store comp k (Level_add_order level node n) side
    end.

Definition remove_from_side (side : list (double * Level)) (node : ptr)
      (n : OrderNode) : list (double * Level) :=
    let k := price (order n) in
    match map_find comp k side with
    | Some level =>
        let level' := Level_remove_order level node n in
        if Level_is_empty level' then map_erase comp k side
        else map_store comp k level' side
    | None => side
    end.

Definition update_quantity_in_place (side : list (double * Level))
      (n : OrderNode) (new_quantity : Z) : list (double * Level) * OrderNode :=
    let k := price (order n) in
    match map_find comp k side with
    | Some level =>
        let '(level', n') := Level_update_quantity level n new_quantity in
        (map_store comp k level' side, n')
    | None => (side, n)
    end.
End Sides.

(** [order_lookup.emplace(id, node)] keeps an existing entry. *)
Definition lookup_emplace (id : Z) (node : ptr) (m : gmap Z ptr) : gmap Z ptr :=
  match m !! id with
  | Some _ => m
  | None => <[id := node]> m
  end.

Definition add_order (o : Order) (b : OrderBook) : OrderBook :=
  let '(node, pool') := allocate order_pool_block_size (order_pool b) in
  let n := OrderNode_new o in
  {| order_pool := pool';
     heap := <[node := n]> (heap b);
     bid_levels :=
       if is_buy o then add_to_side dbl_greater (bid_levels b) node n
       else bid_levels b;
     ask_levels :=
       if is_buy o then ask_levels b
       else add_to_side dbl_less (ask_levels b) node n;
     order_lookup := lookup_emplace (order_id o) node (order_lookup b);
     total_orders := u64 (total_orders b + 1);
     total_cancels := total_cancels b;
     total_amends := total_amends b;
     total_snapshots := total_snapshots b;
     cached_best_bid := cached_best_bid b;
     cached_best_ask := cached_best_ask b;
     cache_valid := false |}.

(** The address [add_order] will obtain from the pool. *)
Definition next_node (b : OrderBook) : ptr :=
  fst (allocate order_pool_block_size (order_pool b)).

(** Dereferencing an address that was never handed out by the pool has no
    meaning in the source; the operations leave the book alone there.  The
    index of a well-formed book only holds live addresses. *)
Definition cancel_order (id : Z) (b : OrderBook) : bool * OrderBook :=
  match order_lookup b !! id with
  | None => (false, b)
  | Some node =>
      match heap b !! node with
      | None => (false, b)
      | Some n =>
          (true,
           {| order_pool := deallocate node (order_pool b);
              heap := heap b;
              bid_levels :=
                if is_buy (order n)
                then remove_from_side dbl_greater (bid_levels b) node n
                else bid_levels b;
              ask_levels :=
                if is_buy (order n) then ask_levels b
                else remove_from_side dbl_less (ask_levels b) node n;
              order_lookup := delete id (order_lookup b);
              total_orders := total_orders b;
              total_cancels := u64 (total_cancels b + 1);
              total_amends := total_amends b;
              total_snapshots := total_snapshots b;
              cached_best_bid := cached_best_bid b;
              cached_best_ask := cached_best_ask b;
              cache_valid := false |})
      end
  end.

Definition bump_amends (b : OrderBook) : OrderBook :=
  {| order_pool := order_pool b;
     heap := heap b;
     bid_levels := bid_levels b;
     ask_levels := ask_levels b;
     order_lookup := order_lookup b;
     total_orders := total_orders b;
     total_cancels := total_cancels b;
     total_amends := u64 (total_amends b + 1);
     total_snapshots := total_snapshots b;
     cached_best_bid := cached_best_bid b;
     cached_best_ask := cached_best_ask b;
     cache_valid := cache_valid b |}.

(** [std::abs(old_price - new_price) > epsilon]. *)
Definition price_changes (old_price new_price : double) : bool :=
  dbl_less epsilon (dbl_abs (dbl_sub old_price new_price)).

(** [now] is the reading of [high_resolution_clock] taken by the call. *)
Definition amend_order (now : Z) (id : Z) (new_price : double)
    (new_quantity : Z) (b : OrderBook) : bool * OrderBook :=
  match order_lookup b !! id with
  | None => (false, b)
  | Some node =>
      match heap b !! node with
      | None => (false, b)
      | Some n =>
          if price_changes (price (order n)) new_price then
            let new_order :=
              {| order_id := order_id (order n);
                 is_buy := is_buy (order n);
                 price := new_price;
                 quantity := new_quantity;
                 timestamp_ns := now |} in
            let b1 := snd (cancel_order id b) in
            let b2 := add_order new_order b1 in
            (true, bump_amends b2)
          else
            let '(bids', n1) :=
              if is_buy (order n)
              then update_quantity_in_place dbl_greater (bid_levels b) n
                     new_quantity
              else (bid_levels b, n) in
            let '(asks', n2) :=
              if is_buy (order n) then (ask_levels b, n1)
              else update_quantity_in_place dbl_less (ask_levels b) n
                     new_quantity in
            (true,
             {| order_pool := order_pool b;
                heap := <[node := n2]> (heap b);
                bid_levels := bids';
                ask_levels := asks';
                order_lookup := order_lookup b;
                total_orders := total_orders b;
                total_cancels := total_cancels b;
                total_amends := u64 (total_amends b + 1);
                total_snapshots := total_snapshots b;
                cached_best_bid := cached_best_bid b;
                cached_best_ask := cached_best_ask b;
                cache_valid := false |})
      end
  end.

(** The loop [for (entry : side) { if (count++ >= depth) break; emplace_back }]. *)
Fixpoint snapshot_side (count depth : Z) (side : list (double * Level))
    (out : list PriceLevel) : list PriceLevel :=
  match side with
  | [] => out
  | (k, level) :: rest =>
      if depth <=? count then out
      else snapshot_side (u64 (count + 1)) depth rest
             (out ++ [{| pl_price := k;
                         pl_total_quantity := total_quantity level |}])
  end.

(** The exceptions [std::vector::reserve] throws. *)
Inductive exn := length_error | bad_alloc.

(** [std::vector<PriceLevel>::max_size()]: [PTRDIFF_MAX / sizeof(PriceLevel)]
    for entries of 16 bytes (libstdc++, 64-bit). *)
Definition vector_max_size : Z := 2 ^ 59 - 1.

(** What [get_snapshot] finds outside the book: the capacities of the
    caller's two vectors ([size_t] values), and whether the allocator
    serves the request a [reserve] makes when the capacity falls short. *)
Record snapshot_env := mkEnv {
  bids_capacity : Z;
  asks_capacity : Z;
  bids_served : bool;
  asks_served : bool
}.

(** [v.reserve(n)] on a vector of capacity [cap]: the capacity afterwards,
    or the exception thrown. *)
Definition vector_reserve (cap : Z) (served : bool) (n : Z) : exn + Z :=
  if vector_max_size <? n then inl length_error
  else if n <=? cap then inr cap
  else if served then inr n
  else inl bad_alloc.

(** How a call of [get_snapshot] ends, with the caller's two vectors as it
    leaves them. *)
Inductive snapshot_result :=
| Returned (bids asks : list PriceLevel)
| Thrown (e : exn) (bids asks : list PriceLevel).

(** [bids] and [asks] are the caller's vectors on entry.  The counter is
    written first and both vectors are cleared before the two [reserve]
    calls, so the book after the call is the same however it ends; after
    the reserves the capacity is at least [depth], and no [emplace_back]
    of the loops allocates. *)
Definition get_snapshot (depth : Z) (bids asks : list PriceLevel)
    (b : OrderBook) : (snapshot_env -> snapshot_result) * OrderBook :=
  let bids0 : list PriceLevel := [] in
  let asks0 : list PriceLevel := [] in
  (fun env =>
     match vector_reserve (bids_capacity env) (bids_served env) depth with
     | inl e => Thrown e bids0 asks0
     | inr _ =>
         match vector_reserve (asks_capacity env) (asks_served env) depth with
         | inl e => Thrown e bids0 asks0
         | inr _ =>
             Returned (snapshot_side 0 depth (bid_levels b) bids0)
                      (snapshot_side 0 depth (ask_levels b) asks0)
         end
     end,
   {| order_pool := order_pool b;
      heap := heap b;
      bid_levels := bid_levels b;
      ask_levels := ask_levels b;
      order_lookup := order_lookup b;
      total_orders := total_orders b;
      total_cancels := total_cancels b;
      total_amends := total_amends b;
      total_snapshots := u64 (total_snapshots b + 1);
      cached_best_bid := cached_best_bid b;
      cached_best_ask := cached_best_ask b;
      cache_valid := cache_valid b |}).

Definition front_price (side : list (double * Level)) (sentinel : double)
  : double :=
  match side with
  | [] => sentinel
  | (k, _) :: _ => k
  end.

Definition get_best_prices (b : OrderBook) : (double * double) * OrderBook :=
  if cache_valid b then ((cached_best_bid b, cached_best_ask b), b)
  else
    let bid := front_price (bid_levels b) dbl_zero in
    let ask := front_price (ask_levels b) dbl_max in
    ((bid, ask),
     {| order_pool := order_pool b;
        heap := heap b;
        bid_levels := bid_levels b;
        ask_levels := ask_levels b;
        order_lookup := order_lookup b;
        total_orders := total_orders b;
        total_cancels := total_cancels b;
        total_amends := total_amends b;
        total_snapshots := total_snapshots b;
        cached_best_bid := bid;
        cached_best_ask := ask;
        cache_valid := true |}).

(** [a >= b] and [a == b] on doubles. *)
Definition dbl_ge (a b : double) : bool := SFleb b a.
Definition dbl_eq (a b : double) : bool := SFeqb a b.

(** [can_match] reads the best prices through [get_best_prices], so it
    may fill the cache. *)
Definition can_match (b : OrderBook) : bool * OrderBook :=
  match bid_levels b, ask_levels b with
  | [], _ => (false, b)
  | _, [] => (false, b)
  | _, _ =>
      let r := get_best_prices b in
      (dbl_ge (fst (fst r)) (snd (fst r)), snd r)
  end.

Record Stats := mkStats {
  stats_total_orders : Z;
  stats_total_cancels : Z;
  stats_total_amends : Z;
  stats_active_orders : Z;
  stats_bid_levels : Z;
  stats_ask_levels : Z;
  stats_best_bid : double;
  stats_best_ask : double;
  stats_spread : double
}.

Definition get_stats (b : OrderBook) : Stats * OrderBook :=
  let r := get_best_prices b in
  let best_bid := fst (fst r) in
  let best_ask := snd (fst r) in
  ({| stats_total_orders := total_orders b;
      stats_total_cancels := total_cancels b;
      stats_total_amends := total_amends b;
      stats_active_orders := u64 (Z.of_nat (size (order_lookup b)));
      stats_bid_levels := u64 (Z.of_nat (length (bid_levels b)));
      stats_ask_levels := u64 (Z.of_nat (length (ask_levels b)));
      stats_best_bid := best_bid;
      stats_best_ask := best_ask;
      stats_spread :=
        if dbl_eq best_ask dbl_max then dbl_zero
        else dbl_sub best_ask best_bid |},
   snd r).

(** ** Sequences of public operations *)

Inductive op :=
| OpAdd (o : Order)
| OpCancel (id : Z)
| OpAmend (now id : Z) (new_price : double) (new_quantity : Z)
| OpSnapshot (depth : Z) (bids asks : list PriceLevel)
| OpBestPrices.

Definition step (b : OrderBook) (a : op) : OrderBook :=
  match a with
  | OpAdd o => add_order o b
  | OpCancel id => snd (cancel_order id b)
  | OpAmend now id new_price new_quantity =>
      snd (amend_order now id new_price new_quantity b)
  | OpSnapshot depth bids asks => snd (get_snapshot depth bids asks b)
  | OpBestPrices => snd (get_best_prices b)
  end.

Definition run (ops : list op) (b : OrderBook) : OrderBook :=
  fold_left step ops b.

(** The order id an operation names, if any. *)
Definition op_id (a : op) : option Z :=
  match a with
  | OpAdd o => Some (order_id o)
  | OpCancel id => Some id
  | OpAmend _ id _ _ => Some id
  | OpSnapshot _ _ _ => None
  | OpBestPrices => None
  end.

(** [std::map] asks its comparison for a strict weak ordering, which [<]
    on doubles is only away from NaN: added prices must be numbers. *)
Definition op_valid (a : op) : Prop :=
  match a with
  | OpAdd o => is_nan (price o) = false
  | _ => True
  end.

(** ** Specification vocabulary *)

Class StrictWeakOrder (comp : double -> double -> bool) : Prop := {
  swo_irrefl : forall a, comp a a = false;
  swo_trans : forall a b c,
    comp a b = true -> comp b c = true -> comp a c = true;
  swo_neg_trans : forall a b c,
    is_nan b = false -> comp a c = true -> comp a b = true \/ comp b c = true
}.

(** Keys the map cannot tell apart. *)
Definition key_equiv (comp : double -> double -> bool) (a b : double) : Prop :=
  comp a b = false /\ comp b a = false.

Definition key_equivb (comp : double -> double -> bool) (a b : double) : bool :=
  negb (comp a b) && negb (comp b a).

Definition comp_of (buy : bool) : double -> double -> bool :=
  if buy then dbl_greater else dbl_less.

Definition side_of (buy : bool) (b : OrderBook) : list (double * Level) :=
  if buy then bid_levels b else ask_levels b.

Definition quantity_at (h : gmap ptr OrderNode) (p : ptr) : Z :=
  match h !! p with
  | Some n => quantity (order n)
  | None => 0
  end.

(** The sum of the quantities of the nodes of a FIFO, as an integer. *)
Fixpoint sum_quantities (h : gmap ptr OrderNode) (ps : list ptr) : Z :=
  match ps with
  | [] => 0
  | p :: ps' => quantity_at h p + sum_quantities h ps'
  end.

(** All node addresses held by the FIFOs of a side, in ladder order. *)
Definition side_ptrs (side : list (double * Level)) : list ptr :=
  concat (map (fun e => orders (snd e)) side).

Definition book_ptrs (b : OrderBook) : list ptr :=
  side_ptrs (bid_levels b) ++ side_ptrs (ask_levels b).

(** The FIFO of the level a side holds at key [k], empty if there is none. *)
Definition fifo_at (comp : double -> double -> bool) (k : double)
    (side : list (double * Level)) : list ptr :=
  match map_find comp k side with
  | Some l => orders l
  | None => []
  end.

Definition side_keys (side : list (double * Level)) : list double :=
  map fst side.

(** The FIFOs of a side, without the aggregates. *)
Definition side_fifos (side : list (double * Level))
  : list (double * list ptr) :=
  map (fun e => (fst e, orders (snd e))) side.

Definition node_ok (h : gmap ptr OrderNode) (buy : bool) (k : double)
    (p : ptr) : Prop :=
  exists n, h !! p = Some n /\ is_buy (order n) = buy /\
            is_nan (price (order n)) = false /\
            key_equiv (comp_of buy) (price (order n)) k.

(** The aggregates of a level, read in [uint64_t]. *)
Definition level_aggregates (h : gmap ptr OrderNode) (l : Level) : Prop :=
  total_quantity l = u64 (sum_quantities h (orders l)) /\
  order_count l = u64 (Z.of_nat (length (orders l))).

Definition level_ok (h : gmap ptr OrderNode) (buy : bool)
    (e : double * Level) : Prop :=
  is_nan (fst e) = false /\
  orders (snd e) <> [] /\
  Forall (node_ok h buy (fst e)) (orders (snd e)) /\
  level_aggregates h (snd e).

Definition side_sorted (comp : double -> double -> bool)
    (side : list (double * Level)) : Prop :=
  StronglySorted (fun e1 e2 => comp (fst e1) (fst e2) = true) side.

Definition side_ok (h : gmap ptr OrderNode) (buy : bool)
    (side : list (double * Level)) : Prop :=
  side_sorted (comp_of buy) side /\ Forall (level_ok h buy) side.

(** Slots the bump allocator has handed out at least once. *)
Definition slot_used (pl : MemoryPool) (p : ptr) : Prop :=
  (fst p < blocks_allocated pl)%nat /\
  (S (fst p) = blocks_allocated pl -> (snd p < current_index pl)%nat).

Definition pool_ok (pl : MemoryPool) (live : list ptr) : Prop :=
  (0 < blocks_allocated pl)%nat /\
  NoDup (free_list pl) /\
  (forall p, p ∈ free_list pl -> slot_used pl p /\ p ∉ live) /\
  (forall p, p ∈ live -> slot_used pl p).

Definition index_ok (b : OrderBook) : Prop :=
  forall id p, order_lookup b !! id = Some p ->
    p ∈ book_ptrs b /\
    exists n, heap b !! p = Some n /\ order_id (order n) = id.

Definition cache_ok (b : OrderBook) : Prop :=
  cache_valid b = true ->
  cached_best_bid b = front_price (bid_levels b) dbl_zero /\
  cached_best_ask b = front_price (ask_levels b) dbl_max.

(** Well-formed books: what every sequence of valid operations maintains. *)
Record wf (b : OrderBook) : Prop := mkWf {
  wf_sides : forall buy, side_ok (heap b) buy (side_of buy b);
  wf_nodup : NoDup (book_ptrs b);
  wf_index : index_ok b;
  wf_pool : pool_ok (order_pool b) (book_ptrs b);
  wf_cache : cache_ok b
}.

(** An order with this id rests in the ladder. *)
Definition resting (id : Z) (b : OrderBook) : Prop :=
  exists p n, p ∈ book_ptrs b /\ heap b !! p = Some n /\
              order_id (order n) = id.

(** Every node held by a FIFO is the one the index has for its id. *)
Definition no_orphans (b : OrderBook) : Prop :=
  forall p, p ∈ book_ptrs b ->
    exists n, heap b !! p = Some n /\
              order_lookup b !! order_id (order n) = Some p.

(** Sequences that respect the input constraint of [add]: no [add] names
    an id that is indexed when it is issued. *)
Fixpoint ids_fresh (ops : list op) (b : OrderBook) : Prop :=
  match ops with
  | [] => True
  | a :: ops' =>
      match a with
      | OpAdd o => order_lookup b !! order_id o = None
      | _ => True
      end /\ ids_fresh ops' (step b a)
  end.

(** The level invariant of the specification, with the sum of quantities
    taken over the integers. *)
Definition level_exact (h : gmap ptr OrderNode) (l : Level) : Prop :=
  orders l <> [] /\
  total_quantity l = sum_quantities h (orders l) /\
  order_count l = Z.of_nat (length (orders l)).

(** [a] comes before [b] in the FIFO [l]. *)
Definition precedes (a b : ptr) (l : list ptr) : Prop :=
  exists l1 l2 l3, l = l1 ++ a :: l2 ++ b :: l3.

(** What a snapshot reports for a ladder entry. *)
Definition level_entry (e : double * Level) : PriceLevel :=
  {| pl_price := fst e; pl_total_quantity := total_quantity (snd e) |}.

(** What one operation can do to a FIFO: unlink one cell, then push one. *)
Definition fifo_edit (c x : option ptr) (l : list ptr) : list ptr :=
  let l1 := match c with Some c => list_erase c l | None => l end in
  match x with Some x => l1 ++ [x] | None => l1 end.

(** ** Sample books *)

Definition sample_order (id : Z) (buy : bool) (p q : Z) : Order :=
  {| order_id := id; is_buy := buy; price := dbl_of_Z p; quantity := q;
     timestamp_ns := 0 |}.

(** One bid, id 1, 10 @ 100. *)
Definition book_one : OrderBook :=
  add_order (sample_order 1 true 100 10) OrderBook_new.

(** Two bids at 100 (ids 1 and 2) and one ask at 101 (id 3). *)
Definition book_three : OrderBook :=
  add_order (sample_order 3 false 101 30)
    (add_order (sample_order 2 true 100 20) book_one).

(** Two bids at 100 whose quantities add up to [2^64]. *)
Definition book_large : OrderBook :=
  add_order (sample_order 2 true 100 (2 ^ 63))
    (add_order (sample_order 1 true 100 (2 ^ 63)) OrderBook_new).

(** Id 1 added twice at 100 (10, then 5), then cancelled once. *)
Definition book_duplicate : OrderBook :=
  run [OpAdd (sample_order 1 true 100 10); OpAdd (sample_order 1 true 100 5);
       OpCancel 1] OrderBook_new.

(** One bid added, then cancelled. *)
Definition book_emptied : OrderBook :=
  run [OpAdd (sample_order 1 true 100 10); OpCancel 1] OrderBook_new.

(** Vectors without capacity and an allocator that serves every request. *)
Definition roomy : snapshot_env :=
  {| bids_capacity := 0; asks_capacity := 0;
     bids_served := true; asks_served := true |}.

(** Two bids at 100; the one added first carries the later timestamp. *)
Definition early_order : Order :=
  {| order_id := 1; is_buy := true; price := dbl_of_Z 100; quantity := 10;
     timestamp_ns := 9 |}.

Definition late_order : Order :=
  {| order_id := 2; is_buy := true; price := dbl_of_Z 100; quantity := 20;
     timestamp_ns := 3 |}.

(** The number of slots the bump allocator has handed out. *)
Definition pool_slots (BlockSize : nat) (pl : MemoryPool) : nat :=
  (pred (blocks_allocated pl) * BlockSize + current_index pl)%nat.

(** The accounts of the order pool against the nodes the ladder holds. *)
Definition pool_balanced (b : OrderBook) : Prop :=
  (0 < blocks_allocated (order_pool b))%nat /\
  (current_index (order_pool b) <= order_pool_block_size)%nat /\
  pool_slots order_pool_block_size (order_pool b) =
    (length (free_list (order_pool b)) + length (book_ptrs b))%nat /\
  u64 (total_allocations (order_pool b) - total_deallocations (order_pool b))
    = u64 (Z.of_nat (length (book_ptrs b))).

(** The index holds as many ids as adds were counted and not cancelled. *)
Definition counters_balanced (b : OrderBook) : Prop :=
  u64 (Z.of_nat (size (order_lookup b))) =
  u64 (total_orders b - total_cancels b).

(** Rank of a double that is not NaN in the order [<]: class, then
    exponent, then mantissa. *)
Definition dbl_rank (a : double) : Z * Z * Z :=
  match a with
  | S754_zero _ => (0, 0, 0)
  | S754_infinity s => (if s then -2 else 2, 0, 0)
  | S754_nan => (0, 0, 0)
  | S754_finite s m e =>
      if s then (-1, - e, - Z.pos m) else (1, e, Z.pos m)
  end.

Definition lex_lt (x y : Z * Z * Z) : Prop :=
  let '(x1, x2, x3) := x in
  let '(y1, y2, y3) := y in
  x1 < y1 \/ (x1 = y1 /\ (x2 < y2 \/ (x2 = y2 /\ x3 < y3))).

(** * Properties *)

(** ** Doubles and 64-bit arithmetic *)

Lemma pos_compare_cont_spec (x y : positive) :
  CompareSpec (x = y) (x < y)%positive (y < x)%positive
    (PosDef.Pos.compare_cont Eq x y).
Proof. exact (Pos.compare_spec x y). Qed.

Ltac rank_cases :=
  split;
  [ intros; try discriminate; repeat split; lia
  | intros (? & ? & ?); try discriminate; try reflexivity; lia ].

Lemma dbl_less_rank a b :
  dbl_less a b = true <->
  is_nan a = false /\ is_nan b = false /\ lex_lt (dbl_rank a) (dbl_rank b).
Proof.
  unfold dbl_less, SFltb, SFcompare.
  destruct a as [sa|sa| |sa ma ea], b as [sb|sb| |sb mb eb];
    try destruct sa; try destruct sb; cbn; try rank_cases.
  - destruct (Z.compare_spec ea eb); subst;
      [ destruct (pos_compare_cont_spec ma mb); cbn | | ]; rank_cases.
  - destruct (Z.compare_spec ea eb); subst;
      [ destruct (pos_compare_cont_spec ma mb); cbn | | ]; rank_cases.
Qed.

Lemma lex_lt_irrefl x : ~ lex_lt x x.
Proof. destruct x as [[? ?] ?]; cbn; lia. Qed.

Lemma lex_lt_trans x y z : lex_lt x y -> lex_lt y z -> lex_lt x z.
Proof.
  destruct x as [[? ?] ?], y as [[? ?] ?], z as [[? ?] ?]; cbn; lia.
Qed.

Lemma lex_lt_neg_trans x y z : lex_lt x z -> lex_lt x y \/ lex_lt y z.
Proof.
  destruct x as [[? ?] ?], y as [[? ?] ?], z as [[? ?] ?]; cbn; lia.
Qed.

#[global] Instance dbl_less_swo : StrictWeakOrder dbl_less.
Proof.
  split.
  - intros a. destruct (dbl_less a a) eqn:E; [|reflexivity].
    apply dbl_less_rank in E as (_ & _ & E). destruct (lex_lt_irrefl _ E).
  - intros a b c H1 H2.
    apply dbl_less_rank in H1 as (? & ? & ?).
    apply dbl_less_rank in H2 as (? & ? & ?).
    apply dbl_less_rank; eauto using lex_lt_trans.
  - intros a b c Hb H.
    apply dbl_less_rank in H as (? & ? & H).
    destruct (lex_lt_neg_trans _ (dbl_rank b) _ H);
      [left | right]; apply dbl_less_rank; auto.
Qed.

#[global] Instance dbl_greater_swo : StrictWeakOrder dbl_greater.
Proof.
  unfold dbl_greater. split.
  - intros a. apply (swo_irrefl (comp := dbl_less)).
  - intros a b c H1 H2. exact (swo_trans (comp := dbl_less) _ _ _ H2 H1).
  - intros a b c Hb H.
    destruct (swo_neg_trans (comp := dbl_less) _ b _ Hb H); auto.
Qed.

#[global] Instance comp_of_swo buy : StrictWeakOrder (comp_of buy).
Proof. destruct buy; cbn; apply _. Qed.
Lemma u64_add_l a b : u64 (u64 a + b) = u64 (a + b).
Proof. unfold u64. apply Zplus_mod_idemp_l. Qed.

Lemma u64_sub_l a b : u64 (u64 a - b) = u64 (a - b).
Proof. unfold u64. apply Zminus_mod_idemp_l. Qed.

Lemma u64_small a : 0 <= a < 2 ^ 64 -> u64 a = a.
Proof. unfold u64. apply Z.mod_small. Qed.

Lemma u64_range a : 0 <= u64 a < 2 ^ 64.
Proof. unfold u64. apply Z.mod_pos_bound. lia. Qed.

(** ** FIFO lists *)

Lemma list_erase_split p l :
  p ∈ l ->
  exists l1 l2, l = l1 ++ p :: l2 /\ (p ∉ l1) /\ list_erase p l = l1 ++ l2.
Proof.
  induction l as [|x l IH]; intros Hin.
  - inversion Hin.
  - cbn. destruct (decide (x = p)) as [->|Hne].
    + exists [], l. repeat split. apply not_elem_of_nil.
    + apply elem_of_cons in Hin as [->|Hin]; [done|].
      destruct (IH Hin) as (l1 & l2 & -> & Hni & ->).
      exists (x :: l1), l2. repeat split.
      rewrite not_elem_of_cons. split; [congruence | done].
Qed.

Lemma list_erase_absent p l : p ∉ l -> list_erase p l = l.
Proof.
  induction l as [|x l IH]; intros Hni; [done|].
  apply not_elem_of_cons in Hni as [Hne Hni]. cbn.
  destruct (decide (x = p)); [congruence|]. by rewrite IH.
Qed.

Lemma list_erase_perm p l : p ∈ l -> l ≡ₚ p :: list_erase p l.
Proof.
  intros (l1 & l2 & -> & _ & ->)%list_erase_split.
  symmetry. apply Permutation_middle.
Qed.

Lemma list_erase_subset p q l : q ∈ list_erase p l -> q ∈ l.
Proof.
  induction l as [|x l IH]; cbn; [done|].
  destruct (decide (x = p)).
  - intros. by apply elem_of_cons; right.
  - rewrite !elem_of_cons. intros [->|H]; auto.
Qed.

Lemma list_erase_other p q l : q <> p -> q ∈ l -> q ∈ list_erase p l.
Proof.
  intros Hne. induction l as [|x l IH]; cbn; [done|].
  rewrite elem_of_cons. destruct (decide (x = p)) as [->|].
  - intros [->|H]; [done | auto].
  - rewrite elem_of_cons. intros [->|H]; auto.
Qed.

Lemma list_erase_nodup p l : NoDup l -> p ∉ list_erase p l.
Proof.
  induction 1 as [|x l Hx Hl IH]; cbn.
  - apply not_elem_of_nil.
  - destruct (decide (x = p)) as [->|Hne]; [done|].
    rewrite not_elem_of_cons. split; [congruence | done].
Qed.

Lemma precedes_app_r a b l l' : precedes a b l -> precedes a b (l ++ l').
Proof.
  intros (l1 & l2 & l3 & ->). exists l1, l2, (l3 ++ l').
  by rewrite <- !app_assoc, <- !app_comm_cons, <- !app_assoc.
Qed.

Lemma precedes_snoc a b l : a ∈ l -> precedes a b (l ++ [b]).
Proof.
  intros (l1 & l2 & ->)%list_elem_of_split. exists l1, l2, [].
  by rewrite <- app_assoc.
Qed.

Lemma list_erase_app_l p l l' :
  p ∈ l -> list_erase p (l ++ l') = list_erase p l ++ l'.
Proof.
  induction l as [|x l IH]; intros Hin; [inversion Hin|]. cbn.
  destruct (decide (x = p)); [done|].
  apply elem_of_cons in Hin as [->|Hin]; [done|]. by rewrite IH.
Qed.

Lemma list_erase_app_r p l l' :
  p ∉ l -> list_erase p (l ++ l') = l ++ list_erase p l'.
Proof.
  induction l as [|x l IH]; intros Hni; [done|]. cbn.
  apply not_elem_of_cons in Hni as [Hne Hni].
  destruct (decide (x = p)); [congruence|]. by rewrite IH.
Qed.

Lemma precedes_erase a b c l :
  c <> a -> c <> b -> precedes a b l -> precedes a b (list_erase c l).
Proof.
  intros Ha Hb (l1 & l2 & l3 & ->).
  destruct (decide (c ∈ l1)) as [H1|H1].
  { rewrite list_erase_app_l by done. by exists (list_erase c l1), l2, l3. }
  rewrite list_erase_app_r by done. cbn.
  destruct (decide (a = c)); [congruence|].
  destruct (decide (c ∈ l2)) as [H2|H2].
  { rewrite list_erase_app_l by done. by exists l1, (list_erase c l2), l3. }
  rewrite list_erase_app_r by done. cbn.
  destruct (decide (b = c)); [congruence|].
  by exists l1, l2, (list_erase c l3).
Qed.

(** ** Sums of quantities *)

Lemma sum_quantities_app h l1 l2 :
  sum_quantities h (l1 ++ l2) = sum_quantities h l1 + sum_quantities h l2.
Proof. induction l1 as [|x l1 IH]; cbn; [done|]. rewrite IH. lia. Qed.

Lemma sum_quantities_frame h h' ps :
  (forall p, p ∈ ps -> h' !! p = h !! p) ->
  sum_quantities h' ps = sum_quantities h ps.
Proof.
  induction ps as [|x ps IH]; intros Hf; cbn; [done|].
  rewrite IH by (intros; apply Hf; by apply elem_of_cons; right).
  unfold quantity_at. rewrite Hf by (apply elem_of_cons; by left). done.
Qed.

Lemma sum_quantities_erase h p ps :
  p ∈ ps ->
  sum_quantities h (list_erase p ps) = sum_quantities h ps - quantity_at h p.
Proof.
  intros (l1 & l2 & -> & _ & ->)%list_erase_split.
  rewrite !sum_quantities_app. cbn. lia.
Qed.

Lemma sum_quantities_write h p n ps :
  NoDup ps -> p ∈ ps ->
  sum_quantities (<[p := n]> h) ps =
  sum_quantities h ps - quantity_at h p + quantity (order n).
Proof.
  intros Hnd (l1 & l2 & ->)%list_elem_of_split.
  apply NoDup_app in Hnd as (_ & H1 & Hnd).
  apply NoDup_cons in Hnd as [H2 _].
  rewrite !sum_quantities_app. cbn.
  rewrite (sum_quantities_frame h (<[p:=n]> h) l1).
  2:{ intros q Hq. apply lookup_insert_ne. intros ->.
      apply (H1 q Hq). by apply elem_of_cons; left. }
  rewrite (sum_quantities_frame h (<[p:=n]> h) l2).
  2:{ intros q Hq. apply lookup_insert_ne. by intros ->. }
  assert (quantity_at (<[p:=n]> h) p = quantity (order n)) as ->
    by (unfold quantity_at; by rewrite lookup_insert_eq).
  lia.
Qed.

(** ** The ordered map *)

Section OrderedMapLemmas.
Context (comp : double -> double -> bool) `{!StrictWeakOrder comp}.
Implicit Types (m : list (double * Level)) (k : double) (l : Level).

Lemma key_equivb_spec a b : key_equivb comp a b = true <-> key_equiv comp a b.
Proof.
  unfold key_equivb, key_equiv.
  destruct (comp a b), (comp b a); cbn; intuition congruence.
Qed.

Lemma key_equiv_refl a : key_equiv comp a a.
Proof. split; apply swo_irrefl. Qed.

Lemma key_equiv_sym a b : key_equiv comp a b -> key_equiv comp b a.
Proof. intros [? ?]; by split. Qed.

Lemma key_equiv_comp_l a b c :
  key_equiv comp a b -> is_nan a = false -> is_nan b = false ->
  comp a c = comp b c.
Proof.
  intros [Hab Hba] Ha Hb.
  destruct (comp a c) eqn:E1, (comp b c) eqn:E2; try done.
  - destruct (swo_neg_trans a b c Hb E1); congruence.
  - destruct (swo_neg_trans b a c Ha E2); congruence.
Qed.

Lemma key_equiv_comp_r a b c :
  key_equiv comp a b -> is_nan a = false -> is_nan b = false ->
  comp c a = comp c b.
Proof.
  intros [Hab Hba] Ha Hb.
  destruct (comp c a) eqn:E1, (comp c b) eqn:E2; try done.
  - destruct (swo_neg_trans c b a Hb E1); congruence.
  - destruct (swo_neg_trans c a b Ha E2); congruence.
Qed.

Lemma key_equivb_congr a b c :
  key_equiv comp a b -> is_nan a = false -> is_nan b = false ->
  key_equivb comp c a = key_equivb comp c b.
Proof.
  intros H Ha Hb. unfold key_equivb.
  by rewrite (key_equiv_comp_l a b c H Ha Hb), (key_equiv_comp_r a b c H Ha Hb).
Qed.

Lemma map_find_Some_split k m l :
  map_find comp k m = Some l ->
  exists m1 k' m2,
    m = m1 ++ (k', l) :: m2 /\ key_equiv comp k k' /\
    (forall l', map_store comp k l' m = m1 ++ (k', l') :: m2) /\
    map_erase comp k m = m1 ++ m2.
Proof.
  induction m as [|[k0 l0] m IH]; cbn; [done|].
  destruct (comp k0 k) eqn:E1.
  - intros (m1 & k' & m2 & -> & Hk & Hst & Her)%IH.
    exists ((k0, l0) :: m1), k', m2. repeat split; try apply Hk.
    + intros l'. by rewrite Hst.
    + by rewrite Her.
  - destruct (comp k k0) eqn:E2; [done|]. intros [= ->].
    exists [], k0, m. by repeat split.
Qed.

Lemma map_find_None_split k m :
  map_find comp k m = None ->
  exists m1 m2,
    m = m1 ++ m2 /\
    Forall (fun e => comp (fst e) k = true) m1 /\
    Forall (fun e => comp k (fst e) = true) (take 1 m2) /\
    (forall l, map_emplace comp k l m = m1 ++ (k, l) :: m2) /\
    (forall l l', map_store comp k l' (m1 ++ (k, l) :: m2)
                  = m1 ++ (k, l') :: m2).
Proof.
  induction m as [|[k0 l0] m IH]; cbn.
  - intros _. exists [], []. cbn. rewrite swo_irrefl. by repeat split.
  - destruct (comp k0 k) eqn:E1.
    + intros (m1 & m2 & -> & H1 & H2 & Hem & Hst)%IH.
      exists ((k0, l0) :: m1), m2. repeat split; try done.
      * by constructor.
      * intros l. by rewrite Hem.
      * intros l l'. cbn. by rewrite E1, Hst.
    + destruct (comp k k0) eqn:E2; [|done]. intros _.
      exists [], ((k0, l0) :: m). cbn. rewrite swo_irrefl.
      repeat split; try done. by repeat constructor.
Qed.

Lemma map_find_above k m :
  Forall (fun e => comp k (fst e) = true) m -> map_find comp k m = None.
Proof.
  destruct 1 as [|[k0 l0] m H0 _]; cbn in *; [done|].
  destruct (comp k0 k) eqn:E; [|by rewrite H0].
  pose proof (swo_trans _ _ _ H0 E) as Hkk. by rewrite swo_irrefl in Hkk.
Qed.

Lemma side_sorted_cons k l m :
  side_sorted comp ((k, l) :: m) <->
  Forall (fun e => comp k (fst e) = true) m /\ side_sorted comp m.
Proof. unfold side_sorted. by rewrite StronglySorted_cons. Qed.

Lemma side_sorted_middle m1 k l m2 :
  side_sorted comp (m1 ++ (k, l) :: m2) <->
  side_sorted comp (m1 ++ m2) /\
  Forall (fun e => comp (fst e) k = true) m1 /\
  Forall (fun e => comp k (fst e) = true) m2.
Proof.
  unfold side_sorted.
  rewrite !StronglySorted_app, StronglySorted_cons, !Forall_forall.
  setoid_rewrite elem_of_cons. split.
  - intros (H1 & H2 & H3 & H4). split_and!; eauto.
    intros x Hx. apply (H1 x (k, l)); auto.
  - intros ((H1 & H2 & H3) & H4 & H5). split_and!; eauto.
    intros x1 x2 Hx1 [->|Hx2]; eauto.
Qed.

Lemma side_sorted_insert m1 k l m2 :
  side_sorted comp (m1 ++ m2) ->
  Forall (fun e => comp (fst e) k = true) m1 ->
  Forall (fun e => comp k (fst e) = true) (take 1 m2) ->
  side_sorted comp (m1 ++ (k, l) :: m2).
Proof.
  intros Hs H1 H2. apply side_sorted_middle. repeat split; try done.
  apply StronglySorted_app_1_r in Hs.
  destruct m2 as [|[k2 l2] m2]; [constructor|].
  apply side_sorted_cons in Hs as [Hs _].
  apply Forall_cons in H2 as [H2 _]. constructor; [done|].
  eapply Forall_impl; [exact Hs|]. cbn. intros e He.
  by eapply swo_trans.
Qed.

Lemma map_find_middle m1 k' l m2 k :
  side_sorted comp (m1 ++ (k', l) :: m2) -> is_nan k = false ->
  map_find comp k (m1 ++ (k', l) :: m2) =
  if key_equivb comp k k' then Some l else map_find comp k (m1 ++ m2).
Proof.
  intros Hs Hk. induction m1 as [|[k0 l0] m1 IH]; cbn in *.
  - apply side_sorted_cons in Hs as [Hs _]. unfold key_equivb.
    destruct (comp k' k) eqn:E1.
    { by rewrite andb_false_r. }
    destruct (comp k k') eqn:E2; cbn; [|done].
    symmetry. apply map_find_above.
    eapply Forall_impl; [exact Hs|]. cbn. intros e He. by eapply swo_trans.
  - apply side_sorted_cons in Hs as [H0 Hs].
    destruct (comp k0 k) eqn:E1; [by apply IH|].
    apply Forall_app in H0 as [_ H0]. apply Forall_cons in H0 as [H0 _].
    cbn in H0. destruct (swo_neg_trans k0 k k' Hk H0) as [?|E2]; [congruence|].
    unfold key_equivb. by rewrite E2.
Qed.

Lemma map_find_elem k m l :
  map_find comp k m = Some l -> exists k', (k', l) ∈ m /\ key_equiv comp k k'.
Proof.
  intros (m1 & k' & m2 & -> & Hk & _)%map_find_Some_split.
  exists k'. split; [|done]. apply elem_of_app; right. by apply elem_of_cons; left.
Qed.

Lemma map_find_complete k k' l m :
  side_sorted comp m -> is_nan k = false ->
  (k', l) ∈ m -> key_equiv comp k k' -> map_find comp k m = Some l.
Proof.
  intros Hs Hk (m1 & m2 & ->)%list_elem_of_split Heq.
  rewrite map_find_middle by done.
  apply key_equivb_spec in Heq. by rewrite Heq.
Qed.

End OrderedMapLemmas.

(** ** One side of the ladder *)

Lemma side_ptrs_app m1 m2 : side_ptrs (m1 ++ m2) = side_ptrs m1 ++ side_ptrs m2.
Proof. unfold side_ptrs. by rewrite map_app, concat_app. Qed.

Lemma side_ptrs_cons e m : side_ptrs (e :: m) = orders (snd e) ++ side_ptrs m.
Proof. done. Qed.

Lemma side_ptrs_middle m1 e m2 :
  side_ptrs (m1 ++ e :: m2) = side_ptrs m1 ++ orders (snd e) ++ side_ptrs m2.
Proof. by rewrite side_ptrs_app, side_ptrs_cons. Qed.

Lemma side_ptrs_elem p side :
  p ∈ side_ptrs side <-> exists e, e ∈ side /\ p ∈ orders (snd e).
Proof.
  induction side as [|e side IH].
  - cbn. split; [by intros ?%elem_of_nil | by intros (? & ?%elem_of_nil & _)].
  - rewrite side_ptrs_cons, elem_of_app, IH. split.
    + intros [H|(e' & He' & H)].
      * exists e. split; [by apply elem_of_cons; left | done].
      * exists e'. split; [by apply elem_of_cons; right | done].
    + intros (e' & [->|He']%elem_of_cons & H); [by left | right; eauto].
Qed.

Lemma level_aggregates_new h k : level_aggregates h (Level_new k).
Proof. by split. Qed.

Section SideLemmas.
Context (buy : bool).
Local Abbreviation comp := (comp_of buy).
Implicit Types (side : list (double * Level)) (h : gmap ptr OrderNode).
Implicit Types (n : OrderNode) (node : ptr).

Lemma node_ok_frame h h' k p :
  h' !! p = h !! p -> node_ok h buy k p -> node_ok h' buy k p.
Proof. intros Hp (n & Hn & ?). exists n. by rewrite Hp. Qed.

Lemma level_ok_frame h h' e :
  (forall p, p ∈ orders (snd e) -> h' !! p = h !! p) ->
  level_ok h buy e -> level_ok h' buy e.
Proof.
  intros Hf (Hk & Hne & Hall & Ht & Hc). split_and!; try done.
  - apply Forall_forall. intros p Hp.
    apply (node_ok_frame h); [by apply Hf|].
    by apply (proj1 (Forall_forall _ _) Hall).
  - split; [|done]. by rewrite (sum_quantities_frame h h').
Qed.

Lemma side_levels_frame h h' side :
  (forall p, p ∈ side_ptrs side -> h' !! p = h !! p) ->
  Forall (level_ok h buy) side -> Forall (level_ok h' buy) side.
Proof.
  intros Hf Hall. apply Forall_forall. intros e He.
  apply (level_ok_frame h).
  - intros p Hp. apply Hf, side_ptrs_elem. eauto.
  - by apply (proj1 (Forall_forall _ _) Hall).
Qed.

Lemma side_ok_frame h h' side :
  (forall p, p ∈ side_ptrs side -> h' !! p = h !! p) ->
  side_ok h buy side -> side_ok h' buy side.
Proof. intros Hf [? ?]. split; [done|]. by apply (side_levels_frame h). Qed.

Lemma side_ok_key h side k l :
  side_ok h buy side -> (k, l) ∈ side -> is_nan k = false.
Proof.
  intros [_ Hall] He. by destruct (proj1 (Forall_forall _ _) Hall _ He).
Qed.

(** *** [add_to_side] *)

Lemma add_to_side_shape side node n :
  exists m1 k' l0 m2,
    add_to_side comp side node n
      = m1 ++ (k', Level_add_order l0 node n) :: m2 /\
    key_equiv comp (price (order n)) k' /\
    ((side = m1 ++ (k', l0) :: m2 /\
      map_find comp (price (order n)) side = Some l0) \/
     (side = m1 ++ m2 /\ k' = price (order n) /\ l0 = Level_new k' /\
      map_find comp (price (order n)) side = None /\
      Forall (fun e => comp (fst e) k' = true) m1 /\
      Forall (fun e => comp k' (fst e) = true) (take 1 m2))).
Proof.
  unfold add_to_side. destruct (map_find comp _ side) as [l0|] eqn:E.
  - destruct (map_find_Some_split comp _ _ _ E) as (m1 & k' & m2 & -> & Hk & Hst & _).
    exists m1, k', l0, m2. rewrite Hst. split_and!; auto.
  - destruct (map_find_None_split comp _ _ E) as (m1 & m2 & -> & H1 & H2 & Hem & Hst).
    exists m1, (price (order n)), (Level_new (price (order n))), m2.
    rewrite Hem, Hst. split_and!; auto using key_equiv_refl with typeclass_instances.
    right. split_and!; auto.
Qed.

Lemma add_to_side_sorted side node n :
  side_sorted comp side -> side_sorted comp (add_to_side comp side node n).
Proof.
  intros Hs.
  destruct (add_to_side_shape side node n)
    as (m1 & k' & l0 & m2 & -> & _ & [[-> _]|(-> & _ & _ & _ & H1 & H2)]).
  - apply (side_sorted_middle comp). by apply (side_sorted_middle comp) in Hs.
  - by apply (side_sorted_insert comp).
Qed.

Lemma add_to_side_ptrs side node n :
  side_ptrs (add_to_side comp side node n) ≡ₚ node :: side_ptrs side.
Proof.
  destruct (add_to_side_shape side node n)
    as (m1 & k' & l0 & m2 & -> & _ & [[-> _]|(-> & _ & -> & _)]);
    rewrite !side_ptrs_middle; cbn.
  - rewrite <- !app_assoc. cbn.
    by rewrite <- !Permutation_middle.
  - rewrite side_ptrs_app. by rewrite <- Permutation_middle.
Qed.

Lemma add_to_side_find h side node n k :
  side_ok h buy side -> is_nan k = false -> is_nan (price (order n)) = false ->
  map_find comp k (add_to_side comp side node n) =
  if key_equivb comp k (price (order n))
  then Some (Level_add_order
               (default (Level_new (price (order n)))
                  (map_find comp (price (order n)) side)) node n)
  else map_find comp k side.
Proof.
  intros Hok Hk Hp.
  pose proof (add_to_side_sorted side node n (proj1 Hok)) as Hs'.
  destruct (add_to_side_shape side node n)
    as (m1 & k' & l0 & m2 & Heq & Hkk & [[-> Hf]|(-> & -> & -> & Hf & _)]);
    rewrite Heq in *; rewrite Hf; cbn.
  - assert (is_nan k' = false) as Hk'.
    { eapply side_ok_key; [exact Hok|]. apply elem_of_app; right.
      by apply elem_of_cons; left. }
    rewrite !(map_find_middle comp) by (done || apply Hok).
    rewrite (key_equivb_congr comp _ _ k Hkk Hp Hk').
    by destruct (key_equivb comp k k').
  - by rewrite (map_find_middle comp) by done.
Qed.

Lemma Level_add_order_ok h k l0 node n :
  is_nan k = false ->
  Forall (node_ok h buy k) (orders l0) -> level_aggregates h l0 ->
  node ∉ orders l0 ->
  is_buy (order n) = buy -> is_nan (price (order n)) = false ->
  key_equiv comp (price (order n)) k ->
  level_ok (<[node := n]> h) buy (k, Level_add_order l0 node n).
Proof.
  intros Hk Hall [Ht Hc] Hni Hb Hp Hkk.
  assert (forall p, p ∈ orders l0 -> <[node:=n]> h !! p = h !! p) as Hfr.
  { intros p Hin. apply lookup_insert_ne. by intros ->. }
  unfold level_ok, level_aggregates. split_and!; cbn; try done.
  - by intros [? ?]%app_eq_nil.
  - apply Forall_app. split.
    + apply Forall_forall. intros p Hin. apply (node_ok_frame h); [auto|].
      by apply (proj1 (Forall_forall _ _) Hall).
    + constructor; [|constructor]. exists n. by rewrite lookup_insert_eq.
  - rewrite Ht, u64_add_l, sum_quantities_app.
    rewrite (sum_quantities_frame h (<[node:=n]> h) (orders l0) Hfr).
    cbn. unfold quantity_at. rewrite lookup_insert_eq. f_equal. lia.
  - rewrite Hc, u64_add_l, length_app. cbn. f_equal. lia.
Qed.

Lemma add_to_side_ok h side node n :
  side_ok h buy side ->
  is_buy (order n) = buy -> is_nan (price (order n)) = false ->
  node ∉ side_ptrs side ->
  side_ok (<[node := n]> h) buy (add_to_side comp side node n).
Proof.
  intros Hok Hb Hp Hni. split; [apply add_to_side_sorted, Hok|].
  destruct Hok as [_ Hall].
  destruct (add_to_side_shape side node n)
    as (m1 & k' & l0 & m2 & -> & Hkk & [[-> Hf]|(-> & -> & -> & Hf & _)]).
  - rewrite side_ptrs_middle, !not_elem_of_app in Hni. destruct Hni as (N1 & N0 & N2).
    apply Forall_app in Hall as [A1 A2]. apply Forall_cons in A2 as [A0 A2].
    destruct A0 as (Hk & _ & Hnodes & Hagg). cbn in *.
    apply Forall_app. split; [|constructor].
    + apply (side_levels_frame h); [|done].
      intros p Hin. apply lookup_insert_ne. by intros ->.
    + by apply Level_add_order_ok.
    + apply (side_levels_frame h); [|done].
      intros p Hin. apply lookup_insert_ne. by intros ->.
  - rewrite side_ptrs_app, !not_elem_of_app in Hni. destruct Hni as (N1 & N2).
    apply Forall_app in Hall as [A1 A2].
    apply Forall_app. split; [|constructor].
    + apply (side_levels_frame h); [|done].
      intros p Hin. apply lookup_insert_ne. by intros ->.
    + apply Level_add_order_ok;
        [done | constructor | apply level_aggregates_new
        | apply not_elem_of_nil | done | done | done].
    + apply (side_levels_frame h); [|done].
      intros p Hin. apply lookup_insert_ne. by intros ->.
Qed.

End SideLemmas.

Lemma Level_is_empty_spec l : Level_is_empty l = true <-> orders l = [].
Proof. unfold Level_is_empty. by destruct (orders l). Qed.

Section SideRemove.
Context (buy : bool).
Local Abbreviation comp := (comp_of buy).
Implicit Types (side : list (double * Level)) (h : gmap ptr OrderNode).
Implicit Types (n : OrderNode) (node : ptr).

Lemma map_find_skip m1 k' l m2 k :
  side_sorted comp (m1 ++ (k', l) :: m2) ->
  is_nan k = false -> is_nan k' = false -> key_equiv comp k k' ->
  map_find comp k (m1 ++ m2) = None.
Proof.
  intros Hs Hk Hk' Heq.
  apply (side_sorted_middle comp) in Hs as (_ & H1 & H2).
  induction m1 as [|[k0 l0] m1 IH]; cbn.
  - apply (map_find_above comp). eapply Forall_impl; [exact H2|].
    cbn. intros e He. by rewrite (key_equiv_comp_l comp k k' _ Heq Hk Hk').
  - apply Forall_cons in H1 as [H0 H1]. cbn in H0.
    rewrite (key_equiv_comp_r comp k k' _ Heq Hk Hk'), H0. by apply IH.
Qed.

(** *** [remove_from_side] *)

Lemma remove_from_side_shape side node n l0 :
  map_find comp (price (order n)) side = Some l0 ->
  exists m1 k' m2,
    side = m1 ++ (k', l0) :: m2 /\
    key_equiv comp (price (order n)) k' /\
    remove_from_side comp side node n =
      if Level_is_empty (Level_remove_order l0 node n) then m1 ++ m2
      else m1 ++ (k', Level_remove_order l0 node n) :: m2.
Proof.
  intros E. unfold remove_from_side. rewrite E.
  destruct (map_find_Some_split comp _ _ _ E) as (m1 & k' & m2 & -> & Hk & Hst & Her).
  exists m1, k', m2. rewrite Hst, Her. by split_and!.
Qed.

Lemma remove_from_side_sorted side node n :
  side_sorted comp side -> side_sorted comp (remove_from_side comp side node n).
Proof.
  intros Hs. destruct (map_find comp (price (order n)) side) as [l0|] eqn:E.
  - destruct (remove_from_side_shape side node n l0 E) as (m1 & k' & m2 & -> & _ & ->).
    apply (side_sorted_middle comp) in Hs as (? & ? & ?).
    destruct (Level_is_empty _); [done|]. by apply (side_sorted_middle comp).
  - unfold remove_from_side. by rewrite E.
Qed.

Lemma remove_from_side_ptrs side node n l0 :
  map_find comp (price (order n)) side = Some l0 -> node ∈ orders l0 ->
  side_ptrs side ≡ₚ node :: side_ptrs (remove_from_side comp side node n).
Proof.
  intros E Hin.
  destruct (remove_from_side_shape side node n l0 E) as (m1 & k' & m2 & -> & _ & ->).
  rewrite side_ptrs_middle. cbn.
  rewrite (list_erase_perm node (orders l0) Hin) at 1.
  destruct (Level_is_empty _) eqn:Ee.
  - apply Level_is_empty_spec in Ee. cbn in Ee. rewrite Ee, side_ptrs_app. cbn.
    by rewrite <- Permutation_middle.
  - rewrite side_ptrs_middle. cbn. by rewrite <- Permutation_middle.
Qed.

Lemma remove_from_side_find h side node n l0 k :
  side_ok h buy side -> is_nan k = false -> is_nan (price (order n)) = false ->
  map_find comp (price (order n)) side = Some l0 ->
  map_find comp k (remove_from_side comp side node n) =
  if key_equivb comp k (price (order n))
  then (if Level_is_empty (Level_remove_order l0 node n) then None
        else Some (Level_remove_order l0 node n))
  else map_find comp k side.
Proof.
  intros Hok Hk Hp E.
  pose proof (remove_from_side_sorted side node n (proj1 Hok)) as Hs'.
  destruct (remove_from_side_shape side node n l0 E)
    as (m1 & k' & m2 & -> & Hkk & Heq). rewrite Heq in *.
  assert (is_nan k' = false) as Hk'.
  { eapply side_ok_key; [exact Hok|]. apply elem_of_app; right.
    by apply elem_of_cons; left. }
  rewrite (key_equivb_congr comp _ _ k Hkk Hp Hk').
  rewrite (map_find_middle comp m1 k' l0) by (done || apply Hok).
  destruct (Level_is_empty _).
  - destruct (key_equivb comp k k') eqn:Ek; [|done].
    apply (key_equivb_spec comp) in Ek.
    by apply (map_find_skip m1 k' l0 m2); [apply Hok| | |].
  - rewrite (map_find_middle comp) by done.
    by destruct (key_equivb comp k k').
Qed.

Lemma Level_remove_order_ok h k l0 node n :
  level_ok h buy (k, l0) -> node ∈ orders l0 -> h !! node = Some n ->
  Level_is_empty (Level_remove_order l0 node n) = false ->
  level_ok h buy (k, Level_remove_order l0 node n).
Proof.
  intros (Hk & _ & Hall & Ht & Hc) Hin Hn Hne. cbn in Hk, Hall, Ht, Hc.
  unfold level_ok, level_aggregates. split_and!; cbn; try done.
  - intros Hnil.
    assert (Level_is_empty (Level_remove_order l0 node n) = true)
      by (by apply Level_is_empty_spec).
    congruence.
  - apply Forall_forall. intros p Hp%list_erase_subset.
    by apply (proj1 (Forall_forall _ _) Hall).
  - rewrite Ht, u64_sub_l, sum_quantities_erase by done.
    unfold quantity_at. by rewrite Hn.
  - rewrite Hc, u64_sub_l. f_equal.
    pose proof (Permutation_length (list_erase_perm _ _ Hin)) as Hl.
    cbn in Hl. lia.
Qed.

Lemma remove_from_side_ok h side node n l0 :
  side_ok h buy side ->
  map_find comp (price (order n)) side = Some l0 -> node ∈ orders l0 ->
  h !! node = Some n ->
  side_ok h buy (remove_from_side comp side node n).
Proof.
  intros Hok E Hin Hn. split; [apply remove_from_side_sorted, Hok|].
  destruct Hok as [_ Hall].
  destruct (remove_from_side_shape side node n l0 E) as (m1 & k' & m2 & -> & _ & ->).
  apply Forall_app in Hall as [A1 A2]. apply Forall_cons in A2 as [A0 A2].
  destruct (Level_is_empty _) eqn:Ee.
  - by apply Forall_app.
  - apply Forall_app. split; [done|]. constructor; [|done].
    by apply Level_remove_order_ok.
Qed.

(** *** [update_quantity_in_place] *)

Lemma update_quantity_shape side n q l0 :
  map_find comp (price (order n)) side = Some l0 ->
  exists m1 k' m2,
    side = m1 ++ (k', l0) :: m2 /\
    key_equiv comp (price (order n)) k' /\
    update_quantity_in_place comp side n q =
      (m1 ++ (k', fst (Level_update_quantity l0 n q)) :: m2, set_quantity n q).
Proof.
  intros E. unfold update_quantity_in_place. rewrite E. cbn.
  destruct (map_find_Some_split comp _ _ _ E) as (m1 & k' & m2 & -> & Hk & Hst & _).
  exists m1, k', m2. by rewrite Hst.
Qed.

Lemma update_quantity_fifos side n q :
  side_fifos (fst (update_quantity_in_place comp side n q)) = side_fifos side.
Proof.
  destruct (map_find comp (price (order n)) side) as [l0|] eqn:E.
  - destruct (update_quantity_shape side n q l0 E) as (m1 & k' & m2 & -> & _ & ->).
    cbn. unfold side_fifos. by rewrite !map_app.
  - unfold update_quantity_in_place. by rewrite E.
Qed.

Lemma update_quantity_ptrs side n q :
  side_ptrs (fst (update_quantity_in_place comp side n q)) = side_ptrs side.
Proof.
  destruct (map_find comp (price (order n)) side) as [l0|] eqn:E.
  - destruct (update_quantity_shape side n q l0 E) as (m1 & k' & m2 & -> & _ & ->).
    cbn [fst]. by rewrite !side_ptrs_middle.
  - unfold update_quantity_in_place. by rewrite E.
Qed.


Lemma Level_update_quantity_ok h k l0 node n q :
  level_ok h buy (k, l0) -> NoDup (orders l0) -> node ∈ orders l0 ->
  h !! node = Some n ->
  level_ok (<[node := set_quantity n q]> h) buy
    (k, fst (Level_update_quantity l0 n q)).
Proof.
  intros (Hk & Hne & Hall & Ht & Hc) Hnd Hin Hn. cbn in *.
  unfold level_ok, level_aggregates. split_and!; cbn; try done.
  - apply Forall_forall. intros p Hp.
    destruct (proj1 (Forall_forall _ _) Hall p Hp) as (n0 & Hn0 & Hb & Hnan & Hkk).
    destruct (decide (p = node)) as [->|Hne'].
    + exists (set_quantity n q). rewrite lookup_insert_eq.
      assert (n0 = n) as -> by congruence. by split_and!.
    + exists n0. by rewrite lookup_insert_ne.
  - rewrite Ht, u64_sub_l, u64_add_l, sum_quantities_write by done.
    unfold quantity_at. by rewrite Hn.
Qed.

Lemma update_quantity_ok h side node n q l0 :
  side_ok h buy side -> NoDup (side_ptrs side) ->
  map_find comp (price (order n)) side = Some l0 -> node ∈ orders l0 ->
  h !! node = Some n ->
  side_ok (<[node := set_quantity n q]> h) buy
    (fst (update_quantity_in_place comp side n q)).
Proof.
  intros [Hs Hall] Hnd E Hin Hn.
  destruct (update_quantity_shape side n q l0 E) as (m1 & k' & m2 & -> & _ & ->).
  cbn [fst].
  rewrite side_ptrs_middle in Hnd. cbn in Hnd.
  apply NoDup_app in Hnd as (_ & D1 & Hnd).
  apply NoDup_app in Hnd as (D0 & D2 & _).
  apply Forall_app in Hall as [A1 A2]. apply Forall_cons in A2 as [A0 A2].
  split.
  - apply (side_sorted_middle comp). by apply (side_sorted_middle comp) in Hs.
  - apply Forall_app. split; [|constructor].
    + apply (side_levels_frame buy h); [|done].
      intros p Hp. apply lookup_insert_ne. intros ->.
      apply (D1 p Hp). apply elem_of_app. by left.
    + by apply Level_update_quantity_ok.
    + apply (side_levels_frame buy h); [|done].
      intros p Hp. apply lookup_insert_ne. intros ->. by apply (D2 p).
Qed.

End SideRemove.

(** ** The pool *)

Lemma allocate_ok BlockSize pl live :
  pool_ok pl live ->
  (fst (allocate BlockSize pl) ∉ live) /\
  forall live',
    (forall q, q ∈ live' <-> q = fst (allocate BlockSize pl) \/ q ∈ live) ->
    pool_ok (snd (allocate BlockSize pl)) live'.
Proof.
  intros (Hb & Hnd & Hfree & Hlive). unfold allocate.
  destruct (free_list pl) as [|p rest] eqn:Ef; cbn [fst snd].
  - assert (forall q, slot_used pl q ->
              q <> (pred (blocks_allocated
                            (if (BlockSize <=? current_index pl)%nat
                             then allocate_block pl else pl)),
                    current_index
                      (if (BlockSize <=? current_index pl)%nat
                       then allocate_block pl else pl))) as Hfresh.
    { intros [q1 q2] [H1 H2] [= -> ->]. cbn in *.
      destruct (BlockSize <=? current_index pl)%nat; cbn in *; lia. }
    split.
    { intros Hin. by apply (Hfresh _ (Hlive _ Hin)). }
    intros live' Hl'. unfold pool_ok, slot_used. cbn. split_and!.
    + destruct (BlockSize <=? current_index pl)%nat; cbn; lia.
    + constructor.
    + intros q Hq. by apply elem_of_nil in Hq.
    + intros q [->|Hq]%Hl'; cbn.
      * destruct (BlockSize <=? current_index pl)%nat; cbn; lia.
      * destruct (Hlive q Hq) as [H1 H2].
        destruct (BlockSize <=? current_index pl)%nat; cbn; lia.
  - apply NoDup_cons in Hnd as [Hp Hnd].
    destruct (Hfree p) as [Hpu Hpl]; [by apply elem_of_cons; left|].
    split; [done|]. intros live' Hl'. unfold pool_ok. cbn. split_and!; try done.
    + intros q Hq. destruct (Hfree q) as [Hqu Hql]; [by apply elem_of_cons; right|].
      split; [done|]. intros [->|?]%Hl'; done.
    + intros q [->|Hq]%Hl'; [done|]. by apply Hlive.
Qed.

Lemma deallocate_ok pl live p live' :
  pool_ok pl live -> p ∈ live ->
  (forall q, q ∈ live' <-> q ∈ live /\ q <> p) ->
  pool_ok (deallocate p pl) live'.
Proof.
  intros (Hb & Hnd & Hfree & Hlive) Hp Hl'. unfold pool_ok. cbn. split_and!.
  - done.
  - constructor; [|done]. intros Hin. by destruct (Hfree p Hin).
  - intros q [->|Hq]%elem_of_cons.
    + split; [by apply Hlive|]. by intros [_ ?]%Hl'.
    + destruct (Hfree q Hq) as [? Hql]. split; [done|]. by intros [? _]%Hl'.
  - intros q [Hq _]%Hl'. by apply Hlive.
Qed.

(** ** Projections of the operations *)

Lemma add_order_unfold o b :
  add_order o b =
  {| order_pool := snd (allocate order_pool_block_size (order_pool b));
     heap := <[next_node b := OrderNode_new o]> (heap b);
     bid_levels :=
       if is_buy o
       then add_to_side dbl_greater (bid_levels b) (next_node b) (OrderNode_new o)
       else bid_levels b;
     ask_levels :=
       if is_buy o then ask_levels b
       else add_to_side dbl_less (ask_levels b) (next_node b) (OrderNode_new o);
     order_lookup := lookup_emplace (order_id o) (next_node b) (order_lookup b);
     total_orders := u64 (total_orders b + 1);
     total_cancels := total_cancels b;
     total_amends := total_amends b;
     total_snapshots := total_snapshots b;
     cached_best_bid := cached_best_bid b;
     cached_best_ask := cached_best_ask b;
     cache_valid := false |}.
Proof.
  unfold add_order, next_node.
  by destruct (allocate order_pool_block_size (order_pool b)).
Qed.

Lemma add_order_side o b buy :
  side_of buy (add_order o b) =
  if eqb (is_buy o) buy
  then add_to_side (comp_of buy) (side_of buy b) (next_node b) (OrderNode_new o)
  else side_of buy b.
Proof. rewrite add_order_unfold. by destruct buy, (is_buy o). Qed.

Lemma cancel_order_found id b node n :
  order_lookup b !! id = Some node -> heap b !! node = Some n ->
  cancel_order id b =
  (true,
   {| order_pool := deallocate node (order_pool b);
      heap := heap b;
      bid_levels :=
        if is_buy (order n)
        then remove_from_side dbl_greater (bid_levels b) node n
        else bid_levels b;
      ask_levels :=
        if is_buy (order n) then ask_levels b
        else remove_from_side dbl_less (ask_levels b) node n;
      order_lookup := delete id (order_lookup b);
      total_orders := total_orders b;
      total_cancels := u64 (total_cancels b + 1);
      total_amends := total_amends b;
      total_snapshots := total_snapshots b;
      cached_best_bid := cached_best_bid b;
      cached_best_ask := cached_best_ask b;
      cache_valid := false |}).
Proof. intros H1 H2. unfold cancel_order. by rewrite H1, H2. Qed.

Lemma cancel_order_side id b node n buy :
  order_lookup b !! id = Some node -> heap b !! node = Some n ->
  side_of buy (snd (cancel_order id b)) =
  if eqb (is_buy (order n)) buy
  then remove_from_side (comp_of buy) (side_of buy b) node n
  else side_of buy b.
Proof.
  intros H1 H2. rewrite (cancel_order_found id b node n H1 H2).
  by destruct buy, (is_buy (order n)).
Qed.

Lemma cancel_order_absent id b :
  order_lookup b !! id = None -> cancel_order id b = (false, b).
Proof. intros H. unfold cancel_order. by rewrite H. Qed.

Lemma amend_order_absent now id new_price new_quantity b :
  order_lookup b !! id = None ->
  amend_order now id new_price new_quantity b = (false, b).
Proof. intros H. unfold amend_order. by rewrite H. Qed.

Lemma amend_order_price now id new_price new_quantity b node n :
  order_lookup b !! id = Some node -> heap b !! node = Some n ->
  price_changes (price (order n)) new_price = true ->
  amend_order now id new_price new_quantity b =
  (true,
   bump_amends
     (add_order
        {| order_id := order_id (order n);
           is_buy := is_buy (order n);
           price := new_price;
           quantity := new_quantity;
           timestamp_ns := now |}
        (snd (cancel_order id b)))).
Proof. intros H1 H2 H3. unfold amend_order. by rewrite H1, H2, H3. Qed.

Lemma amend_order_quantity now id new_price new_quantity b node n :
  order_lookup b !! id = Some node -> heap b !! node = Some n ->
  price_changes (price (order n)) new_price = false ->
  amend_order now id new_price new_quantity b =
  (true,
   {| order_pool := order_pool b;
      heap := <[node := if is_buy (order n)
                        then snd (update_quantity_in_place dbl_greater
                                    (bid_levels b) n new_quantity)
                        else snd (update_quantity_in_place dbl_less
                                    (ask_levels b) n new_quantity)]> (heap b);
      bid_levels :=
        if is_buy (order n)
        then fst (update_quantity_in_place dbl_greater (bid_levels b) n
                    new_quantity)
        else bid_levels b;
      ask_levels :=
        if is_buy (order n) then ask_levels b
        else fst (update_quantity_in_place dbl_less (ask_levels b) n
                    new_quantity);
      order_lookup := order_lookup b;
      total_orders := total_orders b;
      total_cancels := total_cancels b;
      total_amends := u64 (total_amends b + 1);
      total_snapshots := total_snapshots b;
      cached_best_bid := cached_best_bid b;
      cached_best_ask := cached_best_ask b;
      cache_valid := false |}).
Proof.
  intros H1 H2 H3. unfold amend_order. rewrite H1, H2, H3.
  destruct (is_buy (order n)).
  - by destruct (update_quantity_in_place dbl_greater _ _ _).
  - by destruct (update_quantity_in_place dbl_less _ _ _).
Qed.

Lemma amend_order_quantity_side now id new_price new_quantity b node n buy :
  order_lookup b !! id = Some node -> heap b !! node = Some n ->
  price_changes (price (order n)) new_price = false ->
  side_of buy (snd (amend_order now id new_price new_quantity b)) =
  if eqb (is_buy (order n)) buy
  then fst (update_quantity_in_place (comp_of buy) (side_of buy b) n
              new_quantity)
  else side_of buy b.
Proof.
  intros H1 H2 H3. rewrite (amend_order_quantity _ _ _ _ _ _ _ H1 H2 H3).
  by destruct buy, (is_buy (order n)).
Qed.

(** ** Well-formed books *)

Lemma book_ptrs_sides b :
  book_ptrs b = side_ptrs (side_of true b) ++ side_ptrs (side_of false b).
Proof. done. Qed.

Lemma book_ptrs_elem p b :
  p ∈ book_ptrs b <-> exists buy, p ∈ side_ptrs (side_of buy b).
Proof.
  rewrite book_ptrs_sides, elem_of_app. split.
  - intros [?|?]; eauto.
  - intros ([|] & ?); auto.
Qed.

Lemma wf_side_nodup b buy : wf b -> NoDup (side_ptrs (side_of buy b)).
Proof.
  intros Hwf. pose proof (wf_nodup b Hwf) as Hnd.
  rewrite book_ptrs_sides in Hnd. apply NoDup_app in Hnd as (? & _ & ?).
  by destruct buy.
Qed.

Lemma wf_side_disjoint b buy p :
  wf b -> p ∈ side_ptrs (side_of buy b) ->
  p ∉ side_ptrs (side_of (negb buy) b).
Proof.
  intros Hwf Hp Hq. pose proof (wf_nodup b Hwf) as Hnd.
  rewrite book_ptrs_sides in Hnd. apply NoDup_app in Hnd as (_ & Hd & _).
  destruct buy; cbn in *; by eapply Hd.
Qed.

Lemma wf_node b buy p :
  wf b -> p ∈ side_ptrs (side_of buy b) ->
  exists n l0,
    heap b !! p = Some n /\ is_buy (order n) = buy /\
    is_nan (price (order n)) = false /\
    map_find (comp_of buy) (price (order n)) (side_of buy b) = Some l0 /\
    p ∈ orders l0.
Proof.
  intros Hwf ([k l0] & He & Hp)%side_ptrs_elem.
  destruct (wf_sides b Hwf buy) as [Hs Hall].
  destruct (proj1 (Forall_forall _ _) Hall _ He) as (Hk & _ & Hnodes & _).
  destruct (proj1 (Forall_forall _ _) Hnodes _ Hp) as (n & Hn & Hb & Hnan & Hkk).
  exists n, l0. split_and!; try done.
  by apply (map_find_complete (comp_of buy) _ k).
Qed.

Lemma wf_lookup b id p :
  wf b -> order_lookup b !! id = Some p ->
  exists n l0,
    heap b !! p = Some n /\ order_id (order n) = id /\
    is_nan (price (order n)) = false /\
    map_find (comp_of (is_buy (order n))) (price (order n))
      (side_of (is_buy (order n)) b) = Some l0 /\
    p ∈ orders l0.
Proof.
  intros Hwf Hid.
  destruct (wf_index b Hwf id p Hid) as ((buy & Hp)%book_ptrs_elem & n & Hn & Hi).
  destruct (wf_node b buy p Hwf Hp) as (n' & l0 & Hn' & <- & Hnan & Hf & Hin).
  assert (n' = n) as -> by congruence.
  exists n, l0. by split_and!.
Qed.

Lemma wf_new : wf OrderBook_new.
Proof.
  split.
  - intros [|]; split; constructor.
  - constructor.
  - intros id p Hid. unfold OrderBook_new in Hid. cbn [order_lookup] in Hid.
    by rewrite lookup_empty in Hid.
  - unfold pool_ok. cbn. split_and!; try lia.
    + constructor.
    + intros p Hp. by apply elem_of_nil in Hp.
    + intros p Hp. by apply elem_of_nil in Hp.
  - intros Hc. discriminate.
Qed.

Lemma wf_ext b b' :
  heap b' = heap b -> bid_levels b' = bid_levels b ->
  ask_levels b' = ask_levels b -> order_lookup b' = order_lookup b ->
  order_pool b' = order_pool b -> cache_ok b' ->
  wf b -> wf b'.
Proof.
  intros Hh Hb Ha Hl Hp Hc [W1 W2 W3 W4 W5].
  assert (forall buy, side_of buy b' = side_of buy b) as Hs
    by (intros [|]; cbn; congruence).
  assert (book_ptrs b' = book_ptrs b) as Hptrs
    by (unfold book_ptrs; congruence).
  split; try done.
  - intros buy. rewrite Hh, Hs. apply W1.
  - by rewrite Hptrs.
  - unfold index_ok. rewrite Hl, Hh, Hptrs. apply W3.
  - by rewrite Hp, Hptrs.
Qed.

Lemma price_changes_not_nan a b :
  price_changes a b = true -> is_nan b = false.
Proof.
  intros H. destruct b; try reflexivity.
  destruct a; discriminate H.
Qed.

(** *** [add_order] *)

Lemma add_order_heap o b :
  heap (add_order o b) = <[next_node b := OrderNode_new o]> (heap b).
Proof. by rewrite add_order_unfold. Qed.

Lemma add_order_lookup o b :
  order_lookup (add_order o b) =
  lookup_emplace (order_id o) (next_node b) (order_lookup b).
Proof. by rewrite add_order_unfold. Qed.

Lemma add_order_ptrs o b :
  book_ptrs (add_order o b) ≡ₚ next_node b :: book_ptrs b.
Proof.
  rewrite !book_ptrs_sides, !add_order_side.
  destruct (is_buy o); cbn [eqb].
  - by rewrite (add_to_side_ptrs true).
  - rewrite (add_to_side_ptrs false). by rewrite Permutation_middle.
Qed.

Lemma next_node_fresh b : wf b -> next_node b ∉ book_ptrs b.
Proof.
  intros Hwf.
  exact (proj1 (allocate_ok order_pool_block_size _ _ (wf_pool b Hwf))).
Qed.

Lemma add_order_wf o b :
  wf b -> is_nan (price o) = false -> wf (add_order o b).
Proof.
  intros Hwf Hp. pose proof (next_node_fresh b Hwf) as Hfr.
  assert (forall buy, next_node b ∉ side_ptrs (side_of buy b)) as Hfr'.
  { intros buy Hin. apply Hfr, book_ptrs_elem. eauto. }
  split.
  - intros buy. rewrite add_order_side, add_order_heap.
    destruct (eqb (is_buy o) buy) eqn:E.
    + apply eqb_prop in E. apply add_to_side_ok; try done. apply Hwf.
    + apply (side_ok_frame buy (heap b)); [|apply Hwf].
      intros p Hin. apply lookup_insert_ne. intros <-. by apply (Hfr' buy).
  - rewrite add_order_ptrs. apply NoDup_cons. split; [done | apply Hwf].
  - intros id p. rewrite add_order_lookup, add_order_heap, add_order_ptrs.
    assert (order_lookup b !! id = Some p ->
            p ∈ next_node b :: book_ptrs b /\
            exists n, <[next_node b := OrderNode_new o]> (heap b) !! p = Some n
                      /\ order_id (order n) = id) as Hold.
    { intros Hid. destruct (wf_index b Hwf id p Hid) as (Hin & n & Hn & Hi).
      split; [by apply elem_of_cons; right|]. exists n. split; [|done].
      rewrite lookup_insert_ne; [done|]. by intros <-. }
    unfold lookup_emplace. destruct (order_lookup b !! order_id o) eqn:E; [done|].
    rewrite lookup_insert. case_decide as Hd; [|done].
    intros [= <-]. split; [by apply elem_of_cons; left|].
    exists (OrderNode_new o). by rewrite lookup_insert_eq.
  - rewrite add_order_unfold. cbn [order_pool].
    apply (proj2 (allocate_ok order_pool_block_size _ _ (wf_pool b Hwf))).
    intros q. rewrite <- add_order_unfold, add_order_ptrs.
    apply elem_of_cons.
  - intros Hc. rewrite add_order_unfold in Hc. discriminate.
Qed.

(** *** [cancel_order] *)

Lemma cancel_order_ptrs id b node n l0 :
  order_lookup b !! id = Some node -> heap b !! node = Some n ->
  map_find (comp_of (is_buy (order n))) (price (order n))
    (side_of (is_buy (order n)) b) = Some l0 ->
  node ∈ orders l0 ->
  book_ptrs b ≡ₚ node :: book_ptrs (snd (cancel_order id b)).
Proof.
  intros H1 H2 Hf Hin.
  rewrite !book_ptrs_sides, !(cancel_order_side id b node n) by done.
  destruct (is_buy (order n)); cbn [eqb].
  - by rewrite (remove_from_side_ptrs true _ node n l0 Hf Hin).
  - rewrite (remove_from_side_ptrs false _ node n l0 Hf Hin) at 1.
    by rewrite Permutation_middle.
Qed.

Lemma cancel_order_wf id b : wf b -> wf (snd (cancel_order id b)).
Proof.
  intros Hwf. destruct (order_lookup b !! id) as [node|] eqn:Hid.
  2:{ by rewrite cancel_order_absent. }
  destruct (wf_lookup b id node Hwf Hid) as (n & l0 & Hn & Hi & Hnan & Hf & Hin).
  pose proof (cancel_order_ptrs id b node n l0 Hid Hn Hf Hin) as Hperm.
  pose proof (wf_nodup b Hwf) as Hnd. rewrite Hperm in Hnd.
  apply NoDup_cons in Hnd as [Hnode Hnd].
  assert (forall q, q ∈ book_ptrs (snd (cancel_order id b)) <->
                    q ∈ book_ptrs b /\ q <> node) as Hlive.
  { intros q. rewrite Hperm, elem_of_cons. split.
    - intros Hq. split; [by right|]. by intros ->.
    - by intros [[->|?] ?]. }
  split.
  - intros buy. rewrite (cancel_order_side id b node n buy Hid Hn).
    rewrite (cancel_order_found id b node n Hid Hn). cbn [snd heap].
    destruct (eqb (is_buy (order n)) buy) eqn:E; [|apply Hwf].
    apply eqb_prop in E. subst buy.
    by apply (remove_from_side_ok _ _ _ _ _ l0); [apply Hwf| | |].
  - done.
  - intros id' p. rewrite Hlive.
    rewrite (cancel_order_found id b node n Hid Hn). cbn [snd heap order_lookup].
    rewrite lookup_delete. case_decide as Hd; [done|]. intros Hid'.
    destruct (wf_index b Hwf id' p Hid') as (Hp & n' & Hn' & Hi').
    split_and!; eauto. intros ->. congruence.
  - rewrite (cancel_order_found id b node n Hid Hn) at 1. cbn [snd order_pool].
    apply (deallocate_ok _ (book_ptrs b)); [apply Hwf| |done].
    by apply (wf_index b Hwf id).
  - intros Hc. rewrite (cancel_order_found id b node n Hid Hn) in Hc. discriminate.
Qed.

(** *** [amend_order] *)

Lemma bump_amends_wf b : wf b -> wf (bump_amends b).
Proof. intros Hwf. apply (wf_ext b); try done. apply Hwf. Qed.

Lemma update_quantity_snd buy side n q l0 :
  map_find (comp_of buy) (price (order n)) side = Some l0 ->
  snd (update_quantity_in_place (comp_of buy) side n q) = set_quantity n q.
Proof.
  intros E.
  by destruct (update_quantity_shape buy side n q l0 E) as (? & ? & ? & _ & _ & ->).
Qed.

Lemma amend_order_quantity_heap now id new_price new_quantity b node n l0 :
  order_lookup b !! id = Some node -> heap b !! node = Some n ->
  price_changes (price (order n)) new_price = false ->
  map_find (comp_of (is_buy (order n))) (price (order n))
    (side_of (is_buy (order n)) b) = Some l0 ->
  heap (snd (amend_order now id new_price new_quantity b)) =
  <[node := set_quantity n new_quantity]> (heap b).
Proof.
  intros H1 H2 H3 Hf. rewrite (amend_order_quantity _ _ _ _ _ _ _ H1 H2 H3).
  cbn [snd heap]. destruct (is_buy (order n)).
  - by rewrite (update_quantity_snd true _ _ _ l0).
  - by rewrite (update_quantity_snd false _ _ _ l0).
Qed.

Lemma amend_order_quantity_ptrs now id new_price new_quantity b node n :
  order_lookup b !! id = Some node -> heap b !! node = Some n ->
  price_changes (price (order n)) new_price = false ->
  book_ptrs (snd (amend_order now id new_price new_quantity b)) = book_ptrs b.
Proof.
  intros H1 H2 H3. rewrite !book_ptrs_sides.
  rewrite !(amend_order_quantity_side _ _ _ _ _ _ _ _ H1 H2 H3).
  destruct (is_buy (order n)); cbn [eqb].
  - by rewrite (update_quantity_ptrs true).
  - by rewrite (update_quantity_ptrs false).
Qed.

Lemma amend_order_wf now id new_price new_quantity b :
  wf b -> wf (snd (amend_order now id new_price new_quantity b)).
Proof.
  intros Hwf. destruct (order_lookup b !! id) as [node|] eqn:Hid.
  2:{ by rewrite amend_order_absent. }
  destruct (wf_lookup b id node Hwf Hid) as (n & l0 & Hn & Hi & Hnan & Hf & Hin).
  destruct (price_changes (price (order n)) new_price) eqn:Hpc.
  { rewrite (amend_order_price _ _ _ _ _ _ _ Hid Hn Hpc). cbn [snd].
    apply bump_amends_wf, add_order_wf; [by apply cancel_order_wf|].
    by apply (price_changes_not_nan (price (order n))). }
  pose proof (amend_order_quantity_ptrs now id new_price new_quantity b node n
                Hid Hn Hpc) as Hptrs.
  pose proof (amend_order_quantity_heap now id new_price new_quantity b node n l0
                Hid Hn Hpc Hf) as Hheap.
  assert (node ∈ side_ptrs (side_of (is_buy (order n)) b)) as Hside.
  { destruct (map_find_elem _ _ _ _ Hf) as (k' & He & _).
    apply side_ptrs_elem. eauto. }
  split.
  - intros buy. rewrite Hheap.
    rewrite (amend_order_quantity_side _ _ _ _ _ _ _ buy Hid Hn Hpc).
    destruct (eqb (is_buy (order n)) buy) eqn:E.
    + apply eqb_prop in E. subst buy.
      apply (update_quantity_ok _ _ _ _ _ _ l0); try done; [apply Hwf|].
      by apply wf_side_nodup.
    + apply (side_ok_frame buy (heap b)); [|apply Hwf].
      intros p Hp. apply lookup_insert_ne. intros ->.
      apply (wf_side_disjoint b _ _ Hwf Hside).
      by destruct buy, (is_buy (order n)).
  - rewrite Hptrs. apply Hwf.
  - intros id' p. rewrite Hptrs, Hheap.
    rewrite (amend_order_quantity _ _ _ _ _ _ _ Hid Hn Hpc). cbn [snd order_lookup].
    intros Hid'. destruct (wf_index b Hwf id' p Hid') as (Hp & n' & Hn' & Hi').
    split; [done|]. destruct (decide (p = node)) as [->|Hne].
    + exists (set_quantity n new_quantity). rewrite lookup_insert_eq.
      split; [done|]. cbn. congruence.
    + exists n'. by rewrite lookup_insert_ne.
  - rewrite Hptrs. rewrite (amend_order_quantity _ _ _ _ _ _ _ Hid Hn Hpc).
    cbn [snd order_pool]. apply Hwf.
  - intros Hc. rewrite (amend_order_quantity _ _ _ _ _ _ _ Hid Hn Hpc) in Hc.
    discriminate.
Qed.

(** *** Read operations and sequences *)

Lemma get_snapshot_wf depth bids asks b :
  wf b -> wf (snd (get_snapshot depth bids asks b)).
Proof. intros Hwf. apply (wf_ext b); try done. apply Hwf. Qed.

Lemma get_best_prices_wf b : wf b -> wf (snd (get_best_prices b)).
Proof.
  intros Hwf. unfold get_best_prices. destruct (cache_valid b) eqn:E; [done|].
  by apply (wf_ext b).
Qed.

Lemma step_wf b a : wf b -> op_valid a -> wf (step b a).
Proof.
  intros Hwf Hv. destruct a; cbn [step op_valid] in *.
  - by apply add_order_wf.
  - by apply cancel_order_wf.
  - by apply amend_order_wf.
  - by apply get_snapshot_wf.
  - by apply get_best_prices_wf.
Qed.

Lemma run_wf ops b : wf b -> Forall op_valid ops -> wf (run ops b).
Proof.
  intros Hwf Hv. revert b Hwf.
  induction Hv as [|a ops Ha _ IH]; intros b Hwf; [done|].
  cbn. apply IH. by apply step_wf.
Qed.

Lemma run_app ops1 ops2 b : run (ops1 ++ ops2) b = run ops2 (run ops1 b).
Proof. unfold run. apply fold_left_app. Qed.

(** ** How the operations move the FIFOs *)

Lemma Level_is_empty_remove l node n :
  Level_is_empty (Level_remove_order l node n) = true <->
  list_erase node (orders l) = [].
Proof. by rewrite Level_is_empty_spec. Qed.

Lemma add_order_find o b buy k :
  wf b -> is_nan k = false -> is_nan (price o) = false ->
  map_find (comp_of buy) k (side_of buy (add_order o b)) =
  if eqb (is_buy o) buy && key_equivb (comp_of buy) k (price o)
  then Some (Level_add_order
               (default (Level_new (price o))
                  (map_find (comp_of buy) (price o) (side_of buy b)))
               (next_node b) (OrderNode_new o))
  else map_find (comp_of buy) k (side_of buy b).
Proof.
  intros Hwf Hk Hp. rewrite add_order_side.
  destruct (eqb (is_buy o) buy); [|done]. cbn [andb].
  by rewrite (add_to_side_find buy (heap b)) by (done || apply Hwf).
Qed.

Lemma map_find_equiv h buy side k1 k2 :
  side_ok h buy side -> is_nan k1 = false -> is_nan k2 = false ->
  key_equiv (comp_of buy) k1 k2 ->
  map_find (comp_of buy) k1 side = map_find (comp_of buy) k2 side.
Proof.
  intros Hok.
  assert (forall a c l, is_nan a = false -> is_nan c = false ->
            key_equiv (comp_of buy) a c ->
            map_find (comp_of buy) a side = Some l ->
            map_find (comp_of buy) c side = Some l) as Hmove.
  { intros a c l Ha Hc Hac (k' & He & Hkk)%map_find_elem.
    assert (is_nan k' = false) as Hk' by (by eapply side_ok_key).
    apply (map_find_complete (comp_of buy) c k'); try done; [apply Hok|].
    apply (key_equiv_sym (comp_of buy)) in Hac. split.
    - rewrite (key_equiv_comp_l (comp_of buy) c a); try done. apply Hkk.
    - rewrite (key_equiv_comp_r (comp_of buy) c a); try done. apply Hkk. }
  intros H1 H2 Heq.
  destruct (map_find (comp_of buy) k1 side) as [l|] eqn:E1.
  { symmetry. by apply (Hmove k1 k2). }
  destruct (map_find (comp_of buy) k2 side) as [l|] eqn:E2; [|done].
  apply (Hmove k2 k1) in E2; try done; [congruence|].
  by apply (key_equiv_sym (comp_of buy)).
Qed.

Lemma add_order_fifo o b buy k :
  wf b -> is_nan k = false -> is_nan (price o) = false ->
  fifo_at (comp_of buy) k (side_of buy (add_order o b)) =
  if eqb (is_buy o) buy && key_equivb (comp_of buy) k (price o)
  then fifo_at (comp_of buy) k (side_of buy b) ++ [next_node b]
  else fifo_at (comp_of buy) k (side_of buy b).
Proof.
  intros Hwf Hk Hp. unfold fifo_at at 1. rewrite add_order_find by done.
  destruct (eqb (is_buy o) buy) eqn:Eb; [|done]. cbn [andb].
  destruct (key_equivb (comp_of buy) k (price o)) eqn:E; [|done].
  apply (key_equivb_spec (comp_of buy)) in E.
  cbn [orders Level_add_order]. f_equal. unfold fifo_at.
  rewrite (map_find_equiv (heap b) buy _ k (price o)) by (done || apply Hwf).
  by destruct (map_find (comp_of buy) (price o) (side_of buy b)).
Qed.

Lemma cancel_order_fifo id b node n buy k :
  wf b -> order_lookup b !! id = Some node -> heap b !! node = Some n ->
  is_nan k = false ->
  fifo_at (comp_of buy) k (side_of buy (snd (cancel_order id b))) =
  if eqb (is_buy (order n)) buy && key_equivb (comp_of buy) k (price (order n))
  then list_erase node (fifo_at (comp_of buy) k (side_of buy b))
  else fifo_at (comp_of buy) k (side_of buy b).
Proof.
  intros Hwf Hid Hn Hk.
  destruct (wf_lookup b id node Hwf Hid) as (n' & l0 & Hn' & Hi & Hnan & Hf & Hin).
  assert (n' = n) as -> by congruence.
  rewrite (cancel_order_side id b node n buy Hid Hn).
  destruct (eqb (is_buy (order n)) buy) eqn:Eb; [|done]. cbn [andb].
  apply eqb_prop in Eb. subst buy. unfold fifo_at at 1.
  rewrite (remove_from_side_find _ (heap b) _ node n l0 k) by (done || apply Hwf).
  destruct (key_equivb _ k (price (order n))) eqn:E; [|done].
  apply (key_equivb_spec (comp_of _)) in E. unfold fifo_at.
  rewrite (map_find_equiv (heap b) _ _ k (price (order n)))
    by (done || apply Hwf).
  rewrite Hf. destruct (Level_is_empty _) eqn:Ee; [|done].
  by apply Level_is_empty_remove in Ee.
Qed.

Lemma amend_order_quantity_fifos now id new_price new_quantity b node n buy :
  order_lookup b !! id = Some node -> heap b !! node = Some n ->
  price_changes (price (order n)) new_price = false ->
  side_fifos (side_of buy (snd (amend_order now id new_price new_quantity b)))
  = side_fifos (side_of buy b).
Proof.
  intros H1 H2 H3. rewrite (amend_order_quantity_side _ _ _ _ _ _ _ buy H1 H2 H3).
  destruct (eqb (is_buy (order n)) buy); [|done]. apply update_quantity_fifos.
Qed.

Lemma map_find_fifos comp k side side' :
  side_fifos side' = side_fifos side ->
  fifo_at comp k side' = fifo_at comp k side.
Proof.
  unfold fifo_at. revert side'.
  induction side as [|[k0 l0] side IH]; intros [|[k1 l1] side']; cbn;
    try done.
  intros [= -> Ho Hr]. destruct (comp k0 k); [by apply IH|].
  by destruct (comp k k0).
Qed.

Lemma wf_index_inj b i j p :
  wf b -> order_lookup b !! i = Some p -> order_lookup b !! j = Some p -> i = j.
Proof.
  intros Hwf Hi Hj.
  destruct (wf_index b Hwf i p Hi) as (_ & n & Hn & <-).
  destruct (wf_index b Hwf j p Hj) as (_ & n' & Hn' & <-).
  congruence.
Qed.

Lemma wf_fifo_elem b buy k p :
  wf b -> p ∈ fifo_at (comp_of buy) k (side_of buy b) -> p ∈ book_ptrs b.
Proof.
  intros Hwf. unfold fifo_at.
  destruct (map_find (comp_of buy) k (side_of buy b)) as [l|] eqn:E;
    [|by intros ?%elem_of_nil].
  intros Hp. destruct (map_find_elem _ _ _ _ E) as (k' & He & _).
  apply book_ptrs_elem. exists buy. apply side_ptrs_elem. eauto.
Qed.

Lemma wf_fifo_nodup b buy k :
  wf b -> NoDup (fifo_at (comp_of buy) k (side_of buy b)).
Proof.
  intros Hwf. unfold fifo_at.
  destruct (map_find (comp_of buy) k (side_of buy b)) as [l|] eqn:E;
    [|constructor].
  destruct (map_find_Some_split _ _ _ _ E) as (m1 & k' & m2 & Hs & _).
  pose proof (wf_side_nodup b buy Hwf) as Hnd.
  rewrite Hs, side_ptrs_middle in Hnd. cbn in Hnd.
  apply NoDup_app in Hnd as (_ & _ & Hnd). by apply NoDup_app in Hnd as (? & _).
Qed.

(** ** Sample books are well formed *)

Lemma book_one_wf : wf book_one.
Proof. apply add_order_wf; [apply wf_new | reflexivity]. Qed.

Lemma book_three_wf : wf book_three.
Proof. repeat (apply add_order_wf; [|reflexivity]). apply wf_new. Qed.

Lemma book_large_wf : wf book_large.
Proof. repeat (apply add_order_wf; [|reflexivity]). apply wf_new. Qed.

(** * The operations *)

(** ** [add_order] on an id that is already indexed *)

(** C1, counterexample.  In [book_one] the id 1 is indexed; adding a
    second order with id 1 changes the bid side of the ladder. *)
Lemma add_order_duplicate_changes_book :
  order_lookup book_one !! 1 = Some (0%nat, 0%nat) /\
  ~ (bid_levels (add_order (sample_order 1 true 100 20) book_one)
       = bid_levels book_one /\
     ask_levels (add_order (sample_order 1 true 100 20) book_one)
       = ask_levels book_one /\
     order_lookup (add_order (sample_order 1 true 100 20) book_one)
       = order_lookup book_one).
Proof.
  split; [vm_compute; reflexivity|].
  intros (H & _). apply (f_equal side_ptrs) in H. vm_compute in H.
  discriminate H.
Qed.

(** C1, amended.  [add_order] does not reject an order whose id is already
    in the index.  The index keeps its entry and the opposite side is left
    alone, but a node is taken from the pool for the order and pushed at the
    tail of the FIFO of the level at its price on its side (a level made
    for it if there was none), with the level's aggregates and
    [total_orders] moved accordingly. *)
Theorem add_order_duplicate_id (b : OrderBook) (o : Order) (p : ptr) :
  wf b -> is_nan (price o) = false ->
  order_lookup b !! order_id o = Some p ->
  let b' := add_order o b in
  let buy := is_buy o in
  order_lookup b' = order_lookup b /\
  side_of (negb buy) b' = side_of (negb buy) b /\
  (next_node b ∉ book_ptrs b) /\
  heap b' !! next_node b = Some (OrderNode_new o) /\
  map_find (comp_of buy) (price o) (side_of buy b') =
    Some (Level_add_order
            (default (Level_new (price o))
               (map_find (comp_of buy) (price o) (side_of buy b)))
            (next_node b) (OrderNode_new o)) /\
  fifo_at (comp_of buy) (price o) (side_of buy b') =
    fifo_at (comp_of buy) (price o) (side_of buy b) ++ [next_node b] /\
  total_orders b' = u64 (total_orders b + 1).
Proof.
  intros Hwf Hp Hid. cbn zeta.
  assert (key_equivb (comp_of (is_buy o)) (price o) (price o) = true) as Hrefl
    by apply (key_equivb_spec (comp_of (is_buy o))), key_equiv_refl, _.
  split_and!.
  - rewrite add_order_lookup. unfold lookup_emplace. by rewrite Hid.
  - rewrite add_order_side. by destruct (is_buy o).
  - by apply next_node_fresh.
  - rewrite add_order_heap. apply lookup_insert_eq.
  - rewrite add_order_find by done. by rewrite eqb_reflx, Hrefl.
  - rewrite add_order_fifo by done. by rewrite eqb_reflx, Hrefl.
  - by rewrite add_order_unfold.
Qed.

Lemma add_order_duplicate_id_witness :
  wf book_one /\
  is_nan (price (sample_order 1 true 100 20)) = false /\
  order_lookup book_one !! order_id (sample_order 1 true 100 20)
    = Some (0%nat, 0%nat) /\
  order_lookup (add_order (sample_order 1 true 100 20) book_one)
    = order_lookup book_one.
Proof.
  split_and!; [exact book_one_wf | reflexivity | vm_compute; reflexivity |].
  exact (proj1 (add_order_duplicate_id book_one (sample_order 1 true 100 20)
                  (0%nat, 0%nat) book_one_wf eq_refl eq_refl)).
Defined.

(** ** Books without orphans *)

Lemma no_orphans_new : no_orphans OrderBook_new.
Proof. intros p Hp. by apply elem_of_nil in Hp. Qed.

Lemma add_order_no_orphans o b :
  wf b -> order_lookup b !! order_id o = None ->
  no_orphans b -> no_orphans (add_order o b).
Proof.
  intros Hwf Hfresh Hno p. rewrite add_order_ptrs, add_order_heap, add_order_lookup.
  unfold lookup_emplace. rewrite Hfresh.
  intros [->|Hp]%elem_of_cons.
  - exists (OrderNode_new o). rewrite !lookup_insert_eq. done.
  - destruct (Hno p Hp) as (n & Hn & Hl). exists n.
    rewrite lookup_insert_ne.
    2:{ intros <-. by apply (next_node_fresh b Hwf). }
    split; [done|]. rewrite lookup_insert_ne; [done|]. congruence.
Qed.

Lemma cancel_order_no_orphans id b :
  wf b -> no_orphans b -> no_orphans (snd (cancel_order id b)).
Proof.
  intros Hwf Hno. destruct (order_lookup b !! id) as [node|] eqn:Hid.
  2:{ by rewrite cancel_order_absent. }
  destruct (wf_lookup b id node Hwf Hid) as (n & l0 & Hn & Hi & Hnan & Hf & Hin).
  pose proof (cancel_order_ptrs id b node n l0 Hid Hn Hf Hin) as Hperm.
  pose proof (wf_nodup b Hwf) as Hnd. rewrite Hperm in Hnd.
  apply NoDup_cons in Hnd as [Hnode _].
  intros p Hp.
  destruct (Hno p) as (n' & Hn' & Hl'); [rewrite Hperm; by apply elem_of_cons; right|].
  exists n'. rewrite (cancel_order_found id b node n Hid Hn). cbn [snd heap order_lookup].
  split; [done|]. rewrite lookup_delete_ne; [done|].
  intros Heq. rewrite <- Heq, Hid in Hl'. congruence.
Qed.

Lemma amend_order_no_orphans now id new_price new_quantity b :
  wf b -> no_orphans b ->
  no_orphans (snd (amend_order now id new_price new_quantity b)).
Proof.
  intros Hwf Hno. destruct (order_lookup b !! id) as [node|] eqn:Hid.
  2:{ by rewrite amend_order_absent. }
  destruct (wf_lookup b id node Hwf Hid) as (n & l0 & Hn & Hi & Hnan & Hf & Hin).
  destruct (price_changes (price (order n)) new_price) eqn:Hpc.
  - rewrite (amend_order_price _ _ _ _ _ _ _ Hid Hn Hpc). cbn [snd].
    match goal with |- context [add_order ?o _] => set (o' := o) end.
    assert (no_orphans (add_order o' (snd (cancel_order id b)))) as H;
      [|exact H].
    apply add_order_no_orphans.
    + by apply cancel_order_wf.
    + rewrite (cancel_order_found id b node n Hid Hn). cbn [snd order_lookup].
      subst o'. cbn [order_id]. rewrite Hi. apply lookup_delete_eq.
    + by apply cancel_order_no_orphans.
  - intros p.
    rewrite (amend_order_quantity_ptrs _ _ _ _ _ _ _ Hid Hn Hpc).
    rewrite (amend_order_quantity_heap _ _ _ _ _ _ _ l0 Hid Hn Hpc Hf).
    rewrite (amend_order_quantity _ _ _ _ _ _ _ Hid Hn Hpc). cbn [snd order_lookup].
    intros Hp. destruct (Hno p Hp) as (n' & Hn' & Hl').
    destruct (decide (p = node)) as [->|Hne].
    + exists (set_quantity n new_quantity). rewrite lookup_insert_eq.
      split; [done|]. cbn. congruence.
    + exists n'. by rewrite lookup_insert_ne.
Qed.

Lemma step_no_orphans b a :
  wf b ->
  match a with
  | OpAdd o => order_lookup b !! order_id o = None
  | _ => True
  end ->
  no_orphans b -> no_orphans (step b a).
Proof.
  intros Hwf Hfresh Hno. destruct a; cbn [step].
  - by apply add_order_no_orphans.
  - by apply cancel_order_no_orphans.
  - by apply amend_order_no_orphans.
  - done.
  - unfold get_best_prices. by destruct (cache_valid b).
Qed.

Lemma run_no_orphans ops b :
  wf b -> no_orphans b -> Forall op_valid ops -> ids_fresh ops b ->
  no_orphans (run ops b).
Proof.
  intros Hwf Hno Hv. revert b Hwf Hno.
  induction Hv as [|a ops Ha _ IH]; intros b Hwf Hno Hf; [done|].
  destruct Hf as [Hf1 Hf2]. cbn [run fold_left]. fold (run ops (step b a)).
  apply IH; [by apply step_wf | by apply step_no_orphans | done].
Qed.

(** ** [cancel_order] *)

(** C3, counterexample.  In [book_duplicate] id 1 was added twice and
    cancelled once: the node of the second add still rests in the ladder
    with id 1, yet [cancel_order 1] returns [false] and leaves the book
    as it is. *)
Lemma cancel_order_misses_resting :
  wf book_duplicate /\
  resting 1 book_duplicate /\
  cancel_order 1 book_duplicate = (false, book_duplicate).
Proof.
  split_and!.
  - apply run_wf; [exact wf_new | repeat constructor].
  - exists (0%nat, 1%nat), (OrderNode_new (sample_order 1 true 100 5)).
    split_and!; [|vm_compute; reflexivity|reflexivity].
    vm_compute. apply elem_of_cons. by left.
  - apply cancel_order_absent. vm_compute. reflexivity.
Qed.

(** C3.  In a well-formed book [cancel_order] returns [true] exactly when
    the id is indexed; an order with that id then rests in the ladder, and
    in a book without orphans (every book built without adding an id that
    is already indexed, [run_no_orphans]) the converse holds too.  On
    success the node leaves the FIFO of the level at its price on its side,
    no FIFO holds it any more, the level is gone from the ladder exactly
    when the node was alone in it, and the id leaves the index.  For an
    unknown id the call returns [false] and the book is the same. *)
Theorem cancel_order_spec (b : OrderBook) (id : Z) :
  wf b ->
  (fst (cancel_order id b) = true <-> is_Some (order_lookup b !! id)) /\
  (fst (cancel_order id b) = true -> resting id b) /\
  (no_orphans b -> resting id b -> fst (cancel_order id b) = true) /\
  (order_lookup b !! id = None -> cancel_order id b = (false, b)) /\
  (forall node, order_lookup b !! id = Some node ->
     exists n,
       heap b !! node = Some n /\ order_id (order n) = id /\
       let buy := is_buy (order n) in
       let k := price (order n) in
       let b' := snd (cancel_order id b) in
       node ∈ fifo_at (comp_of buy) k (side_of buy b) /\
       fifo_at (comp_of buy) k (side_of buy b') =
         list_erase node (fifo_at (comp_of buy) k (side_of buy b)) /\
       (node ∉ book_ptrs b') /\
       (map_find (comp_of buy) k (side_of buy b') = None <->
        fifo_at (comp_of buy) k (side_of buy b) = [node]) /\
       order_lookup b' = delete id (order_lookup b)).
Proof.
  intros Hwf.
  assert (fst (cancel_order id b) = true <-> is_Some (order_lookup b !! id))
    as Hiff.
  { destruct (order_lookup b !! id) as [node|] eqn:Hid.
    - destruct (wf_lookup b id node Hwf Hid) as (n & l0 & Hn & _).
      rewrite (cancel_order_found id b node n Hid Hn). split; eauto.
    - rewrite cancel_order_absent by done. cbn. split; [done|].
      by intros [? ?]. }
  split_and!.
  - done.
  - intros [node Hid]%Hiff.
    destruct (wf_index b Hwf id node Hid) as (Hp & n & Hn & Hi).
    by exists node, n.
  - intros Hno (p & n & Hp & Hn & Hi). apply Hiff.
    destruct (Hno p Hp) as (n' & Hn' & Hl). exists p. congruence.
  - apply cancel_order_absent.
  - intros node Hid.
    destruct (wf_lookup b id node Hwf Hid) as (n & l0 & Hn & Hi & Hnan & Hf & Hin).
    exists n. do 2 (split; [done|]). cbn zeta. split_and!.
    + unfold fifo_at. by rewrite Hf.
    + rewrite (cancel_order_fifo id b node n) by done.
      rewrite eqb_reflx.
      by rewrite (proj2 (key_equivb_spec _ _ _) (key_equiv_refl _ _)).
    + pose proof (cancel_order_ptrs id b node n l0 Hid Hn Hf Hin) as Hperm.
      pose proof (wf_nodup b Hwf) as Hnd. rewrite Hperm in Hnd.
      by apply NoDup_cons in Hnd as [? _].
    + rewrite (cancel_order_side id b node n _ Hid Hn), eqb_reflx.
      rewrite (remove_from_side_find _ (heap b) _ node n l0)
        by (done || apply Hwf).
      rewrite (proj2 (key_equivb_spec _ _ _) (key_equiv_refl _ _)).
      unfold fifo_at. rewrite Hf.
      destruct (Level_is_empty _) eqn:Ee.
      * apply Level_is_empty_remove in Ee. split; [intros _|done].
        destruct (list_erase_split node (orders l0) Hin)
          as (l1 & l2 & Ho & _ & He).
        rewrite He in Ee. apply app_eq_nil in Ee as [-> ->]. done.
      * split; [done|]. intros Ho.
        assert (Level_is_empty (Level_remove_order l0 node n) = true);
          [|congruence].
        apply Level_is_empty_remove. rewrite Ho. cbn.
        by destruct (decide (node = node)).
    + by rewrite (cancel_order_found id b node n Hid Hn).
Qed.

Lemma cancel_order_spec_witness :
  wf book_three /\
  (fst (cancel_order 2 book_three) = true <->
   is_Some (order_lookup book_three !! 2)).
Proof.
  split; [exact book_three_wf|].
  exact (proj1 (cancel_order_spec book_three 2 book_three_wf)).
Defined.

(** ** [amend_order] *)

Lemma amend_order_price_result now id new_price new_quantity b node n :
  wf b -> order_lookup b !! id = Some node -> heap b !! node = Some n ->
  price_changes (price (order n)) new_price = true ->
  let buy := is_buy (order n) in
  let o' := {| order_id := order_id (order n); is_buy := buy;
               price := new_price; quantity := new_quantity;
               timestamp_ns := now |} in
  let b1 := snd (cancel_order id b) in
  let b' := snd (amend_order now id new_price new_quantity b) in
  wf b1 /\
  order_lookup b' !! id = Some (next_node b1) /\
  heap b' !! next_node b1 = Some (OrderNode_new o') /\
  fifo_at (comp_of buy) new_price (side_of buy b') =
    fifo_at (comp_of buy) new_price (side_of buy b1) ++ [next_node b1].
Proof.
  intros Hwf Hid Hn Hpc. cbn zeta.
  pose proof (cancel_order_wf id b Hwf) as Hwf1.
  pose proof (price_changes_not_nan _ _ Hpc) as Hnan.
  destruct (wf_lookup b id node Hwf Hid) as (n' & _ & Hn' & Hi & _).
  assert (n' = n) as -> by congruence.
  assert (order_lookup (snd (cancel_order id b)) = delete id (order_lookup b))
    as Hl1 by (by rewrite (cancel_order_found id b node n Hid Hn)).
  rewrite (amend_order_price _ _ _ _ _ _ _ Hid Hn Hpc). cbn [snd].
  split_and!; [done| | |].
  - change (order_lookup (bump_amends ?x)) with (order_lookup x).
    rewrite add_order_lookup. cbn [order_id]. rewrite Hi.
    unfold lookup_emplace. rewrite Hl1, lookup_delete_eq.
    apply lookup_insert_eq.
  - change (heap (bump_amends ?x)) with (heap x).
    rewrite add_order_heap. apply lookup_insert_eq.
  - change (side_of ?s (bump_amends ?x)) with (side_of s x).
    rewrite add_order_fifo by done. cbn [is_buy price]. rewrite eqb_reflx.
    by rewrite (proj2 (key_equivb_spec _ _ _) (key_equiv_refl _ _)).
Qed.








(** C10.  A price-changing amend of a resting order moves [total_orders],
    [total_cancels] and [total_amends] up by one each (its cancel and add
    legs count like calls of their own); a quantity-only amend moves
    [total_amends] alone.  Counters are 64-bit unsigned. *)
Theorem amend_order_counters (now id : Z) (new_price : double)
    (new_quantity : Z) (b : OrderBook) (node : ptr) (n : OrderNode) :
  order_lookup b !! id = Some node -> heap b !! node = Some n ->
  let b' := snd (amend_order now id new_price new_quantity b) in
  (price_changes (price (order n)) new_price = true ->
   total_orders b' = u64 (total_orders b + 1) /\
   total_cancels b' = u64 (total_cancels b + 1) /\
   total_amends b' = u64 (total_amends b + 1)) /\
  (price_changes (price (order n)) new_price = false ->
   total_orders b' = total_orders b /\
   total_cancels b' = total_cancels b /\
   total_amends b' = u64 (total_amends b + 1)).
Proof.
  intros Hid Hn. cbn zeta. split; intros Hpc.
  - rewrite (amend_order_price _ _ _ _ _ _ _ Hid Hn Hpc). cbn [snd].
    rewrite add_order_unfold, (cancel_order_found id b node n Hid Hn).
    by split_and!.
  - rewrite (amend_order_quantity _ _ _ _ _ _ _ Hid Hn Hpc). by split_and!.
Qed.

Lemma amend_order_counters_witness :
  order_lookup book_three !! 1 = Some (0%nat, 0%nat) /\
  heap book_three !! (0%nat, 0%nat)
    = Some (OrderNode_new (sample_order 1 true 100 10)) /\
  (price_changes (dbl_of_Z 100) (dbl_of_Z 99) = true ->
   total_orders (snd (amend_order 7 1 (dbl_of_Z 99) 10 book_three))
     = u64 (total_orders book_three + 1) /\
   total_cancels (snd (amend_order 7 1 (dbl_of_Z 99) 10 book_three))
     = u64 (total_cancels book_three + 1) /\
   total_amends (snd (amend_order 7 1 (dbl_of_Z 99) 10 book_three))
     = u64 (total_amends book_three + 1)).
Proof.
  split_and!; [vm_compute; reflexivity | vm_compute; reflexivity |].
  exact (proj1 (amend_order_counters 7 1 (dbl_of_Z 99) 10 book_three
                  (0%nat, 0%nat) (OrderNode_new (sample_order 1 true 100 10))
                  eq_refl eq_refl)).
Defined.

(** ** [get_snapshot] *)

Lemma snapshot_side_spec side count depth out :
  0 <= count <= depth -> depth < 2 ^ 64 ->
  snapshot_side count depth side out =
  out ++ map level_entry (take (Z.to_nat (depth - count)) side).
Proof.
  revert count out. induction side as [|[k l] side IH]; intros count out Hc Hd.
  - cbn. rewrite take_nil. cbn. by rewrite app_nil_r.
  - cbn [snapshot_side]. destruct (depth <=? count) eqn:E.
    + apply Z.leb_le in E. replace (depth - count) with 0 by lia.
      cbn. by rewrite app_nil_r.
    + apply Z.leb_gt in E. rewrite u64_small by lia.
      rewrite IH by lia. rewrite <- app_assoc. f_equal.
      replace (Z.to_nat (depth - count))
        with (S (Z.to_nat (depth - (count + 1)))) by lia.
      done.
Qed.

Lemma side_sorted_take comp side n :
  side_sorted comp side -> side_sorted comp (take n side).
Proof.
  unfold side_sorted. intros Hs. revert n.
  induction Hs as [|e side Hs IH He]; intros [|n]; cbn; try constructor.
  - apply IH.
  - by apply Forall_take.
Qed.

Lemma level_entry_sorted comp side :
  side_sorted comp side ->
  StronglySorted (fun x y => comp (pl_price x) (pl_price y) = true)
    (map level_entry side).
Proof.
  unfold side_sorted. induction 1 as [|e side Hs IH He]; cbn; constructor.
  - done.
  - apply Forall_forall. intros x (e' & -> & Hin)%list_elem_of_fmap.
    by apply (proj1 (Forall_forall _ _) He).
Qed.

Lemma vector_reserve_spec cap served n :
  match vector_reserve cap served n with
  | inl e =>
      (vector_max_size < n /\ e = length_error) \/
      (n <= vector_max_size /\ cap < n /\ served = false /\ e = bad_alloc)
  | inr _ => n <= vector_max_size /\ (n <= cap \/ served = true)
  end.
Proof.
  unfold vector_reserve.
  destruct (vector_max_size <? n) eqn:E1; [apply Z.ltb_lt in E1; by left|].
  apply Z.ltb_ge in E1.
  destruct (n <=? cap) eqn:E2; [apply Z.leb_le in E2; by auto|].
  apply Z.leb_gt in E2. destruct served; [by auto|].
  right. by split_and!.
Qed.

(** C8, counterexample.  [book_three] has a bid level, and the allocator of
    [roomy] serves every request; still a snapshot of depth [2^59] throws
    [std::length_error] from the first [reserve] and leaves both vectors
    empty. *)
Lemma get_snapshot_length_error :
  length (bid_levels book_three) = 1%nat /\
  fst (get_snapshot (2 ^ 59) [] [] book_three) roomy
    = Thrown length_error [] [].
Proof. split; vm_compute; reflexivity. Qed.

(** C8.  A depth above [max_size()] makes [get_snapshot] throw
    [std::length_error]; below, it throws [std::bad_alloc] when a vector
    is short of capacity and the allocator does not serve it; in both
    cases the two vectors are left empty.  Otherwise it returns, whatever
    the output vectors held before, the entries [{price, total_quantity}]
    of the first [min depth (number of levels)] levels of each side, bids
    by strictly decreasing price and asks by strictly increasing price; a
    depth beyond the number of levels returns them all, with nothing
    added.  However the call ends, the ladder, the levels, the nodes and
    the index are untouched. *)
Theorem get_snapshot_spec (depth : Z) (bids0 asks0 : list PriceLevel)
    (b : OrderBook) (env : snapshot_env) :
  wf b -> 0 <= depth < 2 ^ 64 ->
  let r := fst (get_snapshot depth bids0 asks0 b) env in
  let b' := snd (get_snapshot depth bids0 asks0 b) in
  let bids := map level_entry (take (Z.to_nat depth) (bid_levels b)) in
  let asks := map level_entry (take (Z.to_nat depth) (ask_levels b)) in
  (depth <= vector_max_size ->
   depth <= bids_capacity env \/ bids_served env = true ->
   depth <= asks_capacity env \/ asks_served env = true ->
   r = Returned bids asks) /\
  (vector_max_size < depth -> r = Thrown length_error [] []) /\
  (depth <= vector_max_size ->
   (bids_capacity env < depth /\ bids_served env = false) \/
   (asks_capacity env < depth /\ asks_served env = false) ->
   r = Thrown bad_alloc [] []) /\
  length bids = Nat.min (Z.to_nat depth) (length (bid_levels b)) /\
  length asks = Nat.min (Z.to_nat depth) (length (ask_levels b)) /\
  StronglySorted (fun x y => dbl_greater (pl_price x) (pl_price y) = true)
    bids /\
  StronglySorted (fun x y => dbl_less (pl_price x) (pl_price y) = true) asks /\
  (Z.of_nat (length (bid_levels b)) <= depth ->
   bids = map level_entry (bid_levels b)) /\
  (Z.of_nat (length (ask_levels b)) <= depth ->
   asks = map level_entry (ask_levels b)) /\
  bid_levels b' = bid_levels b /\ ask_levels b' = ask_levels b /\
  heap b' = heap b /\ order_lookup b' = order_lookup b.
Proof.
  intros Hwf Hd. cbn zeta. unfold get_snapshot. cbn [fst snd].
  rewrite !snapshot_side_spec by lia. rewrite !Z.sub_0_r. cbn [app].
  pose proof (vector_reserve_spec (bids_capacity env) (bids_served env) depth)
    as Hb.
  pose proof (vector_reserve_spec (asks_capacity env) (asks_served env) depth)
    as Ha.
  split_and!; try done.
  - intros Hm Hbs Has.
    destruct (vector_reserve (bids_capacity env) _ depth) as [e|c].
    { destruct Hb as [(? & _)|(_ & ? & ? & _)]; [lia|].
      destruct Hbs; [lia | congruence]. }
    destruct (vector_reserve (asks_capacity env) _ depth) as [e|c']; [|done].
    destruct Ha as [(? & _)|(_ & ? & ? & _)]; [lia|].
    destruct Has; [lia | congruence].
  - intros Hm.
    destruct (vector_reserve (bids_capacity env) _ depth) as [e|c].
    + by destruct Hb as [(_ & ->)|(? & _)]; [|lia].
    + lia.
  - intros Hm Hfail.
    destruct (vector_reserve (bids_capacity env) _ depth) as [e|c].
    { by destruct Hb as [(? & _)|(_ & _ & _ & ->)]; [lia|]. }
    destruct (vector_reserve (asks_capacity env) _ depth) as [e|c'].
    { by destruct Ha as [(? & _)|(_ & _ & _ & ->)]; [lia|]. }
    destruct Hb as (_ & Hb), Ha as (_ & Ha).
    destruct Hfail as [(? & ?)|(? & ?)].
    + destruct Hb; [lia | congruence].
    + destruct Ha; [lia | congruence].
  - by rewrite length_map, length_take.
  - by rewrite length_map, length_take.
  - apply (level_entry_sorted dbl_greater), side_sorted_take.
    apply (wf_sides b Hwf true).
  - apply (level_entry_sorted dbl_less), side_sorted_take.
    apply (wf_sides b Hwf false).
  - intros Hl. rewrite take_ge by lia. done.
  - intros Hl. rewrite take_ge by lia. done.
Qed.

Lemma get_snapshot_spec_witness :
  wf book_three /\ 0 <= 1 < 2 ^ 64 /\
  fst (get_snapshot 1 [level_entry (dbl_zero, Level_new dbl_zero)] []
         book_three) roomy
    = Returned (map level_entry (take (Z.to_nat 1) (bid_levels book_three)))
               (map level_entry (take (Z.to_nat 1) (ask_levels book_three))).
Proof.
  split_and!; [exact book_three_wf | lia | lia |].
  refine (proj1 (get_snapshot_spec 1
                   [level_entry (dbl_zero, Level_new dbl_zero)]
                   [] book_three roomy book_three_wf _) _ _ _).
  - lia.
  - vm_compute. discriminate.
  - by right.
  - by right.
Defined.

(** ** [get_best_prices] *)

Lemma dbl_max_value : dbl_max = S754_finite false (2 ^ 53 - 1) 971.
Proof. reflexivity. Qed.

Lemma side_front_best buy side h :
  side_ok h buy side -> side <> [] ->
  forall sentinel,
    front_price side sentinel ∈ side_keys side /\
    (forall k, k ∈ side_keys side ->
       comp_of buy k (front_price side sentinel) = false) /\
    (forall p n, p ∈ side_ptrs side -> h !! p = Some n ->
       comp_of buy (price (order n)) (front_price side sentinel) = false) /\
    exists p n, p ∈ side_ptrs side /\ h !! p = Some n /\
      key_equiv (comp_of buy) (price (order n)) (front_price side sentinel).
Proof.
  intros [Hs Hall] Hne sentinel. destruct side as [|[k0 l0] side]; [done|].
  cbn [front_price]. apply side_sorted_cons in Hs as [H0 Hs].
  assert (forall k, k ∈ side_keys ((k0, l0) :: side) ->
            comp_of buy k k0 = false) as Hbest.
  { intros k [->|(e & -> & He)%list_elem_of_fmap]%elem_of_cons.
    - apply swo_irrefl.
    - pose proof (proj1 (Forall_forall _ _) H0 e He) as Hlt. cbn in Hlt.
      destruct (comp_of buy e.1 k0) eqn:E; [|done].
      pose proof (swo_trans _ _ _ Hlt E) as Hkk. by rewrite swo_irrefl in Hkk. }
  assert (is_nan k0 = false) as Hk0.
  { by apply Forall_cons in Hall as [(? & _) _]. }
  split_and!.
  - apply elem_of_cons. by left.
  - done.
  - intros p n ([k l] & He & Hp)%side_ptrs_elem Hn.
    destruct (proj1 (Forall_forall _ _) Hall _ He) as (Hk & _ & Hnodes & _).
    destruct (proj1 (Forall_forall _ _) Hnodes _ Hp) as (n' & Hn' & _ & Hnan & Hkk).
    assert (n' = n) as -> by congruence. cbn [fst snd] in *.
    rewrite (key_equiv_comp_l (comp_of buy) _ k k0 Hkk Hnan Hk).
    apply Hbest. exact (list_elem_of_fmap_2 fst _ (k, l) He).
  - apply Forall_cons in Hall as [(_ & Hne0 & Hnodes & _) _].
    cbn [fst snd] in *.
    destruct (orders l0) as [|p ps] eqn:Eo; [done|].
    apply Forall_cons in Hnodes as [(n & Hn & _ & _ & Hkk) _].
    exists p, n. split_and!; try done.
    rewrite side_ptrs_cons. cbn. rewrite Eo. apply elem_of_cons. by left.
Qed.

(** C9.  In a well-formed book [get_best_prices] returns the key at the
    front of each side, [0.0] for an empty bid side and
    [numeric_limits<double>::max()] for an empty ask side.  The front bid
    key is a price some resting bid has, and no bid level or resting bid is
    priced above it; the front ask key is a price some resting ask has, and
    no ask level or resting ask is priced below it. *)
Theorem get_best_prices_spec (b : OrderBook) :
  wf b ->
  let bid := fst (fst (get_best_prices b)) in
  let ask := snd (fst (get_best_prices b)) in
  bid = front_price (bid_levels b) dbl_zero /\
  ask = front_price (ask_levels b) dbl_max /\
  (bid_levels b = [] -> bid = dbl_zero) /\
  (ask_levels b = [] -> ask = dbl_max) /\
  (bid_levels b <> [] ->
   bid ∈ side_keys (bid_levels b) /\
   (forall k, k ∈ side_keys (bid_levels b) -> dbl_less bid k = false) /\
   (forall p n, p ∈ side_ptrs (bid_levels b) -> heap b !! p = Some n ->
      dbl_less bid (price (order n)) = false) /\
   exists p n, p ∈ side_ptrs (bid_levels b) /\ heap b !! p = Some n /\
     key_equiv dbl_less (price (order n)) bid) /\
  (ask_levels b <> [] ->
   ask ∈ side_keys (ask_levels b) /\
   (forall k, k ∈ side_keys (ask_levels b) -> dbl_less k ask = false) /\
   (forall p n, p ∈ side_ptrs (ask_levels b) -> heap b !! p = Some n ->
      dbl_less (price (order n)) ask = false) /\
   exists p n, p ∈ side_ptrs (ask_levels b) /\ heap b !! p = Some n /\
     key_equiv dbl_less (price (order n)) ask).
Proof.
  intros Hwf. cbn zeta.
  assert (fst (get_best_prices b) =
          (front_price (bid_levels b) dbl_zero,
           front_price (ask_levels b) dbl_max)) as ->.
  { unfold get_best_prices. destruct (cache_valid b) eqn:E; [|done].
    destruct (wf_cache b Hwf E) as [-> ->]. done. }
  cbn [fst snd]. split_and!; try done.
  - by intros ->.
  - by intros ->.
  - intros Hne.
    destruct (side_front_best true _ _ (wf_sides b Hwf true) Hne dbl_zero)
      as (H1 & H2 & H3 & p & n & H4 & H5 & H6 & H7).
    split_and!; try done. exists p, n. by split_and!.
  - intros Hne.
    destruct (side_front_best false _ _ (wf_sides b Hwf false) Hne dbl_max)
      as (H1 & H2 & H3 & H4).
    by split_and!.
Qed.

Lemma get_best_prices_spec_witness :
  wf book_three /\
  fst (fst (get_best_prices book_three))
    = front_price (bid_levels book_three) dbl_zero.
Proof.
  split; [exact book_three_wf|].
  exact (proj1 (get_best_prices_spec book_three book_three_wf)).
Defined.

(** ** What one operation leaves alone *)

Lemma fifo_edit_none l : fifo_edit None None l = l.
Proof. done. Qed.

Lemma add_order_frame o b :
  wf b -> is_nan (price o) = false ->
  (forall id, order_id o <> id ->
     order_lookup (add_order o b) !! id = order_lookup b !! id) /\
  (forall p, p ∈ book_ptrs b -> heap (add_order o b) !! p = heap b !! p) /\
  (forall buy k, is_nan k = false ->
     exists xo,
       fifo_at (comp_of buy) k (side_of buy (add_order o b)) =
       fifo_edit None xo (fifo_at (comp_of buy) k (side_of buy b))).
Proof.
  intros Hwf Hp. split_and!.
  - intros id Hne. rewrite add_order_lookup. unfold lookup_emplace.
    destruct (order_lookup b !! order_id o); [done|]. by rewrite lookup_insert_ne.
  - intros p Hin. rewrite add_order_heap. apply lookup_insert_ne.
    intros <-. by apply (next_node_fresh b Hwf).
  - intros buy k Hk. rewrite add_order_fifo by done.
    destruct (_ && _); [by exists (Some (next_node b)) | by exists None].
Qed.

Lemma cancel_order_frame id b :
  wf b ->
  (forall id', id <> id' ->
     order_lookup (snd (cancel_order id b)) !! id' = order_lookup b !! id') /\
  heap (snd (cancel_order id b)) = heap b /\
  (forall buy k, is_nan k = false ->
     exists co,
       fifo_at (comp_of buy) k (side_of buy (snd (cancel_order id b))) =
       fifo_edit co None (fifo_at (comp_of buy) k (side_of buy b)) /\
       forall c, co = Some c -> order_lookup b !! id = Some c).
Proof.
  intros Hwf. destruct (order_lookup b !! id) as [node|] eqn:Hid.
  2:{ rewrite cancel_order_absent by done. split_and!; try done.
      intros buy k _. by exists None. }
  destruct (wf_lookup b id node Hwf Hid) as (n & _ & Hn & _).
  split_and!.
  - intros id' Hne. rewrite (cancel_order_found id b node n Hid Hn).
    by apply lookup_delete_ne.
  - by rewrite (cancel_order_found id b node n Hid Hn).
  - intros buy k Hk. rewrite (cancel_order_fifo id b node n) by done.
    destruct (_ && _).
    + exists (Some node). split; [done|]. by intros c [= <-].
    + by exists None.
Qed.

Lemma amend_order_frame now id new_price new_quantity b :
  wf b ->
  (forall id', id <> id' ->
     order_lookup (snd (amend_order now id new_price new_quantity b)) !! id'
     = order_lookup b !! id') /\
  (forall p, p ∈ book_ptrs b -> order_lookup b !! id <> Some p ->
     heap (snd (amend_order now id new_price new_quantity b)) !! p
     = heap b !! p) /\
  (forall buy k, is_nan k = false ->
     exists co xo,
       fifo_at (comp_of buy) k
         (side_of buy (snd (amend_order now id new_price new_quantity b))) =
       fifo_edit co xo (fifo_at (comp_of buy) k (side_of buy b)) /\
       forall c, co = Some c -> order_lookup b !! id = Some c).
Proof.
  intros Hwf. destruct (order_lookup b !! id) as [node|] eqn:Hid.
  2:{ rewrite amend_order_absent by done. split_and!; try done.
      intros buy k _. by exists None, None. }
  destruct (wf_lookup b id node Hwf Hid) as (n & l0 & Hn & Hi & Hnan & Hf & Hin).
  destruct (price_changes (price (order n)) new_price) eqn:Hpc.
  - pose proof (cancel_order_wf id b Hwf) as Hwf1.
    pose proof (price_changes_not_nan _ _ Hpc) as Hnp.
    destruct (cancel_order_frame id b Hwf) as (C1 & C2 & C3).
    rewrite (amend_order_price _ _ _ _ _ _ _ Hid Hn Hpc). cbn [snd].
    match goal with |- context [add_order ?o _] => set (o' := o) end.
    destruct (add_order_frame o' _ Hwf1 Hnp) as (A1 & A2 & A3).
    split_and!.
    + intros id' Hne. change (order_lookup (bump_amends ?x)) with (order_lookup x).
      rewrite A1 by (cbn; congruence). by apply C1.
    + intros p Hp Hnode. change (heap (bump_amends ?x)) with (heap x).
      rewrite A2, C2; [done|].
      pose proof (cancel_order_ptrs id b node n l0 Hid Hn Hf Hin) as Hperm.
      rewrite Hperm in Hp. by apply elem_of_cons in Hp as [->|Hp].
    + intros buy k Hk. change (side_of ?s (bump_amends ?x)) with (side_of s x).
      destruct (A3 buy k Hk) as (xo & ->).
      destruct (C3 buy k Hk) as (co & -> & Hco).
      exists co, xo. split; [by destruct co, xo|].
      intros c Hc. rewrite <- Hid. by apply Hco.
  - split_and!.
    + intros id' _. by rewrite (amend_order_quantity _ _ _ _ _ _ _ Hid Hn Hpc).
    + intros p Hp Hnode.
      rewrite (amend_order_quantity_heap _ _ _ _ _ _ _ l0 Hid Hn Hpc Hf).
      apply lookup_insert_ne. by intros ->.
    + intros buy k _. exists None, None. split; [|done].
      rewrite fifo_edit_none. apply map_find_fifos.
      by apply (amend_order_quantity_fifos _ _ _ _ _ _ _ buy Hid Hn Hpc).
Qed.

Lemma step_frame b a :
  wf b -> op_valid a ->
  (forall id, op_id a <> Some id ->
     order_lookup (step b a) !! id = order_lookup b !! id) /\
  (forall p, p ∈ book_ptrs b ->
     (forall idc, op_id a = Some idc -> order_lookup b !! idc <> Some p) ->
     heap (step b a) !! p = heap b !! p) /\
  (forall buy k, is_nan k = false ->
     exists co xo,
       fifo_at (comp_of buy) k (side_of buy (step b a)) =
       fifo_edit co xo (fifo_at (comp_of buy) k (side_of buy b)) /\
       forall c, co = Some c ->
         exists idc, op_id a = Some idc /\ order_lookup b !! idc = Some c).
Proof.
  intros Hwf Hv. destruct a as [o|id|now id np nq|depth bids asks|];
    cbn [step op_id op_valid] in *.
  - destruct (add_order_frame o b Hwf Hv) as (A1 & A2 & A3). split_and!.
    + intros id Hne. apply A1. congruence.
    + intros p Hp _. by apply A2.
    + intros buy k Hk. destruct (A3 buy k Hk) as (xo & ->).
      exists None, xo. by split.
  - destruct (cancel_order_frame id b Hwf) as (C1 & C2 & C3). split_and!.
    + intros id' Hne. apply C1. congruence.
    + intros p _ _. by rewrite C2.
    + intros buy k Hk. destruct (C3 buy k Hk) as (co & -> & Hco).
      exists co, None. split; [done|]. intros c Hc. exists id. auto.
  - destruct (amend_order_frame now id np nq b Hwf) as (M1 & M2 & M3).
    split_and!.
    + intros id' Hne. apply M1. congruence.
    + intros p Hp Hnode. apply M2; [done|]. by apply Hnode.
    + intros buy k Hk. destruct (M3 buy k Hk) as (co & xo & -> & Hco).
      exists co, xo. split; [done|]. intros c Hc. exists id. auto.
  - split_and!; try done. intros buy k _. by exists None, None.
  - assert (forall buy, side_of buy (snd (get_best_prices b)) = side_of buy b)
      as Hs by (intros [|]; unfold get_best_prices; by destruct (cache_valid b)).
    split_and!.
    + intros id _. unfold get_best_prices. by destruct (cache_valid b).
    + intros p _ _. unfold get_best_prices. by destruct (cache_valid b).
    + intros buy k _. exists None, None. by rewrite Hs.
Qed.

(** Orders whose ids no operation of a sequence names keep their index
    entries and their nodes, and their level's FIFO only loses other nodes
    and grows at the tail. *)
Lemma run_frame (P : list ptr -> Prop) (ids : list Z) (keep : list ptr)
    ops b buy k :
  (forall l x, P l -> P (l ++ [x])) ->
  (forall l c, c ∉ keep -> P l -> P (list_erase c l)) ->
  wf b -> Forall op_valid ops ->
  Forall (fun a => forall id, id ∈ ids -> op_id a <> Some id) ops ->
  is_nan k = false ->
  (forall c, c ∈ keep -> exists id, id ∈ ids /\ order_lookup b !! id = Some c) ->
  P (fifo_at (comp_of buy) k (side_of buy b)) ->
  (forall id, id ∈ ids ->
     order_lookup (run ops b) !! id = order_lookup b !! id) /\
  (forall c, c ∈ keep -> heap (run ops b) !! c = heap b !! c) /\
  P (fifo_at (comp_of buy) k (side_of buy (run ops b))).
Proof.
  intros Hpush Herase Hwf Hv Hids Hk. revert b Hwf.
  induction Hv as [|a ops Ha Hv IH]; intros b Hwf Hkeep HP; [done|].
  apply Forall_cons in Hids as [Hid Hids].
  destruct (step_frame b a Hwf Ha) as (F1 & F2 & F3).
  assert (forall c, c ∈ keep -> heap (step b a) !! c = heap b !! c) as Hheap.
  { intros c Hc. destruct (Hkeep c Hc) as (id & Hin & Hl).
    apply F2; [by apply (wf_index b Hwf id)|].
    intros idc Hop Hl'. apply (Hid id Hin).
    by rewrite (wf_index_inj b id idc c Hwf Hl Hl'). }
  cbn [run fold_left]. fold (run ops (step b a)).
  destruct (IH Hids (step b a)) as (I1 & I2 & I3).
  - by apply step_wf.
  - intros c Hc. destruct (Hkeep c Hc) as (id & Hin & Hl).
    exists id. split; [done|]. rewrite F1; [done|]. by apply Hid.
  - destruct (F3 buy k Hk) as (co & xo & -> & Hco).
    assert (P (match co with
               | Some c => list_erase c (fifo_at (comp_of buy) k (side_of buy b))
               | None => fifo_at (comp_of buy) k (side_of buy b)
               end)) as HP1.
    { destruct co as [c|]; [|done]. apply Herase; [|done].
      intros Hc. destruct (Hco c eq_refl) as (idc & Hop & Hl).
      destruct (Hkeep c Hc) as (id & Hin & Hl').
      apply (Hid id Hin). by rewrite (wf_index_inj b id idc c Hwf Hl' Hl). }
    unfold fifo_edit. destruct xo; [by apply Hpush | done].
  - split_and!.
    + intros id Hin. rewrite I1 by done. apply F1. by apply Hid.
    + intros c Hc. rewrite I2 by done. by apply Hheap.
    + done.
Qed.

(** ** Time priority *)

(** C6.  Take a well-formed book, add an order A with a fresh id, run any
    operations that name neither A's id nor B's, add an order B (fresh id,
    same side, same price up to the sign of zero), and run any further
    operations that name neither id.  Both orders still rest, with the
    contents they were added with, and A's node comes before B's in the
    FIFO of their level, whatever their [timestamp_ns]. *)
Theorem fifo_time_priority (b : OrderBook) (oa ob : Order)
    (ops1 ops2 : list op) :
  wf b ->
  is_nan (price oa) = false -> is_nan (price ob) = false ->
  is_buy ob = is_buy oa ->
  key_equiv (comp_of (is_buy oa)) (price oa) (price ob) ->
  order_id oa <> order_id ob ->
  order_lookup b !! order_id oa = None ->
  order_lookup b !! order_id ob = None ->
  Forall op_valid ops1 -> Forall op_valid ops2 ->
  Forall (fun a => op_id a <> Some (order_id oa) /\
                   op_id a <> Some (order_id ob)) ops1 ->
  Forall (fun a => op_id a <> Some (order_id oa) /\
                   op_id a <> Some (order_id ob)) ops2 ->
  let b1 := run ops1 (add_order oa b) in
  let b2 := run ops2 (add_order ob b1) in
  exists pa pb,
    order_lookup b2 !! order_id oa = Some pa /\
    order_lookup b2 !! order_id ob = Some pb /\
    heap b2 !! pa = Some (OrderNode_new oa) /\
    heap b2 !! pb = Some (OrderNode_new ob) /\
    precedes pa pb
      (fifo_at (comp_of (is_buy oa)) (price oa) (side_of (is_buy oa) b2)).
Proof.
  intros Hwf Hna Hnb Hside Hprice Hne Hfa Hfb Hv1 Hv2 Hn1 Hn2. cbn zeta.
  set (buy := is_buy oa) in *. set (k := price oa) in *.
  set (pa := next_node b).
  assert (key_equivb (comp_of buy) k k = true) as Hkk
    by apply (key_equivb_spec (comp_of buy)), key_equiv_refl, _.
  (* after adding A *)
  pose proof (add_order_wf oa b Hwf Hna) as Hwf0.
  assert (order_lookup (add_order oa b) !! order_id oa = Some pa) as Hla0.
  { rewrite add_order_lookup. unfold lookup_emplace. rewrite Hfa.
    apply lookup_insert_eq. }
  assert (heap (add_order oa b) !! pa = Some (OrderNode_new oa)) as Hha0.
  { rewrite add_order_heap. apply lookup_insert_eq. }
  assert (order_lookup (add_order oa b) !! order_id ob = None) as Hlb0.
  { rewrite (proj1 (add_order_frame oa b Hwf Hna)); done. }
  assert (pa ∈ fifo_at (comp_of buy) k (side_of buy (add_order oa b))) as Hin0.
  { rewrite add_order_fifo by done. fold buy k. rewrite eqb_reflx, Hkk.
    cbn [andb]. apply elem_of_app. right. by apply list_elem_of_singleton. }
  (* through ops1 *)
  destruct (run_frame (fun l => pa ∈ l) [order_id oa; order_id ob] [pa]
              ops1 (add_order oa b) buy k) as (R1 & R2 & R3); try done.
  { intros l x Hl. apply elem_of_app. by left. }
  { intros l c Hc Hl. apply list_erase_other; [|done].
    intros ->. apply Hc. by apply list_elem_of_singleton. }
  { eapply Forall_impl; [exact Hn1|]. cbn.
    intros a [H1 H2] id [->|[->|[]%elem_of_nil]%elem_of_cons]%elem_of_cons;
      done. }
  { intros c ->%list_elem_of_singleton. exists (order_id oa).
    split; [|done]. apply elem_of_cons. by left. }
  pose proof (run_wf ops1 _ Hwf0 Hv1) as Hwf1.
  set (b1 := run ops1 (add_order oa b)) in *.
  assert (order_lookup b1 !! order_id oa = Some pa) as Hla1.
  { rewrite R1; [done|]. apply elem_of_cons. by left. }
  assert (order_lookup b1 !! order_id ob = None) as Hlb1.
  { rewrite R1; [done|]. apply elem_of_cons. right. apply elem_of_cons. by left. }
  assert (heap b1 !! pa = Some (OrderNode_new oa)) as Hha1.
  { rewrite R2; [done|]. by apply list_elem_of_singleton. }
  (* after adding B *)
  set (pb := next_node b1).
  pose proof (add_order_wf ob b1 Hwf1 Hnb) as Hwf2.
  destruct (add_order_frame ob b1 Hwf1 Hnb) as (A1 & A2 & _).
  assert (order_lookup (add_order ob b1) !! order_id oa = Some pa) as Hla2.
  { rewrite A1; [done|]. congruence. }
  assert (order_lookup (add_order ob b1) !! order_id ob = Some pb) as Hlb2.
  { rewrite add_order_lookup. unfold lookup_emplace. rewrite Hlb1.
    apply lookup_insert_eq. }
  assert (heap (add_order ob b1) !! pa = Some (OrderNode_new oa)) as Hha2.
  { rewrite A2; [done|]. by apply (wf_index b1 Hwf1 (order_id oa)). }
  assert (heap (add_order ob b1) !! pb = Some (OrderNode_new ob)) as Hhb2.
  { rewrite add_order_heap. apply lookup_insert_eq. }
  assert (precedes pa pb
            (fifo_at (comp_of buy) k (side_of buy (add_order ob b1)))) as Hpre.
  { rewrite add_order_fifo by done. rewrite Hside. fold buy.
    rewrite eqb_reflx, (proj2 (key_equivb_spec _ _ _) Hprice). cbn [andb].
    by apply precedes_snoc. }
  (* through ops2 *)
  destruct (run_frame (precedes pa pb) [order_id oa; order_id ob] [pa; pb]
              ops2 (add_order ob b1) buy k) as (S1 & S2 & S3); try done.
  { intros l x. apply precedes_app_r. }
  { intros l c Hc. apply precedes_erase.
    - intros ->. apply Hc. apply elem_of_cons. by left.
    - intros ->. apply Hc. apply elem_of_cons. right. apply elem_of_cons. by left. }
  { eapply Forall_impl; [exact Hn2|]. cbn.
    intros a [H1 H2] id [->|[->|[]%elem_of_nil]%elem_of_cons]%elem_of_cons;
      done. }
  { intros c [->|[->|[]%elem_of_nil]%elem_of_cons]%elem_of_cons.
    - exists (order_id oa). split; [|done]. apply elem_of_cons. by left.
    - exists (order_id ob). split; [|done].
      apply elem_of_cons. right. apply elem_of_cons. by left. }
  exists pa, pb. split_and!.
  - rewrite S1; [done|]. apply elem_of_cons. by left.
  - rewrite S1; [done|]. apply elem_of_cons. right. apply elem_of_cons. by left.
  - rewrite S2; [done|]. apply elem_of_cons. by left.
  - rewrite S2; [done|]. apply elem_of_cons. right. apply elem_of_cons. by left.
  - done.
Qed.

Lemma fifo_time_priority_witness :
  wf OrderBook_new /\
  (let b1 := run [OpAdd (sample_order 3 false 101 30)]
               (add_order early_order OrderBook_new) in
   let b2 := run [OpCancel 3; OpBestPrices] (add_order late_order b1) in
   exists pa pb,
     order_lookup b2 !! order_id early_order = Some pa /\
     order_lookup b2 !! order_id late_order = Some pb /\
     heap b2 !! pa = Some (OrderNode_new early_order) /\
     heap b2 !! pb = Some (OrderNode_new late_order) /\
     precedes pa pb
       (fifo_at (comp_of (is_buy early_order)) (price early_order)
          (side_of (is_buy early_order) b2))).
Proof.
  split; [exact wf_new|].
  refine (fifo_time_priority OrderBook_new early_order late_order
            [OpAdd (sample_order 3 false 101 30)] [OpCancel 3; OpBestPrices]
            wf_new eq_refl eq_refl eq_refl (conj eq_refl eq_refl) _
            eq_refl eq_refl _ _ _ _).
  - discriminate.
  - repeat constructor.
  - repeat constructor.
  - repeat constructor; discriminate.
  - repeat constructor; discriminate.
Defined.

(** ** Level aggregates *)

(** C7, counterexample.  After two adds of [2^63] at one price the level's
    [total_quantity] has wrapped to 0, while the quantities of the nodes of
    its FIFO add up to [2^64]. *)
Lemma level_total_wraps :
  book_large =
    run [OpAdd (sample_order 1 true 100 (2 ^ 63));
         OpAdd (sample_order 2 true 100 (2 ^ 63))] OrderBook_new /\
  ~ Forall (fun e => level_exact (heap book_large) (snd e))
      (bid_levels book_large).
Proof.
  split; [reflexivity|]. intros H.
  assert (exists e rest,
            bid_levels book_large = e :: rest /\
            total_quantity (snd e) = 0 /\
            sum_quantities (heap book_large) (orders (snd e)) = 2 ^ 64)
    as (e & rest & He & Ht & Hs).
  { eexists _, _. split_and!; [vm_compute; reflexivity | reflexivity |].
    vm_compute. reflexivity. }
  rewrite He in H. apply Forall_cons in H as [(_ & Hex & _) _].
  rewrite Ht, Hs in Hex. discriminate Hex.
Qed.

(** C7, amended.  After every operation of a sequence of public operations
    on a new book (added prices being numbers), every level of either side
    of the ladder has a non-empty FIFO, a [total_quantity] equal to the sum
    of the quantities of the nodes of its FIFO modulo [2^64] (the sum
    itself whenever it is below [2^64]), and an [order_count] equal to the
    length of its FIFO modulo [2^64]; so a level whose FIFO has emptied is
    no longer in the ladder. *)
Theorem level_invariants (ops : list op) :
  Forall op_valid ops ->
  let b := run ops OrderBook_new in
  forall buy e, e ∈ side_of buy b ->
    orders (snd e) <> [] /\
    total_quantity (snd e) = u64 (sum_quantities (heap b) (orders (snd e))) /\
    order_count (snd e) = u64 (Z.of_nat (length (orders (snd e)))) /\
    (0 <= sum_quantities (heap b) (orders (snd e)) < 2 ^ 64 ->
     total_quantity (snd e) = sum_quantities (heap b) (orders (snd e))).
Proof.
  intros Hv b buy e He.
  pose proof (run_wf ops OrderBook_new wf_new Hv) as Hwf.
  destruct (wf_sides _ Hwf buy) as [_ Hall].
  destruct (proj1 (Forall_forall _ _) Hall e He) as (_ & Hne & _ & Ht & Hc).
  split_and!; try done. intros Hr. by rewrite Ht, u64_small.
Qed.

Lemma level_invariants_witness :
  Forall op_valid
    [OpAdd (sample_order 1 true 100 10); OpAmend 5 1 (dbl_of_Z 99) 4;
     OpAdd (sample_order 2 false 101 7); OpCancel 2] /\
  forall buy e,
    e ∈ side_of buy
          (run [OpAdd (sample_order 1 true 100 10);
                OpAmend 5 1 (dbl_of_Z 99) 4;
                OpAdd (sample_order 2 false 101 7); OpCancel 2]
             OrderBook_new) ->
    orders (snd e) <> [] /\
    total_quantity (snd e) =
      u64 (sum_quantities
             (heap (run [OpAdd (sample_order 1 true 100 10);
                         OpAmend 5 1 (dbl_of_Z 99) 4;
                         OpAdd (sample_order 2 false 101 7); OpCancel 2]
                      OrderBook_new))
             (orders (snd e))) /\
    order_count (snd e) = u64 (Z.of_nat (length (orders (snd e)))) /\
    (0 <= sum_quantities
            (heap (run [OpAdd (sample_order 1 true 100 10);
                        OpAmend 5 1 (dbl_of_Z 99) 4;
                        OpAdd (sample_order 2 false 101 7); OpCancel 2]
                     OrderBook_new))
            (orders (snd e)) < 2 ^ 64 ->
     total_quantity (snd e) =
       sum_quantities
         (heap (run [OpAdd (sample_order 1 true 100 10);
                     OpAmend 5 1 (dbl_of_Z 99) 4;
                     OpAdd (sample_order 2 false 101 7); OpCancel 2]
                  OrderBook_new))
         (orders (snd e))).
Proof.
  split; [repeat constructor|].
  apply (level_invariants
           [OpAdd (sample_order 1 true 100 10); OpAmend 5 1 (dbl_of_Z 99) 4;
            OpAdd (sample_order 2 false 101 7); OpCancel 2]).
  repeat constructor.
Defined.

(** ** The scenarios of the specification, evaluated *)

Example scenario_fifo_within_level :
  side_fifos
    (bid_levels
       (run [OpAdd (sample_order 1 true 100 100);
             OpAdd (sample_order 2 true 100 150);
             OpAdd (sample_order 3 true 100 75)] OrderBook_new))
  = [(dbl_of_Z 100, [(0, 0); (0, 1); (0, 2)]%nat)]
  /\ map level_entry
       (bid_levels
          (run [OpAdd (sample_order 1 true 100 100);
                OpAdd (sample_order 2 true 100 150);
                OpAdd (sample_order 3 true 100 75)] OrderBook_new))
     = [{| pl_price := dbl_of_Z 100; pl_total_quantity := 325 |}].
Proof. split; vm_compute; reflexivity. Qed.

Example scenario_amend_quantity_keeps_place :
  side_fifos
    (bid_levels
       (run [OpAdd (sample_order 1 true 100 100);
             OpAdd (sample_order 2 true 100 200);
             OpAmend 0 1 (dbl_of_Z 100) 500] OrderBook_new))
  = [(dbl_of_Z 100, [(0, 0); (0, 1)]%nat)]
  /\ map level_entry
       (bid_levels
          (run [OpAdd (sample_order 1 true 100 100);
                OpAdd (sample_order 2 true 100 200);
                OpAmend 0 1 (dbl_of_Z 100) 500] OrderBook_new))
     = [{| pl_price := dbl_of_Z 100; pl_total_quantity := 700 |}].
Proof. split; vm_compute; reflexivity. Qed.

Example scenario_amend_price_goes_last :
  let b := run [OpAdd (sample_order 1 true 100 100);
                OpAdd (sample_order 2 true 99 200);
                OpAmend 0 1 (dbl_of_Z 99) 100] OrderBook_new in
  side_fifos (bid_levels b) = [(dbl_of_Z 99, [(0, 1); (0, 0)]%nat)] /\
  order_lookup b !! 1 = Some (0, 0)%nat /\
  order_lookup b !! 2 = Some (0, 1)%nat.
Proof. cbn zeta. split_and!; vm_compute; reflexivity. Qed.

Example scenario_cancel_collapses_level :
  let b := run [OpAdd (sample_order 1 true 100 100);
                OpAdd (sample_order 2 true 99 100);
                OpAdd (sample_order 3 true 98 100);
                OpCancel 2] OrderBook_new in
  map level_entry (bid_levels b)
  = [{| pl_price := dbl_of_Z 100; pl_total_quantity := 100 |};
     {| pl_price := dbl_of_Z 98; pl_total_quantity := 100 |}] /\
  fst (get_best_prices b) = (dbl_of_Z 100, dbl_max).
Proof. cbn zeta. split; vm_compute; reflexivity. Qed.

(** * Further properties of the code *)

(** * Further properties *)

(** ** Round trips on a side *)

Section MapRoundTrips.
Context (comp : double -> double -> bool) `{!StrictWeakOrder comp}.
Implicit Types (m : list (double * Level)) (k : double) (l : Level).

Lemma map_store_store k l l' m :
  map_store comp k l' (map_store comp k l m) = map_store comp k l' m.
Proof.
  induction m as [|[k0 l0] m IH]; cbn; [done|].
  destruct (comp k0 k) eqn:E1.
  - cbn. by rewrite E1, IH.
  - destruct (comp k k0) eqn:E2; cbn; by rewrite E1, E2.
Qed.

Lemma map_store_found k l m :
  map_find comp k m = Some l -> map_store comp k l m = m.
Proof.
  induction m as [|[k0 l0] m IH]; cbn; [done|].
  destruct (comp k0 k); [by intros ->%IH|].
  destruct (comp k k0); [done|]. by intros [= ->].
Qed.

Lemma map_erase_store k l m :
  map_erase comp k (map_store comp k l m) = map_erase comp k m.
Proof.
  induction m as [|[k0 l0] m IH]; cbn; [done|].
  destruct (comp k0 k) eqn:E1.
  - cbn. by rewrite E1, IH.
  - destruct (comp k k0) eqn:E2; cbn; by rewrite E1, E2.
Qed.

Lemma map_erase_emplace k l m :
  map_find comp k m = None -> map_erase comp k (map_emplace comp k l m) = m.
Proof.
  induction m as [|[k0 l0] m IH]; cbn.
  - by rewrite swo_irrefl.
  - destruct (comp k0 k) eqn:E1; cbn.
    + rewrite E1. by intros ->%IH.
    + destruct (comp k k0) eqn:E2; [|done]. intros _. cbn.
      by rewrite swo_irrefl.
Qed.

End MapRoundTrips.

Lemma Level_add_remove h l node n :
  level_aggregates h l -> node ∉ orders l ->
  Level_remove_order (Level_add_order l node n) node n = l.
Proof.
  intros [Ht Hc] Hni. destruct l as [lp t os c]. cbn in *.
  unfold Level_remove_order, Level_add_order. cbn. f_equal.
  - rewrite u64_sub_l. replace (t + quantity (order n) - quantity (order n))
      with t by lia. rewrite Ht. apply u64_small, u64_range.
  - rewrite list_erase_app_r by done. cbn.
    destruct (decide (node = node)); [|done]. by rewrite app_nil_r.
  - rewrite u64_sub_l. replace (c + 1 - 1) with c by lia.
    rewrite Hc. apply u64_small, u64_range.
Qed.

Lemma add_remove_side buy h side node n :
  side_ok h buy side -> is_nan (price (order n)) = false ->
  node ∉ side_ptrs side ->
  remove_from_side (comp_of buy)
    (add_to_side (comp_of buy) side node n) node n = side.
Proof.
  intros Hok Hnan Hni. unfold remove_from_side.
  rewrite (add_to_side_find buy h) by done.
  rewrite (proj2 (key_equivb_spec _ _ _) (key_equiv_refl _ _)).
  unfold add_to_side.
  destruct (map_find (comp_of buy) (price (order n)) side) as [l0|] eqn:E;
    cbn [default from_option]; unfold id.
  - destruct (map_find_elem _ _ _ _ E) as (k' & He & _).
    destruct Hok as [_ Hall].
    destruct (proj1 (Forall_forall _ _) Hall _ He) as (_ & Hne & _ & Hagg).
    assert (node ∉ orders l0) as Hn0.
    { intros Hin. apply Hni, side_ptrs_elem. eauto. }
    rewrite (Level_add_remove h) by done.
    destruct (Level_is_empty l0) eqn:Ee.
    { by apply Level_is_empty_spec in Ee. }
    rewrite (map_store_store (comp_of buy)).
    by apply (map_store_found (comp_of buy)).
  - rewrite (Level_add_remove h);
      [|apply level_aggregates_new|apply not_elem_of_nil].
    cbn [Level_is_empty Level_new orders].
    rewrite (map_erase_store (comp_of buy)).
    by apply (map_erase_emplace (comp_of buy)).
Qed.

(** ** [add_order] then [cancel_order] *)

(** X1.  Adding an order under an id that is not indexed and cancelling
    that id at once gives back both sides of the ladder and the index as
    they were; the cancel succeeds, the node's slot is at the back of the
    free list and is the one the next [add_order] will get. *)
Theorem add_then_cancel (b : OrderBook) (o : Order) :
  wf b -> is_nan (price o) = false ->
  order_lookup b !! order_id o = None ->
  let r := cancel_order (order_id o) (add_order o b) in
  fst r = true /\
  bid_levels (snd r) = bid_levels b /\
  ask_levels (snd r) = ask_levels b /\
  order_lookup (snd r) = order_lookup b /\
  head (free_list (order_pool (snd r))) = Some (next_node b) /\
  next_node (snd r) = next_node b /\
  total_orders (snd r) = u64 (total_orders b + 1) /\
  total_cancels (snd r) = u64 (total_cancels b + 1).
Proof.
  intros Hwf Hnan Hfresh. cbn zeta.
  pose proof (next_node_fresh b Hwf) as Hfr.
  assert (order_lookup (add_order o b) !! order_id o = Some (next_node b))
    as Hl.
  { rewrite add_order_lookup. unfold lookup_emplace. rewrite Hfresh.
    apply lookup_insert_eq. }
  assert (heap (add_order o b) !! next_node b = Some (OrderNode_new o)) as Hh.
  { rewrite add_order_heap. apply lookup_insert_eq. }
  rewrite (cancel_order_found _ _ _ _ Hl Hh). cbn [fst snd].
  cbn [bid_levels ask_levels order_lookup order_pool total_orders
         total_cancels OrderNode_new order].
  assert (forall buy, next_node b ∉ side_ptrs (side_of buy b)) as Hfr'.
  { intros buy Hin. apply Hfr, book_ptrs_elem. eauto. }
  split_and!.
  - done.
  - rewrite add_order_unfold. cbn [bid_levels].
    destruct (is_buy o); [|done].
    apply (add_remove_side true (heap b)); [apply (wf_sides b Hwf true)|done|].
    apply (Hfr' true).
  - rewrite add_order_unfold. cbn [ask_levels].
    destruct (is_buy o); [done|].
    apply (add_remove_side false (heap b)); [apply (wf_sides b Hwf false)|done|].
    apply (Hfr' false).
  - rewrite add_order_lookup. unfold lookup_emplace. rewrite Hfresh.
    by apply delete_insert_id.
  - done.
  - done.
  - by rewrite add_order_unfold.
  - by rewrite add_order_unfold.
Qed.

Lemma add_then_cancel_witness :
  wf book_one /\
  is_nan (price (sample_order 2 true 100 20)) = false /\
  order_lookup book_one !! order_id (sample_order 2 true 100 20) = None /\
  fst (cancel_order (order_id (sample_order 2 true 100 20))
         (add_order (sample_order 2 true 100 20) book_one)) = true.
Proof.
  split_and!; [exact book_one_wf | reflexivity | vm_compute; reflexivity |].
  exact (proj1 (add_then_cancel book_one (sample_order 2 true 100 20)
                  book_one_wf eq_refl eq_refl)).
Defined.

(** ** [cancel_order] twice *)

(** X2.  Whatever the book, cancelling an id a second time returns [false]
    and leaves the book as the first cancel left it. *)
Theorem cancel_order_twice (b : OrderBook) (id : Z) :
  cancel_order id (snd (cancel_order id b)) =
  (false, snd (cancel_order id b)).
Proof.
  destruct (order_lookup b !! id) as [node|] eqn:Hid.
  - destruct (heap b !! node) as [n|] eqn:Hn.
    + rewrite (cancel_order_found id b node n Hid Hn). cbn [snd].
      apply cancel_order_absent. cbn [order_lookup]. apply lookup_delete_eq.
    + assert (cancel_order id b = (false, b)) as ->
        by (unfold cancel_order; by rewrite Hid, Hn).
      cbn [snd]. unfold cancel_order. by rewrite Hid, Hn.
  - rewrite (cancel_order_absent id b Hid). cbn [snd].
    by apply cancel_order_absent.
Qed.

(** ** [amend_order] to the same price and quantity *)

Lemma price_changes_same p : price_changes p p = false.
Proof.
  destruct p as [[|]|[|]| |s m e]; try reflexivity.
  unfold price_changes, dbl_sub, SFsub. by rewrite Z.sub_diag.
Qed.

Lemma set_quantity_same n : set_quantity n (quantity (order n)) = n.
Proof. by destruct n as [[? ? ? ? ?] ?]. Qed.

Lemma Level_update_same h l n :
  level_aggregates h l ->
  fst (Level_update_quantity l n (quantity (order n))) = l.
Proof.
  intros [Ht _]. destruct l as [lp t os c]. cbn in *. f_equal.
  rewrite u64_add_l. replace (t - quantity (order n) + quantity (order n))
    with t by lia.
  rewrite Ht. apply u64_small, u64_range.
Qed.

(** X3.  Amending a resting order to the price and the quantity it already
    has returns [true] and leaves the ladder, the nodes, the index and the
    pool as they were; only [total_amends] and the cache flag move. *)
Theorem amend_order_same (now id : Z) (b : OrderBook) (node : ptr)
    (n : OrderNode) :
  wf b -> order_lookup b !! id = Some node -> heap b !! node = Some n ->
  let r := amend_order now id (price (order n)) (quantity (order n)) b in
  fst r = true /\
  bid_levels (snd r) = bid_levels b /\
  ask_levels (snd r) = ask_levels b /\
  heap (snd r) = heap b /\
  order_lookup (snd r) = order_lookup b /\
  order_pool (snd r) = order_pool b /\
  total_orders (snd r) = total_orders b /\
  total_cancels (snd r) = total_cancels b /\
  total_amends (snd r) = u64 (total_amends b + 1) /\
  cache_valid (snd r) = false.
Proof.
  intros Hwf Hid Hn. cbn zeta.
  destruct (wf_lookup b id node Hwf Hid) as (n' & l0 & Hn' & Hi & Hnan & Hf & Hin).
  assert (n' = n) as -> by congruence.
  pose proof (price_changes_same (price (order n))) as Hpc.
  assert (forall buy,
            side_of buy (snd (amend_order now id (price (order n))
                                (quantity (order n)) b)) = side_of buy b)
    as Hsides.
  { intros buy. rewrite (amend_order_quantity_side _ _ _ _ _ _ _ buy Hid Hn Hpc).
    destruct (eqb (is_buy (order n)) buy) eqn:E; [|done].
    apply eqb_prop in E. subst buy.
    destruct (update_quantity_shape _ _ n (quantity (order n)) l0 Hf)
      as (m1 & k' & m2 & Hs & _ & ->). cbn [fst].
    destruct (wf_sides b Hwf (is_buy (order n))) as [_ Hall].
    rewrite Hs in Hall. apply Forall_app in Hall as [_ Hall].
    apply Forall_cons in Hall as [(_ & _ & _ & Hagg) _].
    by rewrite (Level_update_same (heap b)), Hs. }
  split_and!;
    try by rewrite (amend_order_quantity _ _ _ _ _ _ _ Hid Hn Hpc).
  - apply (Hsides true).
  - apply (Hsides false).
  - rewrite (amend_order_quantity_heap _ _ _ _ _ _ _ l0 Hid Hn Hpc Hf).
    rewrite set_quantity_same. by apply insert_id.
Qed.

Lemma amend_order_same_witness :
  wf book_three /\
  order_lookup book_three !! 2 = Some (0%nat, 1%nat) /\
  heap book_three !! (0%nat, 1%nat)
    = Some (OrderNode_new (sample_order 2 true 100 20)) /\
  bid_levels
    (snd (amend_order 4 2
            (price (order (OrderNode_new (sample_order 2 true 100 20))))
            (quantity (order (OrderNode_new (sample_order 2 true 100 20))))
            book_three))
  = bid_levels book_three.
Proof.
  split_and!;
    [exact book_three_wf | vm_compute; reflexivity | vm_compute; reflexivity |].
  exact (proj1 (proj2 (amend_order_same 4 2 book_three (0%nat, 1%nat)
                         (OrderNode_new (sample_order 2 true 100 20))
                         book_three_wf eq_refl eq_refl))).
Defined.

(** ** What [amend_order] keeps *)

(** X4.  In a well-formed book [amend_order] returns [true] exactly when
    the id is indexed, and it never changes which ids are indexed; the
    amended id stays indexed to a node with the same id and the same
    side, with the quantity asked for. *)
Theorem amend_order_keeps_ids (now id : Z) (new_price : double)
    (new_quantity : Z) (b : OrderBook) :
  wf b ->
  let r := amend_order now id new_price new_quantity b in
  (fst r = true <-> is_Some (order_lookup b !! id)) /\
  (forall id', is_Some (order_lookup (snd r) !! id') <->
               is_Some (order_lookup b !! id')) /\
  (forall node n,
     order_lookup b !! id = Some node -> heap b !! node = Some n ->
     exists node' n',
       order_lookup (snd r) !! id = Some node' /\
       heap (snd r) !! node' = Some n' /\
       order_id (order n') = id /\
       is_buy (order n') = is_buy (order n) /\
       quantity (order n') = new_quantity).
Proof.
  intros Hwf. cbn zeta.
  destruct (order_lookup b !! id) as [node|] eqn:Hid.
  2:{ rewrite amend_order_absent by done. cbn [fst snd]. split_and!.
      - split; [done | by intros [? ?]].
      - done.
      - done. }
  destruct (wf_lookup b id node Hwf Hid) as (n & l0 & Hn & Hi & Hnan & Hf & Hin).
  assert (exists node' n',
            order_lookup (snd (amend_order now id new_price new_quantity b))
              !! id = Some node' /\
            heap (snd (amend_order now id new_price new_quantity b))
              !! node' = Some n' /\
            order_id (order n') = id /\
            is_buy (order n') = is_buy (order n) /\
            quantity (order n') = new_quantity) as Hres.
  { destruct (price_changes (price (order n)) new_price) eqn:Hpc.
    - destruct (amend_order_price_result now id new_price new_quantity b
                  node n Hwf Hid Hn Hpc) as (_ & Hl & Hh & _).
      eexists _, _. split_and!; [exact Hl | exact Hh | done..].
    - exists node, (set_quantity n new_quantity). split_and!; try done.
      + by rewrite (amend_order_quantity _ _ _ _ _ _ _ Hid Hn Hpc).
      + rewrite (amend_order_quantity_heap _ _ _ _ _ _ _ l0 Hid Hn Hpc Hf).
        apply lookup_insert_eq. }
  split_and!.
  - split; [eauto|]. intros _.
    destruct (price_changes (price (order n)) new_price) eqn:Hpc.
    + by rewrite (amend_order_price _ _ _ _ _ _ _ Hid Hn Hpc).
    + by rewrite (amend_order_quantity _ _ _ _ _ _ _ Hid Hn Hpc).
  - intros id'. destruct (decide (id = id')) as [<-|Hne].
    + destruct Hres as (node' & n' & -> & _). rewrite Hid. split; eauto.
    + destruct (amend_order_frame now id new_price new_quantity b Hwf)
        as (M1 & _). by rewrite M1.
  - intros node0 n0 [= <-] Hn0. assert (n0 = n) as -> by congruence. done.
Qed.

Lemma amend_order_keeps_ids_witness :
  wf book_three /\
  (fst (amend_order 4 2 (dbl_of_Z 97) 5 book_three) = true <->
   is_Some (order_lookup book_three !! 2)).
Proof.
  split; [exact book_three_wf|].
  exact (proj1 (amend_order_keeps_ids 4 2 (dbl_of_Z 97) 5 book_three
                  book_three_wf)).
Defined.

(** ** Orders an operation does not name *)

Lemma step_unnamed_node b a node n :
  wf b -> op_valid a -> node ∈ book_ptrs b -> heap b !! node = Some n ->
  (forall idc, op_id a = Some idc -> order_lookup b !! idc <> Some node) ->
  heap (step b a) !! node = Some n /\
  node ∈ fifo_at (comp_of (is_buy (order n))) (price (order n))
           (side_of (is_buy (order n)) (step b a)).
Proof.
  intros Hwf Hv Hp Hn Hnot.
  destruct (step_frame b a Hwf Hv) as (_ & F2 & F3).
  apply book_ptrs_elem in Hp as Hside. destruct Hside as (buy & Hside).
  destruct (wf_node b buy node Hwf Hside) as (n' & l0 & Hn' & Hb & Hnan & Hf & Hin).
  assert (n' = n) as -> by congruence. subst buy.
  split; [by rewrite F2|].
  destruct (F3 (is_buy (order n)) (price (order n)) Hnan)
    as (co & xo & -> & Hco).
  assert (node ∈ fifo_at (comp_of (is_buy (order n))) (price (order n))
                   (side_of (is_buy (order n)) b)) as Hfifo.
  { unfold fifo_at. by rewrite Hf. }
  unfold fifo_edit.
  assert (node ∈ match co with
                 | Some c => list_erase c
                     (fifo_at (comp_of (is_buy (order n))) (price (order n))
                        (side_of (is_buy (order n)) b))
                 | None => fifo_at (comp_of (is_buy (order n)))
                     (price (order n)) (side_of (is_buy (order n)) b)
                 end) as H1.
  { destruct co as [c|]; [|done]. apply list_erase_other; [|done].
    intros ->. destruct (Hco c eq_refl) as (idc & Hop & Hl).
    by apply (Hnot idc). }
  destruct xo; [|done]. apply elem_of_app. by left.
Qed.

(** X5.  An operation leaves alone the orders it does not name: the index
    entry of every other id is the same after it, the node it points to
    has the same contents, and the node is still in the FIFO of the same
    level. *)
Theorem step_other_orders (b : OrderBook) (a : op) (id : Z) (node : ptr)
    (n : OrderNode) :
  wf b -> op_valid a -> op_id a <> Some id ->
  order_lookup b !! id = Some node -> heap b !! node = Some n ->
  order_lookup (step b a) !! id = Some node /\
  heap (step b a) !! node = Some n /\
  node ∈ fifo_at (comp_of (is_buy (order n))) (price (order n))
           (side_of (is_buy (order n)) (step b a)).
Proof.
  intros Hwf Hv Hne Hid Hn.
  split.
  - by rewrite (proj1 (step_frame b a Hwf Hv)).
  - apply step_unnamed_node; try done.
    + by apply (wf_index b Hwf id).
    + intros idc Hop Hl. apply Hne.
      by rewrite (wf_index_inj b id idc node Hwf Hid Hl).
Qed.

Lemma step_other_orders_witness :
  wf book_three /\ op_valid (OpCancel 1) /\ op_id (OpCancel 1) <> Some 2 /\
  order_lookup book_three !! 2 = Some (0%nat, 1%nat) /\
  heap book_three !! (0%nat, 1%nat)
    = Some (OrderNode_new (sample_order 2 true 100 20)) /\
  order_lookup (step book_three (OpCancel 1)) !! 2 = Some (0%nat, 1%nat).
Proof.
  split_and!;
    [exact book_three_wf | exact I | discriminate | vm_compute; reflexivity
    | vm_compute; reflexivity |].
  refine (proj1 (step_other_orders book_three (OpCancel 1) 2 (0%nat, 1%nat)
                   (OrderNode_new (sample_order 2 true 100 20))
                   book_three_wf I _ eq_refl eq_refl)).
  discriminate.
Defined.

(** ** Books reached from the empty book *)

(** X6.  After any sequence of operations on a new book (added prices
    being numbers), every index entry points to a node that carries that
    id and sits in the FIFO of the level found at its price on the side
    of its [is_buy] flag; no two ids share a node. *)
Theorem index_coherent (ops : list op) :
  Forall op_valid ops ->
  let b := run ops OrderBook_new in
  forall id node, order_lookup b !! id = Some node ->
    exists n l,
      heap b !! node = Some n /\ order_id (order n) = id /\
      map_find (comp_of (is_buy (order n))) (price (order n))
        (side_of (is_buy (order n)) b) = Some l /\
      node ∈ orders l /\
      forall id', order_lookup b !! id' = Some node -> id' = id.
Proof.
  intros Hv b id node Hid.
  pose proof (run_wf ops OrderBook_new wf_new Hv) as Hwf. fold b in Hwf.
  destruct (wf_lookup b id node Hwf Hid) as (n & l & Hn & Hi & _ & Hf & Hin).
  exists n, l. split_and!; try done.
  intros id' Hid'. by apply (wf_index_inj b id' id node).
Qed.

Lemma index_coherent_witness :
  Forall op_valid
    [OpAdd (sample_order 1 true 100 10); OpAmend 5 1 (dbl_of_Z 99) 4] /\
  forall id node,
    order_lookup
      (run [OpAdd (sample_order 1 true 100 10); OpAmend 5 1 (dbl_of_Z 99) 4]
         OrderBook_new) !! id = Some node ->
    exists n l,
      heap (run [OpAdd (sample_order 1 true 100 10);
                 OpAmend 5 1 (dbl_of_Z 99) 4] OrderBook_new) !! node
        = Some n /\
      order_id (order n) = id /\
      map_find (comp_of (is_buy (order n))) (price (order n))
        (side_of (is_buy (order n))
           (run [OpAdd (sample_order 1 true 100 10);
                 OpAmend 5 1 (dbl_of_Z 99) 4] OrderBook_new)) = Some l /\
      node ∈ orders l /\
      forall id',
        order_lookup
          (run [OpAdd (sample_order 1 true 100 10);
                OpAmend 5 1 (dbl_of_Z 99) 4] OrderBook_new) !! id'
          = Some node -> id' = id.
Proof.
  split; [repeat constructor|].
  apply (index_coherent
           [OpAdd (sample_order 1 true 100 10); OpAmend 5 1 (dbl_of_Z 99) 4]).
  repeat constructor.
Defined.

(** X7.  After any such sequence the slot the pool will hand out next is
    held by no FIFO and by no index entry, the free list has no slot twice,
    and no slot of the free list is held by a FIFO or an index entry. *)
Theorem pool_never_reissues (ops : list op) :
  Forall op_valid ops ->
  let b := run ops OrderBook_new in
  (next_node b ∉ book_ptrs b) /\
  (forall id, order_lookup b !! id <> Some (next_node b)) /\
  NoDup (free_list (order_pool b)) /\
  (forall p, p ∈ free_list (order_pool b) ->
     (p ∉ book_ptrs b) /\ forall id, order_lookup b !! id <> Some p).
Proof.
  intros Hv b.
  pose proof (run_wf ops OrderBook_new wf_new Hv) as Hwf. fold b in Hwf.
  pose proof (next_node_fresh b Hwf) as Hfr.
  destruct (wf_pool b Hwf) as (_ & Hnd & Hfree & _).
  split_and!; try done.
  - intros id Hid. by apply Hfr, (wf_index b Hwf id).
  - intros p Hp. destruct (Hfree p Hp) as [_ Hlive]. split; [done|].
    intros id Hid. by apply Hlive, (wf_index b Hwf id).
Qed.

Lemma pool_never_reissues_witness :
  Forall op_valid [OpAdd (sample_order 1 true 100 10); OpCancel 1] /\
  (next_node (run [OpAdd (sample_order 1 true 100 10); OpCancel 1]
                OrderBook_new)
   ∉ book_ptrs (run [OpAdd (sample_order 1 true 100 10); OpCancel 1]
                  OrderBook_new)).
Proof.
  split; [repeat constructor|].
  refine (proj1 (pool_never_reissues
                   [OpAdd (sample_order 1 true 100 10); OpCancel 1] _)).
  repeat constructor.
Defined.

(** ** The accounts of the pool *)

Lemma u64_sub_r a b : u64 (a - u64 b) = u64 (a - b).
Proof. unfold u64. apply Zminus_mod_idemp_r. Qed.

Lemma u64_shift a b c : u64 a = u64 b -> u64 (a + c) = u64 (b + c).
Proof. intros H. by rewrite <- (u64_add_l a), H, u64_add_l. Qed.

Lemma allocate_slots BlockSize pl :
  (0 < BlockSize)%nat -> (0 < blocks_allocated pl)%nat ->
  (current_index pl <= BlockSize)%nat ->
  (0 < blocks_allocated (snd (allocate BlockSize pl)))%nat /\
  (current_index (snd (allocate BlockSize pl)) <= BlockSize)%nat /\
  (pool_slots BlockSize (snd (allocate BlockSize pl)) + length (free_list pl)
   = pool_slots BlockSize pl
     + length (free_list (snd (allocate BlockSize pl))) + 1)%nat /\
  total_allocations (snd (allocate BlockSize pl))
    = u64 (total_allocations pl + 1) /\
  total_deallocations (snd (allocate BlockSize pl)) = total_deallocations pl.
Proof.
  intros HB Hb Hc. unfold allocate, pool_slots.
  destruct (free_list pl) as [|p rest]; cbn.
  - destruct (BlockSize <=? current_index pl)%nat eqn:E; cbn.
    + apply Nat.leb_le in E. split_and!; try done; try lia.
      destruct (blocks_allocated pl); cbn; lia.
    + apply Nat.leb_gt in E. split_and!; try done; lia.
  - split_and!; try done; lia.
Qed.

Lemma add_order_balanced o b :
  pool_balanced b -> pool_balanced (add_order o b).
Proof.
  intros (Hb & Hc & Hs & Ha).
  assert (0 < order_pool_block_size)%nat as HB by (cbv; lia).
  destruct (allocate_slots order_pool_block_size (order_pool b) HB Hb Hc)
    as (Hb' & Hc' & Hs' & Ha' & Hd').
  pose proof (Permutation_length (add_order_ptrs o b)) as Hlen. cbn in Hlen.
  unfold pool_balanced. rewrite Hlen. rewrite add_order_unfold.
  cbn [order_pool]. split_and!; try done.
  - lia.
  - rewrite Ha', Hd', u64_sub_l.
    replace (total_allocations (order_pool b) + 1
             - total_deallocations (order_pool b))
      with (total_allocations (order_pool b)
            - total_deallocations (order_pool b) + 1) by lia.
    rewrite (u64_shift _ _ 1 Ha). f_equal. lia.
Qed.

Lemma cancel_order_balanced id b :
  wf b -> pool_balanced b -> pool_balanced (snd (cancel_order id b)).
Proof.
  intros Hwf Hbal. destruct (order_lookup b !! id) as [node|] eqn:Hid.
  2:{ by rewrite cancel_order_absent. }
  destruct (wf_lookup b id node Hwf Hid) as (n & l0 & Hn & Hi & Hnan & Hf & Hin).
  destruct Hbal as (Hb & Hc & Hs & Ha).
  pose proof (Permutation_length
                (cancel_order_ptrs id b node n l0 Hid Hn Hf Hin)) as Hlen.
  cbn in Hlen. unfold pool_balanced. rewrite Hlen in Hs, Ha.
  assert (order_pool (snd (cancel_order id b))
          = deallocate node (order_pool b)) as ->
    by (by rewrite (cancel_order_found id b node n Hid Hn)).
  unfold deallocate.
  cbn [blocks_allocated current_index free_list total_allocations
         total_deallocations].
  split_and!; try done.
  - unfold pool_slots in *. cbn [blocks_allocated current_index length]. lia.
  - rewrite u64_sub_r.
    replace (total_allocations (order_pool b)
             - (total_deallocations (order_pool b) + 1))
      with (total_allocations (order_pool b)
            - total_deallocations (order_pool b) + -1) by lia.
    rewrite (u64_shift _ _ (-1) Ha). f_equal. lia.
Qed.

Lemma step_balanced b a :
  wf b -> pool_balanced b -> pool_balanced (step b a).
Proof.
  intros Hwf Hbal. destruct a as [o|id|now id np nq|depth bids asks|];
    cbn [step].
  - by apply add_order_balanced.
  - by apply cancel_order_balanced.
  - destruct (order_lookup b !! id) as [node|] eqn:Hid.
    2:{ by rewrite amend_order_absent. }
    destruct (wf_lookup b id node Hwf Hid) as (n & _ & Hn & _).
    destruct (price_changes (price (order n)) np) eqn:Hpc.
    + rewrite (amend_order_price _ _ _ _ _ _ _ Hid Hn Hpc). cbn [snd].
      match goal with |- context [add_order ?o _] => set (o' := o) end.
      assert (pool_balanced (add_order o' (snd (cancel_order id b)))) as H;
        [|exact H].
      by apply add_order_balanced, cancel_order_balanced.
    + unfold pool_balanced.
      rewrite (amend_order_quantity_ptrs _ _ _ _ _ _ _ Hid Hn Hpc).
      by rewrite (amend_order_quantity _ _ _ _ _ _ _ Hid Hn Hpc).
  - done.
  - unfold get_best_prices. by destruct (cache_valid b).
Qed.

Lemma pool_balanced_new : pool_balanced OrderBook_new.
Proof. unfold pool_balanced. cbn. split_and!; try done; lia. Qed.

(** X8.  After any sequence of operations on a new book the slots the bump
    allocator has handed out are exactly the slots of the free list and
    the nodes held by the FIFOs, and [total_allocations] minus
    [total_deallocations] (what [print_stats] shows as active objects) is
    the number of nodes held by the FIFOs, modulo [2^64]. *)
Theorem pool_accounts (ops : list op) :
  Forall op_valid ops ->
  let b := run ops OrderBook_new in
  (current_index (order_pool b) <= order_pool_block_size)%nat /\
  pool_slots order_pool_block_size (order_pool b) =
    (length (free_list (order_pool b)) + length (book_ptrs b))%nat /\
  u64 (total_allocations (order_pool b) - total_deallocations (order_pool b))
    = u64 (Z.of_nat (length (book_ptrs b))).
Proof.
  intros Hv. cbn zeta.
  assert (wf (run ops OrderBook_new) /\ pool_balanced (run ops OrderBook_new))
    as [_ (_ & H1 & H2 & H3)]; [|done].
  pose proof wf_new as Hwf. pose proof pool_balanced_new as Hbal.
  revert Hwf Hbal. generalize OrderBook_new.
  induction Hv as [|a ops Ha _ IH]; intros b Hwf Hbal; [done|].
  cbn [run fold_left]. fold (run ops (step b a)).
  apply IH; [by apply step_wf | by apply step_balanced].
Qed.

Lemma pool_accounts_witness :
  Forall op_valid
    [OpAdd (sample_order 1 true 100 10); OpAdd (sample_order 2 true 100 10);
     OpCancel 1] /\
  (current_index
     (order_pool
        (run [OpAdd (sample_order 1 true 100 10);
              OpAdd (sample_order 2 true 100 10); OpCancel 1] OrderBook_new))
   <= order_pool_block_size)%nat.
Proof.
  split; [repeat constructor|].
  refine (proj1 (pool_accounts
                   [OpAdd (sample_order 1 true 100 10);
                    OpAdd (sample_order 2 true 100 10); OpCancel 1] _)).
  repeat constructor.
Defined.

(** X9.  With an empty free list, [allocate] hands out the slots in order:
    when [j] slots have been handed out, the next one is slot [j mod
    BlockSize] of block [j / BlockSize], and a block is allocated exactly
    when the current one is full. *)
Theorem allocate_next_slot (BlockSize : nat) (pl : MemoryPool) :
  (0 < BlockSize)%nat -> (0 < blocks_allocated pl)%nat ->
  (current_index pl <= BlockSize)%nat -> free_list pl = [] ->
  let j := pool_slots BlockSize pl in
  fst (allocate BlockSize pl) = ((j / BlockSize)%nat, (j mod BlockSize)%nat) /\
  pool_slots BlockSize (snd (allocate BlockSize pl)) = S j /\
  (current_index (snd (allocate BlockSize pl)) <= BlockSize)%nat /\
  blocks_allocated (snd (allocate BlockSize pl)) =
    (if (current_index pl =? BlockSize)%nat then S (blocks_allocated pl)
     else blocks_allocated pl).
Proof.
  intros HB Hb Hc Hf. cbn zeta. unfold allocate, pool_slots. rewrite Hf.
  cbn [fst snd blocks_allocated current_index].
  destruct (BlockSize <=? current_index pl)%nat eqn:E.
  - apply Nat.leb_le in E. assert (current_index pl = BlockSize) as Hci by lia.
    rewrite Hci, Nat.eqb_refl. cbn.
    destruct (blocks_allocated pl) as [|B]; [lia|]. cbn [pred].
    split_and!; try lia.
    f_equal.
    + apply (Nat.div_unique _ _ _ 0); lia.
    + apply (Nat.mod_unique _ _ (S B)); lia.
  - apply Nat.leb_gt in E.
    assert ((current_index pl =? BlockSize)%nat = false) as ->
      by (apply Nat.eqb_neq; lia).
    split_and!; try lia.
    f_equal.
    + apply (Nat.div_unique _ _ _ (current_index pl)); lia.
    + apply (Nat.mod_unique _ _ (pred (blocks_allocated pl))); lia.
Qed.

Lemma allocate_next_slot_witness :
  (0 < 1024)%nat /\
  fst (allocate 1024 (MemoryPool_new 1024))
  = ((pool_slots 1024 (MemoryPool_new 1024) / 1024)%nat,
     (pool_slots 1024 (MemoryPool_new 1024) mod 1024)%nat).
Proof.
  split; [lia|].
  refine (proj1 (allocate_next_slot 1024 (MemoryPool_new 1024) _ _ _ eq_refl));
    cbn; lia.
Defined.

(** ** [can_match] *)

Lemma dbl_ge_rank a b :
  dbl_ge a b = true <->
  is_nan a = false /\ is_nan b = false /\ ~ lex_lt (dbl_rank a) (dbl_rank b).
Proof.
  unfold dbl_ge, SFleb, SFcompare.
  destruct a as [sa|sa| |sa ma ea], b as [sb|sb| |sb mb eb];
    try destruct sa; try destruct sb; cbn; try rank_cases.
  - destruct (Z.compare_spec eb ea); subst;
      [ destruct (pos_compare_cont_spec mb ma); cbn | | ]; rank_cases.
  - destruct (Z.compare_spec eb ea); subst;
      [ destruct (pos_compare_cont_spec mb ma); cbn | | ]; rank_cases.
Qed.

Lemma dbl_ge_not_less a b :
  is_nan a = false -> is_nan b = false -> dbl_ge a b = negb (dbl_less a b).
Proof.
  intros Ha Hb.
  destruct (dbl_ge a b) eqn:E1, (dbl_less a b) eqn:E2; try done.
  - apply dbl_ge_rank in E1 as (_ & _ & E1).
    apply dbl_less_rank in E2 as (_ & _ & E2). done.
  - assert (dbl_ge a b = true) as H; [|congruence].
    apply dbl_ge_rank. split_and!; try done. intros Hlt.
    assert (dbl_less a b = true) as H; [|congruence].
    by apply dbl_less_rank.
Qed.

Lemma get_best_prices_fronts b :
  wf b ->
  fst (get_best_prices b) =
  (front_price (bid_levels b) dbl_zero, front_price (ask_levels b) dbl_max).
Proof.
  intros Hwf. unfold get_best_prices. destruct (cache_valid b) eqn:E; [|done].
  by destruct (wf_cache b Hwf E) as [-> ->].
Qed.

Lemma side_front_not_nan buy h side sentinel :
  side_ok h buy side -> side <> [] -> is_nan (front_price side sentinel) = false.
Proof.
  intros [_ Hall] Hne. destruct side as [|[k l] side]; [done|].
  by apply Forall_cons in Hall as [(? & _) _].
Qed.

Lemma key_equiv_greater_less a b :
  key_equiv dbl_greater a b -> key_equiv dbl_less a b.
Proof. intros [? ?]. by split. Qed.

(** X10.  In a well-formed book [can_match] returns [true] exactly when
    both sides have a level and the front bid key is not below the front
    ask key, which is exactly when some resting bid is priced at or above
    some resting ask.  It leaves the ladder, the nodes and the index
    alone. *)
Theorem can_match_spec (b : OrderBook) :
  wf b ->
  (fst (can_match b) = true <->
   bid_levels b <> [] /\ ask_levels b <> [] /\
   dbl_less (front_price (bid_levels b) dbl_zero)
     (front_price (ask_levels b) dbl_max) = false) /\
  (fst (can_match b) = true <->
   exists pb nb pa na,
     pb ∈ side_ptrs (bid_levels b) /\ heap b !! pb = Some nb /\
     pa ∈ side_ptrs (ask_levels b) /\ heap b !! pa = Some na /\
     dbl_less (price (order nb)) (price (order na)) = false) /\
  bid_levels (snd (can_match b)) = bid_levels b /\
  ask_levels (snd (can_match b)) = ask_levels b /\
  heap (snd (can_match b)) = heap b /\
  order_lookup (snd (can_match b)) = order_lookup b.
Proof.
  intros Hwf.
  pose proof (wf_sides b Hwf true) as Hbid.
  pose proof (wf_sides b Hwf false) as Hask.
  cbn [side_of] in Hbid, Hask.
  assert (fst (can_match b) = true <->
          bid_levels b <> [] /\ ask_levels b <> [] /\
          dbl_less (front_price (bid_levels b) dbl_zero)
            (front_price (ask_levels b) dbl_max) = false) as Hfront.
  { unfold can_match.
    destruct (bid_levels b) as [|eb bids] eqn:Eb.
    { cbn. split; [done | by intros (? & _)]. }
    destruct (ask_levels b) as [|ea asks] eqn:Ea.
    { cbn. split; [done | by intros (_ & ? & _)]. }
    cbn [fst]. rewrite (get_best_prices_fronts b Hwf), Eb, Ea. cbn [fst snd].
    rewrite dbl_ge_not_less.
    - rewrite negb_true_iff. split; [by intros ->|by intros (_ & _ & ->)].
    - by apply (side_front_not_nan true (heap b)).
    - by apply (side_front_not_nan false (heap b)). }
  assert (forall x, snd (can_match b) = x ->
            bid_levels x = bid_levels b /\ ask_levels x = ask_levels b /\
            heap x = heap b /\ order_lookup x = order_lookup b) as Hsame.
  { assert (let y := snd (get_best_prices b) in
            bid_levels y = bid_levels b /\ ask_levels y = ask_levels b /\
            heap y = heap b /\ order_lookup y = order_lookup b) as Hy.
    { unfold get_best_prices. by destruct (cache_valid b). }
    intros x <-. unfold can_match.
    destruct (bid_levels b) eqn:Eb; [cbn [snd]; by split_and!|].
    destruct (ask_levels b) eqn:Ea; [cbn [snd]; by split_and!|].
    cbn [snd]. exact Hy. }
  split_and!; try apply (Hsame _ eq_refl); [done|].
  rewrite Hfront. split.
  - intros (Hb & Ha & Hlt).
    destruct (side_front_best true _ _ Hbid Hb dbl_zero)
      as (_ & _ & _ & pb & nb & Hpb & Hnb & Hkb%key_equiv_greater_less).
    destruct (side_front_best false _ _ Hask Ha dbl_max)
      as (_ & _ & _ & pa & na & Hpa & Hna & Hka).
    destruct (wf_node b true pb Hwf Hpb) as (nb' & _ & Hnb' & _ & Hnanb & _).
    destruct (wf_node b false pa Hwf Hpa) as (na' & _ & Hna' & _ & Hnana & _).
    assert (nb' = nb) as -> by congruence.
    assert (na' = na) as -> by congruence.
    exists pb, nb, pa, na. split_and!; try done.
    rewrite (key_equiv_comp_l dbl_less _ _ _ Hkb Hnanb)
      by (by apply (side_front_not_nan true (heap b))).
    rewrite (key_equiv_comp_r dbl_less _ _ _ Hka Hnana)
      by (by apply (side_front_not_nan false (heap b))).
    done.
  - intros (pb & nb & pa & na & Hpb & Hnb & Hpa & Hna & Hlt).
    assert (bid_levels b <> []) as Hb by (by intros E; rewrite E in Hpb;
      apply elem_of_nil in Hpb).
    assert (ask_levels b <> []) as Ha by (by intros E; rewrite E in Hpa;
      apply elem_of_nil in Hpa).
    split_and!; try done.
    destruct (side_front_best true _ _ Hbid Hb dbl_zero) as (_ & _ & Hmax & _).
    destruct (side_front_best false _ _ Hask Ha dbl_max) as (_ & _ & Hmin & _).
    specialize (Hmax pb nb Hpb Hnb). specialize (Hmin pa na Hpa Hna).
    cbn [comp_of] in Hmax, Hmin. unfold dbl_greater in Hmax.
    destruct (wf_node b true pb Hwf Hpb) as (nb' & _ & Hnb' & _ & Hnanb & _).
    destruct (wf_node b false pa Hwf Hpa) as (na' & _ & Hna' & _ & Hnana & _).
    assert (nb' = nb) as -> by congruence.
    assert (na' = na) as -> by congruence.
    destruct (dbl_less (front_price (bid_levels b) dbl_zero)
                (front_price (ask_levels b) dbl_max)) eqn:E; [|done].
    destruct (swo_neg_trans (comp := dbl_less) _ (price (order nb)) _ Hnanb E)
      as [H1|H1]; [unfold dbl_less in *; congruence|].
    destruct (swo_neg_trans (comp := dbl_less) _ (price (order na)) _ Hnana H1)
      as [H2|H2]; unfold dbl_less in *; congruence.
Qed.

Lemma can_match_spec_witness :
  wf book_three /\
  (fst (can_match book_three) = true <->
   bid_levels book_three <> [] /\ ask_levels book_three <> [] /\
   dbl_less (front_price (bid_levels book_three) dbl_zero)
     (front_price (ask_levels book_three) dbl_max) = false).
Proof.
  split; [exact book_three_wf|].
  exact (proj1 (can_match_spec book_three book_three_wf)).
Defined.

(** ** Read operations *)

(** X11.  Whatever the book, the read operations ([get_best_prices],
    [can_match], [get_stats], [get_snapshot]) leave the ladder, the
    nodes, the index and the pool alone, and the best prices read after
    any of them are the best prices read before. *)
Theorem reads_do_not_interfere (b : OrderBook) (depth : Z)
    (bids asks : list PriceLevel) :
  forall b',
    b' = snd (get_best_prices b) \/ b' = snd (can_match b) \/
    b' = snd (get_stats b) \/ b' = snd (get_snapshot depth bids asks b) ->
    bid_levels b' = bid_levels b /\ ask_levels b' = ask_levels b /\
    heap b' = heap b /\ order_lookup b' = order_lookup b /\
    order_pool b' = order_pool b /\
    fst (get_best_prices b') = fst (get_best_prices b).
Proof.
  assert (bid_levels (snd (get_best_prices b)) = bid_levels b /\
          ask_levels (snd (get_best_prices b)) = ask_levels b /\
          heap (snd (get_best_prices b)) = heap b /\
          order_lookup (snd (get_best_prices b)) = order_lookup b /\
          order_pool (snd (get_best_prices b)) = order_pool b /\
          fst (get_best_prices (snd (get_best_prices b)))
            = fst (get_best_prices b)) as Hbest.
  { unfold get_best_prices. destruct (cache_valid b) eqn:E; cbn; by rewrite ?E. }
  intros b' [-> | [-> | [-> | ->]]].
  - done.
  - unfold can_match.
    destruct (bid_levels b) eqn:Eb; [cbn [snd]; by split_and!|].
    destruct (ask_levels b) eqn:Ea; [cbn [snd]; by split_and!|].
    cbn [snd]. exact Hbest.
  - done.
  - unfold get_snapshot, get_best_prices. cbn.
    by destruct (cache_valid b).
Qed.

Lemma reads_do_not_interfere_witness :
  (snd (get_stats book_three) = snd (get_best_prices book_three) \/
   snd (get_stats book_three) = snd (can_match book_three) \/
   snd (get_stats book_three) = snd (get_stats book_three) \/
   snd (get_stats book_three) = snd (get_snapshot 5 [] [] book_three)) /\
  bid_levels (snd (get_stats book_three)) = bid_levels book_three.
Proof.
  assert (snd (get_stats book_three) = snd (get_best_prices book_three) \/
          snd (get_stats book_three) = snd (can_match book_three) \/
          snd (get_stats book_three) = snd (get_stats book_three) \/
          snd (get_stats book_three) = snd (get_snapshot 5 [] [] book_three))
    as H by (right; right; left; reflexivity).
  split; [exact H|].
  exact (proj1 (reads_do_not_interfere book_three 5 [] [] _ H)).
Defined.

(** ** [get_stats] *)

Lemma index_size b :
  wf b -> no_orphans b -> size (order_lookup b) = length (book_ptrs b).
Proof.
  intros Hwf Hno. rewrite <- length_map_to_list.
  rewrite <- (length_fmap snd (map_to_list (order_lookup b))).
  apply Permutation_length, NoDup_Permutation.
  - apply NoDup_fmap_2_strong; [|apply NoDup_map_to_list].
    intros [i p] [j q] Hi%elem_of_map_to_list Hj%elem_of_map_to_list.
    cbn. intros <-. f_equal. by apply (wf_index_inj b i j p).
  - apply Hwf.
  - intros p. rewrite list_elem_of_fmap. split.
    + intros ([i q] & -> & Hi%elem_of_map_to_list). cbn.
      by apply (wf_index b Hwf i).
    + intros Hp. destruct (Hno p Hp) as (n & _ & Hl).
      exists (order_id (order n), p). split; [done|].
      by apply elem_of_map_to_list.
Qed.

(** X12.  In a well-formed book without orphans [get_stats] reports as
    active orders the number of nodes held by the FIFOs, the level counts
    of the two sides, the counters, and the front keys as best prices; the
    spread is [0.0] when no ask rests and [best_ask - best_bid] when the
    best ask is not [numeric_limits<double>::max()]. *)
Theorem get_stats_spec (b : OrderBook) :
  wf b -> no_orphans b ->
  let s := fst (get_stats b) in
  stats_active_orders s = u64 (Z.of_nat (length (book_ptrs b))) /\
  stats_bid_levels s = u64 (Z.of_nat (length (bid_levels b))) /\
  stats_ask_levels s = u64 (Z.of_nat (length (ask_levels b))) /\
  stats_total_orders s = total_orders b /\
  stats_total_cancels s = total_cancels b /\
  stats_total_amends s = total_amends b /\
  stats_best_bid s = front_price (bid_levels b) dbl_zero /\
  stats_best_ask s = front_price (ask_levels b) dbl_max /\
  (ask_levels b = [] -> stats_spread s = dbl_zero) /\
  (dbl_eq (stats_best_ask s) dbl_max = false ->
   stats_spread s = dbl_sub (stats_best_ask s) (stats_best_bid s)).
Proof.
  intros Hwf Hno. cbn zeta. unfold get_stats. cbn [fst].
  rewrite (get_best_prices_fronts b Hwf).
  cbn [fst snd stats_active_orders stats_bid_levels stats_ask_levels
         stats_total_orders stats_total_cancels stats_total_amends
         stats_best_bid stats_best_ask stats_spread].
  split_and!; try done.
  - by rewrite index_size.
  - by intros ->.
  - by intros ->.
Qed.

Lemma get_stats_spec_witness :
  wf book_three /\ no_orphans book_three /\
  stats_active_orders (fst (get_stats book_three))
    = u64 (Z.of_nat (length (book_ptrs book_three))).
Proof.
  assert (no_orphans book_three) as Hno.
  { apply (run_no_orphans
             [OpAdd (sample_order 1 true 100 10);
              OpAdd (sample_order 2 true 100 20);
              OpAdd (sample_order 3 false 101 30)] OrderBook_new wf_new
             no_orphans_new); [repeat constructor|].
    cbn. split_and!; try done; vm_compute; reflexivity. }
  split_and!; [exact book_three_wf | exact Hno |].
  exact (proj1 (get_stats_spec book_three book_three_wf Hno)).
Defined.

(** ** Books with an empty index *)

(** X13.  In a well-formed book without orphans, an empty index means an
    empty ladder: no level on either side, best prices [(0.0, max)], and
    [can_match] false. *)
Theorem empty_index_empty_ladder (b : OrderBook) :
  wf b -> no_orphans b -> order_lookup b = ∅ ->
  bid_levels b = [] /\ ask_levels b = [] /\
  fst (get_best_prices b) = (dbl_zero, dbl_max) /\
  fst (can_match b) = false.
Proof.
  intros Hwf Hno Hempty.
  assert (forall buy, side_of buy b = []) as Hsides.
  { intros buy. destruct (side_of buy b) as [|[k l] side] eqn:E; [done|].
    destruct (wf_sides b Hwf buy) as [_ Hall]. rewrite E in Hall.
    apply Forall_cons in Hall as [(_ & Hne & _) _]. cbn in Hne.
    destruct (orders l) as [|p ps] eqn:Eo; [done|].
    destruct (Hno p) as (n & _ & Hl).
    { apply book_ptrs_elem. exists buy. rewrite E, side_ptrs_cons. cbn.
      rewrite Eo. apply elem_of_cons. by left. }
    by rewrite Hempty, lookup_empty in Hl. }
  pose proof (Hsides true) as Hb. pose proof (Hsides false) as Ha.
  cbn [side_of] in Hb, Ha. split_and!; try done.
  - by rewrite (get_best_prices_fronts b Hwf), Hb, Ha.
  - unfold can_match. by rewrite Hb.
Qed.

Lemma empty_index_empty_ladder_witness :
  wf book_emptied /\ no_orphans book_emptied /\
  order_lookup book_emptied = ∅ /\ bid_levels book_emptied = [].
Proof.
  assert (Forall op_valid [OpAdd (sample_order 1 true 100 10); OpCancel 1])
    as Hv by (repeat constructor).
  assert (wf book_emptied) as Hwf by (apply run_wf; [exact wf_new | exact Hv]).
  assert (no_orphans book_emptied) as Hno.
  { apply run_no_orphans; [exact wf_new | exact no_orphans_new | exact Hv |].
    cbn. split_and!; try done; vm_compute; reflexivity. }
  assert (order_lookup book_emptied = ∅) as He by (vm_compute; reflexivity).
  split_and!; [exact Hwf | exact Hno | exact He |].
  exact (proj1 (empty_index_empty_ladder book_emptied Hwf Hno He)).
Defined.

(** ** Counters against the index *)

Lemma add_order_counted o b :
  order_lookup b !! order_id o = None ->
  counters_balanced b -> counters_balanced (add_order o b).
Proof.
  unfold counters_balanced. intros Hfresh Hc.
  rewrite add_order_unfold. cbn [order_lookup total_orders total_cancels].
  unfold lookup_emplace. rewrite Hfresh.
  rewrite map_size_insert_None by done.
  rewrite Nat2Z.inj_succ, <- Z.add_1_r, u64_sub_l.
  rewrite (u64_shift _ _ 1 Hc). f_equal. lia.
Qed.

Lemma cancel_order_counted id b :
  counters_balanced b -> counters_balanced (snd (cancel_order id b)).
Proof.
  unfold counters_balanced. intros Hc.
  destruct (order_lookup b !! id) as [node|] eqn:Hid;
    [|by rewrite (cancel_order_absent id b Hid)].
  destruct (heap b !! node) as [n|] eqn:Hn.
  2:{ unfold cancel_order. by rewrite Hid, Hn. }
  rewrite (cancel_order_found id b node n Hid Hn).
  cbn [snd order_lookup total_orders total_cancels].
  assert (size (order_lookup b) = S (size (delete id (order_lookup b)))) as Hs.
  { rewrite <- (map_size_insert_None id node) by apply lookup_delete_eq.
    by rewrite insert_delete_id. }
  rewrite Hs, Nat2Z.inj_succ, <- Z.add_1_r in Hc.
  rewrite u64_sub_r. pose proof (u64_shift _ _ (- 1) Hc) as H.
  replace (Z.of_nat (size (delete id (order_lookup b))) + 1 + - 1)
    with (Z.of_nat (size (delete id (order_lookup b)))) in H by lia.
  rewrite H. f_equal. lia.
Qed.

Lemma step_counted b a :
  wf b ->
  match a with
  | OpAdd o => order_lookup b !! order_id o = None
  | _ => True
  end ->
  counters_balanced b -> counters_balanced (step b a).
Proof.
  intros Hwf Hfresh Hc.
  destruct a as [o|id|now id np nq|depth bids asks|]; cbn [step].
  - by apply add_order_counted.
  - by apply cancel_order_counted.
  - destruct (order_lookup b !! id) as [node|] eqn:Hid;
      [|by rewrite (amend_order_absent _ _ _ _ _ Hid)].
    destruct (wf_lookup b id node Hwf Hid) as (n & _ & Hn & Hi & _).
    destruct (price_changes (price (order n)) np) eqn:Hpc.
    + rewrite (amend_order_price _ _ _ _ _ _ _ Hid Hn Hpc). cbn [snd].
      change (counters_balanced (bump_amends ?x)) with (counters_balanced x).
      apply add_order_counted; [|by apply cancel_order_counted].
      cbn [order_id]. rewrite Hi, (cancel_order_found id b node n Hid Hn).
      apply lookup_delete_eq.
    + by rewrite (amend_order_quantity _ _ _ _ _ _ _ Hid Hn Hpc).
  - done.
  - unfold counters_balanced, get_best_prices. by destruct (cache_valid b).
Qed.

Lemma run_counted ops b :
  wf b -> counters_balanced b -> Forall op_valid ops -> ids_fresh ops b ->
  counters_balanced (run ops b).
Proof.
  intros Hwf Hc Hv. revert b Hwf Hc.
  induction Hv as [|a ops Ha _ IH]; intros b Hwf Hc Hf; [done|].
  destruct Hf as [Hf1 Hf2]. cbn [run fold_left]. fold (run ops (step b a)).
  apply IH; [by apply step_wf | by apply step_counted | done].
Qed.

(** X14.  After any sequence of operations on a new book that adds
    numbers as prices and never adds an id that is indexed, the number of
    active orders [get_stats] reports is the number of adds counted minus
    the number of cancels counted, modulo [2^64], and is the number of
    nodes held by the FIFOs: a cancel that fails is not counted, and an
    amend that changes the price counts one cancel and one add. *)
Theorem active_orders_counted (ops : list op) :
  Forall op_valid ops -> ids_fresh ops OrderBook_new ->
  let b := run ops OrderBook_new in
  let s := fst (get_stats b) in
  stats_active_orders s = u64 (stats_total_orders s - stats_total_cancels s) /\
  stats_active_orders s = u64 (Z.of_nat (length (book_ptrs b))).
Proof.
  intros Hv Hf. cbn zeta.
  pose proof (run_wf ops OrderBook_new wf_new Hv) as Hwf.
  pose proof (run_no_orphans ops OrderBook_new wf_new no_orphans_new Hv Hf)
    as Hno.
  assert (counters_balanced OrderBook_new) as Hc0 by done.
  pose proof (run_counted ops OrderBook_new wf_new Hc0 Hv Hf) as Hc.
  unfold get_stats.
  cbn [fst stats_active_orders stats_total_orders stats_total_cancels].
  split; [exact Hc|]. by rewrite index_size.
Qed.

Lemma active_orders_counted_witness :
  Forall op_valid [OpAdd (sample_order 1 true 100 10);
                   OpAdd (sample_order 2 false 101 20);
                   OpCancel 1; OpCancel 7] /\
  ids_fresh [OpAdd (sample_order 1 true 100 10);
             OpAdd (sample_order 2 false 101 20);
             OpCancel 1; OpCancel 7] OrderBook_new /\
  let b := run [OpAdd (sample_order 1 true 100 10);
                OpAdd (sample_order 2 false 101 20);
                OpCancel 1; OpCancel 7] OrderBook_new in
  let s := fst (get_stats b) in
  stats_active_orders s = u64 (stats_total_orders s - stats_total_cancels s).
Proof.
  assert (Forall op_valid [OpAdd (sample_order 1 true 100 10);
                           OpAdd (sample_order 2 false 101 20);
                           OpCancel 1; OpCancel 7]) as Hv
    by (repeat constructor).
  assert (ids_fresh [OpAdd (sample_order 1 true 100 10);
                     OpAdd (sample_order 2 false 101 20);
                     OpCancel 1; OpCancel 7] OrderBook_new) as Hf
    by (cbn; split_and!; try done; vm_compute; reflexivity).
  split_and!; [exact Hv | exact Hf |].
  exact (proj1 (active_orders_counted _ Hv Hf)).
Defined.

(** ** Nodes the index has lost *)

Lemma step_orphan b a p n :
  wf b -> op_valid a ->
  p ∈ book_ptrs b -> heap b !! p = Some n ->
  (forall id, order_lookup b !! id <> Some p) ->
  p ∈ book_ptrs (step b a) /\ heap (step b a) !! p = Some n /\
  (forall id, order_lookup (step b a) !! id <> Some p).
Proof.
  intros Hwf Hv Hp Hn Hnot.
  destruct (step_unnamed_node b a p n Hwf Hv Hp Hn) as (Hn' & Hfifo).
  { intros idc _. apply Hnot. }
  pose proof (step_wf b a Hwf Hv) as Hwf'.
  split_and!; [by apply (wf_fifo_elem _ _ _ _ Hwf' Hfifo) | done |].
  intros i Hi.
  destruct a as [o|id|now id np nq|depth bids asks|]; cbn [step] in *.
  - rewrite add_order_lookup in Hi. unfold lookup_emplace in Hi.
    destruct (order_lookup b !! order_id o) eqn:E; [by apply (Hnot i)|].
    apply lookup_insert_Some in Hi as [[_ Hi]|[_ Hi]]; [|by apply (Hnot i)].
    apply (next_node_fresh b Hwf). by rewrite Hi.
  - destruct (order_lookup b !! id) as [node|] eqn:Hid.
    2:{ rewrite (cancel_order_absent id b Hid) in Hi. by apply (Hnot i). }
    destruct (wf_lookup b id node Hwf Hid) as (m & _ & Hm & _).
    rewrite (cancel_order_found id b node m Hid Hm) in Hi. cbn in Hi.
    apply lookup_delete_Some in Hi as [_ Hi]. by apply (Hnot i).
  - destruct (order_lookup b !! id) as [node|] eqn:Hid.
    2:{ rewrite (amend_order_absent _ _ _ _ _ Hid) in Hi. by apply (Hnot i). }
    destruct (wf_lookup b id node Hwf Hid) as (m & l0 & Hm & Hmi & _ & Hf & Hin).
    destruct (price_changes (price (order m)) np) eqn:Hpc.
    + destruct (amend_order_price_result now id np nq b node m Hwf Hid Hm Hpc)
        as (Hwf1 & Hl & _).
      assert (order_lookup (snd (cancel_order id b))
              = delete id (order_lookup b)) as Hl1
        by (by rewrite (cancel_order_found id b node m Hid Hm)).
      rewrite (amend_order_price _ _ _ _ _ _ _ Hid Hm Hpc) in Hi.
      cbn [snd] in Hi.
      change (order_lookup (bump_amends ?x)) with (order_lookup x) in Hi.
      rewrite add_order_lookup in Hi. cbn [order_id] in Hi.
      unfold lookup_emplace in Hi.
      rewrite Hmi, Hl1, lookup_delete_eq in Hi.
      apply lookup_insert_Some in Hi as [[_ Hi]|[_ Hi]].
      * apply (next_node_fresh _ Hwf1). rewrite Hi.
        pose proof (cancel_order_ptrs id b node m l0 Hid Hm Hf Hin) as Hperm.
        rewrite Hperm in Hp. apply elem_of_cons in Hp as [->|Hp]; [|done].
        by destruct (Hnot id).
      * apply lookup_delete_Some in Hi as [_ Hi]. by apply (Hnot i).
    + rewrite (amend_order_quantity _ _ _ _ _ _ _ Hid Hm Hpc) in Hi.
      by apply (Hnot i).
  - by apply (Hnot i).
  - apply (Hnot i). revert Hi. unfold get_best_prices.
    by destruct (cache_valid b).
Qed.

(** X15.  A node held by a FIFO that no index entry points to (the node a
    second [add_order] with an indexed id leaves behind) is out of reach
    for good: whatever operations follow, it stays in the FIFO of its
    level with its contents unchanged, and no index entry ever points to
    it again. *)
Theorem orphan_stays (b : OrderBook) (ops : list op) (p : ptr)
    (n : OrderNode) :
  wf b -> Forall op_valid ops ->
  p ∈ book_ptrs b -> heap b !! p = Some n ->
  (forall id, order_lookup b !! id <> Some p) ->
  let b' := run ops b in
  heap b' !! p = Some n /\
  p ∈ fifo_at (comp_of (is_buy (order n))) (price (order n))
        (side_of (is_buy (order n)) b') /\
  (forall id, order_lookup b' !! id <> Some p).
Proof.
  intros Hwf Hv Hp Hn Hnot. cbn zeta.
  assert (p ∈ book_ptrs (run ops b) /\ heap (run ops b) !! p = Some n /\
          (forall id, order_lookup (run ops b) !! id <> Some p)) as (H1 & H2 & H3).
  { revert b Hwf Hp Hn Hnot.
    induction Hv as [|a ops Ha Hv IH]; intros b Hwf Hp Hn Hnot; [done|].
    cbn [run fold_left]. fold (run ops (step b a)).
    destruct (step_orphan b a p n Hwf Ha Hp Hn Hnot) as (? & ? & ?).
    apply IH; try done. by apply step_wf. }
  split_and!; try done.
  pose proof (run_wf ops b Hwf Hv) as Hwf'.
  apply book_ptrs_elem in H1 as (buy & Hside).
  destruct (wf_node _ buy p Hwf' Hside) as (n' & l0 & Hn' & Hb & _ & Hf & Hin).
  assert (n' = n) as -> by congruence. subst buy.
  unfold fifo_at. by rewrite Hf.
Qed.

Lemma orphan_stays_witness :
  wf (add_order (sample_order 1 true 100 5) book_one) /\
  Forall op_valid [OpCancel 1; OpAdd (sample_order 1 true 100 7)] /\
  (0%nat, 1%nat) ∈ book_ptrs (add_order (sample_order 1 true 100 5) book_one) /\
  heap (add_order (sample_order 1 true 100 5) book_one) !! (0%nat, 1%nat)
    = Some (OrderNode_new (sample_order 1 true 100 5)) /\
  (forall id, order_lookup (add_order (sample_order 1 true 100 5) book_one)
                !! id <> Some (0%nat, 1%nat)) /\
  heap (run [OpCancel 1; OpAdd (sample_order 1 true 100 7)]
          (add_order (sample_order 1 true 100 5) book_one)) !! (0%nat, 1%nat)
    = Some (OrderNode_new (sample_order 1 true 100 5)).
Proof.
  assert (wf (add_order (sample_order 1 true 100 5) book_one)) as Hwf
    by (apply add_order_wf; [exact book_one_wf | reflexivity]).
  assert (Forall op_valid [OpCancel 1; OpAdd (sample_order 1 true 100 7)])
    as Hv by (repeat constructor).
  assert ((0%nat, 1%nat)
            ∈ book_ptrs (add_order (sample_order 1 true 100 5) book_one))
    as Hp by (vm_compute; apply elem_of_cons; right; apply elem_of_cons; by left).
  assert (heap (add_order (sample_order 1 true 100 5) book_one)
            !! (0%nat, 1%nat)
          = Some (OrderNode_new (sample_order 1 true 100 5))) as Hn
    by (vm_compute; reflexivity).
  assert (forall id,
            order_lookup (add_order (sample_order 1 true 100 5) book_one)
              !! id <> Some (0%nat, 1%nat)) as Hnot.
  { intros id.
    assert (order_lookup (add_order (sample_order 1 true 100 5) book_one)
            = {[1 := (0%nat, 0%nat)]}) as -> by (vm_compute; reflexivity).
    intros [_ H]%lookup_singleton_Some. discriminate H. }
  split_and!; [exact Hwf | exact Hv | exact Hp | exact Hn | exact Hnot |].
  exact (proj1 (orphan_stays _ _ _ _ Hwf Hv Hp Hn Hnot)).
Defined.

(** ** Snapshots against best prices *)

Lemma get_snapshot_returned depth bids0 asks0 b env bids asks :
  fst (get_snapshot depth bids0 asks0 b) env = Returned bids asks ->
  depth <= vector_max_size /\
  bids = snapshot_side 0 depth (bid_levels b) [] /\
  asks = snapshot_side 0 depth (ask_levels b) [].
Proof.
  unfold get_snapshot. cbn [fst].
  pose proof (vector_reserve_spec (bids_capacity env) (bids_served env) depth)
    as Hb.
  destruct (vector_reserve (bids_capacity env) _ depth); [done|].
  destruct (vector_reserve (asks_capacity env) _ depth); [done|].
  intros [= <- <-]. by destruct Hb.
Qed.

(** X16.  When a snapshot of depth at least one returns, it agrees with
    the best prices read after it: the first bid entry is the front level
    of the bid side and carries the best bid, the first ask entry the
    front level of the ask side and the best ask, and a side comes back
    empty only when the ladder has no level there, the best price then
    being the sentinel. *)
Theorem snapshot_top_is_best (depth : Z) (bids0 asks0 : list PriceLevel)
    (b : OrderBook) (env : snapshot_env) (bids asks : list PriceLevel) :
  wf b -> 1 <= depth < 2 ^ 64 ->
  fst (get_snapshot depth bids0 asks0 b) env = Returned bids asks ->
  let best :=
    fst (get_best_prices (snd (get_snapshot depth bids0 asks0 b))) in
  match bids with
  | [] => bid_levels b = [] /\ fst best = dbl_zero
  | e :: _ => pl_price e = fst best /\
              exists l rest, bid_levels b = (pl_price e, l) :: rest /\
                             pl_total_quantity e = total_quantity l
  end /\
  match asks with
  | [] => ask_levels b = [] /\ snd best = dbl_max
  | e :: _ => pl_price e = snd best /\
              exists l rest, ask_levels b = (pl_price e, l) :: rest /\
                             pl_total_quantity e = total_quantity l
  end.
Proof.
  intros Hwf Hd Hr. cbn zeta.
  destruct (get_snapshot_returned _ _ _ _ _ _ _ Hr) as (Hm & -> & ->).
  rewrite (get_best_prices_fronts _ (get_snapshot_wf depth bids0 asks0 b Hwf)).
  unfold get_snapshot. cbn [fst snd bid_levels ask_levels].
  rewrite !snapshot_side_spec by lia. rewrite !Z.sub_0_r. cbn [app].
  replace (Z.to_nat depth) with (S (Z.to_nat (depth - 1))) by lia.
  split.
  - destruct (bid_levels b) as [|[k l] rest]; [done|].
    cbn. split; [done|]. by exists l, rest.
  - destruct (ask_levels b) as [|[k l] rest]; [done|].
    cbn. split; [done|]. by exists l, rest.
Qed.

Lemma snapshot_top_is_best_witness :
  wf book_three /\ 1 <= 5 < 2 ^ 64 /\
  fst (get_snapshot 5 [] [] book_three) roomy
    = Returned (map level_entry (bid_levels book_three))
               (map level_entry (ask_levels book_three)) /\
  let best := fst (get_best_prices (snd (get_snapshot 5 [] [] book_three))) in
  match map level_entry (bid_levels book_three) with
  | [] => bid_levels book_three = [] /\ fst best = dbl_zero
  | e :: _ => pl_price e = fst best /\
              exists l rest, bid_levels book_three = (pl_price e, l) :: rest /\
                             pl_total_quantity e = total_quantity l
  end.
Proof.
  assert (fst (get_snapshot 5 [] [] book_three) roomy
          = Returned (map level_entry (bid_levels book_three))
                     (map level_entry (ask_levels book_three))) as Hr
    by (vm_compute; reflexivity).
  split_and!; [exact book_three_wf | lia | lia | exact Hr |].
  refine (proj1 (snapshot_top_is_best 5 [] [] book_three roomy _ _
                   book_three_wf _ Hr)).
  lia.
Defined.
